(** * Test Series Tracker: derived metrics, filtering, aggregation and codecs

    A shallow embedding of the computational core of
    [src/TestSeriesTracker.jsx] (the local-storage tracker) and of the
    form statistics of [src/src/TestSeriesTracker.jsx] (the cloud tracker),
    together with the properties the specification states about them.

    JavaScript numbers are IEEE 754 binary64 values.  They are modelled by
    the standard library's [spec_float] with the binary64 parameters
    (53 bits of precision, exponent bound 1024), so every arithmetic
    operation below rounds exactly as the engine does. *)

From Stdlib Require Import ZArith QArith Qpower Lia List String Ascii Bool.
From Stdlib Require Import Permutation Sorted.
From Stdlib Require Import SpecFloat DecimalString.
From Stdlib Require OrderedTypeEx.
Import ListNotations.

Local Open Scope Z_scope.

(* ------------------------------------------------------------------ *)
(** ** JavaScript numbers *)

Module JSNumber.

Definition number := spec_float.

Definition prec : Z := 53.
Definition emax : Z := 1024.

Definition NaN : number := S754_nan.
Definition zero : number := S754_zero false.

Definition add : number -> number -> number := SFadd prec emax.
Definition sub : number -> number -> number := SFsub prec emax.
Definition mul : number -> number -> number := SFmul prec emax.
Definition div : number -> number -> number := SFdiv prec emax.

(** The relational operators [<], [<=], [>], [>=]; each is [false] as soon
    as one operand is [NaN]. *)
Definition lt (x y : number) : bool := SFltb x y.
Definition le (x y : number) : bool := SFleb x y.
Definition gt (x y : number) : bool := SFltb y x.
Definition ge (x y : number) : bool := SFleb y x.

Definition isNaN (x : number) : bool :=
  match x with S754_nan => true | _ => false end.

(** ToBoolean on a number: [0], [-0] and [NaN] are falsy. *)
Definition truthy (x : number) : bool :=
  match x with
  | S754_zero _ | S754_nan => false
  | _ => true
  end.

(** [x || d] on numbers. *)
Definition or_else (x d : number) : number := if truthy x then x else d.

(** Conversion of an integer to the nearest binary64 value.  Integers of
    at most 53 bits are represented exactly, with the mantissa left-aligned
    the way every arithmetic operation returns it. *)
Definition of_pos (s : bool) (p : positive) : number :=
  let d := Z.pos (digits2_pos p) in
  if d <=? prec
  then S754_finite s (Pos.shiftl p (Z.to_N (prec - d))) (d - prec)
  else binary_round prec emax s p 0.

Definition of_Z (n : Z) : number :=
  match n with
  | Z0 => zero
  | Zpos p => of_pos false p
  | Zneg p => of_pos true p
  end.

Definition of_nat (n : nat) : number := of_Z (Z.of_nat n).

(** The signed mantissa of a finite number. *)
Definition signed (s : bool) (m : positive) : Z :=
  if s then Z.neg m else Z.pos m.

(** The exact value of a finite number, as a rational: the number
    [S754_finite s m e] is [(-1)^s * m * 2^e]. *)
Definition exact (x : number) : option Q :=
  match x with
  | S754_zero _ => Some 0%Q
  | S754_finite s m e => Some (inject_Z (signed s m) * 2 ^ e)%Q
  | _ => None
  end.

(** [floor (x + 1/2)] for the finite non-zero number [(-1)^s * m * 2^e]. *)
Definition round_half_up (s : bool) (m : positive) (e : Z) : Z :=
  let z := signed s m in
  match e with
  | Zneg k => (2 * z + 2 ^ Z.pos k) / 2 ^ (Z.pos k + 1)
  | _ => z * 2 ^ e
  end.

(** [Math.round]: the integer nearest to [x], ties going towards
    [+Infinity]; [NaN], the infinities and the zeros are returned as they
    are, and a negative [x] that rounds to zero gives [-0]. *)
Definition Math_round (x : number) : number :=
  match x with
  | S754_finite s m e =>
      match e with
      | Zneg _ =>
          match round_half_up s m e with
          | Z0 => S754_zero s
          | n => of_Z n
          end
      | _ => x
      end
  | _ => x
  end.

(** What a rounding returns for a non-zero value: a non-zero number or an
    infinity of the given sign, with an exponent of at least [emin]. *)
Definition nonzero_with_sign (s : bool) (x : number) : Prop :=
  match x with
  | S754_finite s' _ e => s' = s /\ (emin prec emax <= e)%Z
  | S754_infinity s' => s' = s
  | _ => False
  end.

(** Numbers whose exponent is at least [emin], as every operation returns
    them. *)
Definition bounded_below (x : number) : Prop :=
  match x with
  | S754_finite _ _ e => (emin prec emax <= e)%Z
  | _ => True
  end.

(** A finite number whose value is an integer. *)
Definition whole (x : number) : Prop :=
  match exact x with
  | Some q => exists n : Z, (q == inject_Z n)%Q
  | None => False
  end.

(** [x <= y] on the extended real line, for numbers other than [NaN]: the
    order of the exact values, with the infinities at the ends. *)
Definition at_most (x y : number) : Prop :=
  match x, y with
  | S754_nan, _ | _, S754_nan => False
  | S754_infinity true, _ => True
  | _, S754_infinity false => True
  | S754_infinity false, _ => False
  | _, S754_infinity true => False
  | _, _ =>
      match exact x, exact y with
      | Some p, Some q => (p <= q)%Q
      | _, _ => False
      end
  end.

End JSNumber.

Import JSNumber.


(* ------------------------------------------------------------------ *)
(** ** JavaScript strings and arrays *)

Module JSString.

Definition quote : ascii := "034"%char.
Definition newline : ascii := "010"%char.
Definition comma : ascii := ","%char.

Definition str (c : ascii) : string := String c EmptyString.

(** ToBoolean on a string: only the empty string is falsy. *)
Definition nonempty (s : string) : bool :=
  match s with EmptyString => false | _ => true end.

(** [s || d] on strings. *)
Definition or_default (s d : string) : string := if nonempty s then s else d.

(** [s.includes(sub)]. *)
Fixpoint includes (s sub : string) : bool :=
  prefix sub s ||
  match s with
  | EmptyString => false
  | String _ s' => includes s' sub
  end.

(** [s.replace] of every quote character by two quote characters. *)
Fixpoint double_quotes (s : string) : string :=
  match s with
  | EmptyString => EmptyString
  | String c s' =>
      if Ascii.eqb c quote
      then String quote (String quote (double_quotes s'))
      else String c (double_quotes s')
  end.

(** [list.join(sep)]. *)
Definition join (sep : string) (l : list string) : string := concat sep l.

End JSString.

Import JSString.

Module JSArray.

Section Sort.
Context {A : Type}.
Variable cmp : A -> A -> number.

(** [Array.prototype.sort(cmp)] is a stable sort: [a] is moved behind [b]
    only when [cmp(a, b) > 0].  For a consistent comparator the result is
    the same for every stable algorithm; it is computed here by insertion
    from the right.  For a comparator that is not consistent, as the
    difference of two dates is when one of them is invalid and the
    result [NaN], the order is left to the implementation, and the order
    computed here need not be the one an engine produces: what is proved
    about the order of a sorted list assumes valid dates, and only that
    the result is a rearrangement of the input is used without them. *)
Fixpoint insert (x : A) (l : list A) : list A :=
  match l with
  | [] => [x]
  | y :: l' => if gt (cmp x y) zero then y :: insert x l' else x :: l
  end.

Definition sort (l : list A) : list A := fold_right insert [] l.
End Sort.

(** [l.slice(0, n)]. *)
Definition slice0 {A} (n : nat) (l : list A) : list A := firstn n l.

End JSArray.

Import JSArray.

Local Open Scope string_scope.

(* ------------------------------------------------------------------ *)
(** ** The local-storage tracker, [src/TestSeriesTracker.jsx] *)

Module Tracker.

Definition TEST_CATEGORIES : list string :=
  ["Topic Wise"; "Subjectwise"; "Multisubject Wise"; "Full Length"; "Mock"].
Definition FULL_TEST_CATEGORIES : list string :=
  ["Multisubject Wise"; "Full Length"; "Mock"].
Definition TEST_PROVIDERS : list string :=
  ["Ace Academy"; "PrepFusion"; "Gate Academy"; "Other"].
Definition SUBJECT_REQUIRED_CATEGORIES : list string :=
  ["Topic Wise"; "Subjectwise"].
Definition DEFAULT_MULTI_SUBJECT : string := "Multi-Subject/Full Test".
Definition ECE_SUBJECTS : list string :=
  ["Engineering Mathematics"; "General Aptitude"; "Network Theory";
   "Electronic Devices (EDC)"; "Analog Circuits"; "Digital Circuits";
   "Control Systems"; "Electromagnetics (EMT)"; "Communication Systems";
   "Signals and Systems"; "Computer Organization & Architecture";
   DEFAULT_MULTI_SUBJECT; "Other/Unknown"].

(** [TEST_CATEGORIES[0]], [TEST_PROVIDERS[0]] and [ECE_SUBJECTS[0]]. *)
Definition first_category : string := hd EmptyString TEST_CATEGORIES.
Definition first_provider : string := hd EmptyString TEST_PROVIDERS.
Definition first_subject : string := hd EmptyString ECE_SUBJECTS.

(** *** Data *)

(** A stored test attempt.  The optional numeric fields hold [None] for the
    JavaScript [null]. *)
Record entry := mkEntry {
  id : string;
  subject : string;
  category : string;
  provider : string;
  maxMarks : number;
  obtainedMarks : number;
  percentage : number;
  correctCount : option number;
  incorrectCount : option number;
  notAttemptedCount : option number;
  testRank : option number;
  totalTestTakers : option number;
  rankPercentile : option number;
  date : string;
  notes : string
}.

(** The entry form.  Every input delivers its text, so the numeric fields
    are strings here; [form_id] is [null] for a new entry. *)
Record form_data := mkForm {
  form_id : option string;
  form_subject : string;
  form_category : string;
  form_provider : string;
  form_maxMarks : string;
  form_obtainedMarks : string;
  form_correctCount : string;
  form_incorrectCount : string;
  form_notAttemptedCount : string;
  form_testRank : string;
  form_totalTestTakers : string;
  form_date : string;
  form_notes : string
}.

Inductive toast_type := success | error.

Record toast := mkToast { message : string; type : toast_type }.

(** The component state the modelled handlers read and write. *)
Record state := mkState {
  tests : list entry;
  form : form_data;
  filterProvider : string;
  filterSubject : string;
  dateFrom : string;
  dateTo : string;
  search : string;
  toastAlert : option toast
}.

Definition setToastAlert (t : option toast) (st : state) : state :=
  mkState (tests st) (form st) (filterProvider st) (filterSubject st)
          (dateFrom st) (dateTo st) (search st) t.

Definition setTests (l : list entry) (st : state) : state :=
  mkState l (form st) (filterProvider st) (filterSubject st)
          (dateFrom st) (dateTo st) (search st) (toastAlert st).

Definition setForm (f : form_data) (st : state) : state :=
  mkState (tests st) f (filterProvider st) (filterSubject st)
          (dateFrom st) (dateTo st) (search st) (toastAlert st).

(** A value read from a record of an imported file. *)
Inductive jsval :=
| JUndefined
| JNull
| JBool (b : bool)
| JNum (x : number)
| JStr (s : string).

(** An element of an imported array, seen through the thirteen properties
    the import reads.  A text property is [None] when it is absent, [null]
    or otherwise falsy, and its string otherwise; a numeric property is any
    scalar.  A text property that holds a truthy value other than a string
    (a number, [true]), which the import would store as it is, is not
    represented: the records modelled are those whose text properties are
    strings, as in every file the export writes. *)
Record raw_record := mkRaw {
  raw_id : option string;
  raw_subject : option string;
  raw_category : option string;
  raw_provider : option string;
  raw_maxMarks : jsval;
  raw_obtainedMarks : jsval;
  raw_correctCount : jsval;
  raw_incorrectCount : jsval;
  raw_notAttemptedCount : jsval;
  raw_testRank : jsval;
  raw_totalTestTakers : jsval;
  raw_date : option string;
  raw_notes : option string
}.

(** The text of an interchange file, represented by what [JSON.parse]
    makes of it: a syntax error, a scalar, an object, or an array.  An
    array element is [None] when it is [null] (reading a property of it
    throws) and a record otherwise. *)
Inductive file_content :=
| Unparsable (syntax_error : string)
| TopScalar (v : jsval)
| TopObject (properties : list (string * jsval))
| TopArray (items : list (option raw_record)).

Definition isArray (c : file_content) : bool :=
  match c with TopArray _ => true | _ => false end.

(** [d.text || fallback] for a text property. *)
Definition text_or (v : option string) (fallback : string) : string :=
  match v with
  | Some s => or_default s fallback
  | None => fallback
  end.

(** [Math.round(x * 10000) / 100], the two-decimal rounding used for both
    derived fields. *)
Definition round_to_hundredths (x : number) : number :=
  div (Math_round (mul x (of_Z 10000))) (of_Z 100).

Definition percentage_of (obt max : number) : number :=
  round_to_hundredths (div obt max).

Definition rankPercentile_of (rank totalTakers : number) : number :=
  round_to_hundredths (sub (of_Z 1) (div rank totalTakers)).

(** *** Handlers *)

Section Handlers.

(** The host's built-in conversions, which are not code of the tracker:
    [Number(text)], [String(number)], [String.prototype.trim],
    [String.prototype.toLowerCase], the time value of [new Date(text)]
    ([NaN] for an invalid date), and the message of the [TypeError]
    raised by a property read on [null]. *)
Variable StringToNumber : string -> number.
Variable NumberToString : number -> string.
Variable trim : string -> string.
Variable toLowerCase : string -> string.
Variable DateTime : string -> number.
Variable TypeError_message : string.

(** [Number(v)] for a scalar. *)
Definition Number (v : jsval) : number :=
  match v with
  | JUndefined => NaN
  | JNull => zero
  | JBool b => if b then of_Z 1 else zero
  | JNum x => x
  | JStr s => StringToNumber s
  end.

(** The comparator [new Date(b.date) - new Date(a.date)] (newest first). *)
Definition newest_first (a b : entry) : number :=
  sub (DateTime (date b)) (DateTime (date a)).

Definition resetForm (today : string) : form_data :=
  mkForm None first_subject first_category first_provider
         EmptyString EmptyString EmptyString EmptyString EmptyString
         EmptyString EmptyString today EmptyString.

(** An error toast; nothing else changes. *)
Definition reject (msg : string) (st : state) : state :=
  setToastAlert (Some (mkToast msg error)) st.

(** The updater passed to [setTests]: replace the entry with the same id
    when there is one, otherwise put the entry in front and sort newest
    first. *)
Definition add_or_replace (e : entry) (prev : list entry) : list entry * toast :=
  if existsb (fun p => String.eqb (id p) (id e)) prev
  then (map (fun p => if String.eqb (id p) (id e) then e else p) prev,
        mkToast "Test updated successfully!" success)
  else (sort newest_first (e :: prev),
        mkToast "Test added successfully!" success).

(** The first half of [handleAddOrUpdate]: the validation, with its
    early exits, and the entry built from the form.  The result is the
    message of the error toast or the entry; [fresh] is the value [uid()]
    returns and [today] the value of [formatDateInput(new Date())]. *)
Definition entry_of_form (fresh today : string) (f : form_data)
  : string + entry :=
  let max := StringToNumber (form_maxMarks f) in
  let obt := StringToNumber (form_obtainedMarks f) in
  let correct := StringToNumber (form_correctCount f) in
  let incorrect := StringToNumber (form_incorrectCount f) in
  let notAttempted := StringToNumber (form_notAttemptedCount f) in
  let rank := StringToNumber (form_testRank f) in
  let totalTakers := StringToNumber (form_totalTestTakers f) in
  let hasRank := nonempty (form_testRank f) && nonempty (form_totalTestTakers f) in
  if negb (nonempty (trim (form_subject f))) then
    inl "Please enter subject."
  else if negb (truthy max) || le max zero then
    inl "Max marks should be a positive number."
  else if isNaN obt || lt obt zero then
    inl "Obtained marks should be a non-negative number."
  else if gt obt max then
    inl "Obtained marks cannot be greater than Max Marks."
  else if isNaN correct || lt correct zero then
    inl "Correct count must be a non-negative number."
  else if isNaN incorrect || lt incorrect zero then
    inl "Incorrect count must be a non-negative number."
  else if isNaN notAttempted || lt notAttempted zero then
    inl "Not Attempted count must be a non-negative number."
  else if hasRank && (negb (truthy rank) || le rank zero) then
    inl "Your Rank must be a positive number."
  else if hasRank && (negb (truthy totalTakers) || le totalTakers zero) then
    inl "Total Test Takers must be a positive number."
  else if hasRank && gt rank totalTakers then
    inl "Your Rank cannot be greater than Total Test Takers."
  else
    let rankPercentile :=
      if hasRank then Some (rankPercentile_of rank totalTakers) else None in
    let hasCounts :=
      nonempty (form_correctCount f) || nonempty (form_incorrectCount f)
      || nonempty (form_notAttemptedCount f) in
    inr {| id := match form_id f with
                 | Some i => or_default i fresh
                 | None => fresh
                 end;
           subject := trim (form_subject f);
           category := form_category f;
           provider := form_provider f;
           maxMarks := max;
           obtainedMarks := obt;
           percentage := if truthy max then percentage_of obt max else zero;
           correctCount := if hasCounts then Some correct else None;
           incorrectCount := if hasCounts then Some incorrect else None;
           notAttemptedCount := if hasCounts then Some notAttempted else None;
           testRank := if hasRank then Some rank else None;
           totalTestTakers := if hasRank then Some totalTakers else None;
           rankPercentile := rankPercentile;
           date := or_default (form_date f) today;
           notes := form_notes f |}.

(** [handleAddOrUpdate]: an error toast and nothing else on a validation
    failure; otherwise the entry is stored and the form reset. *)
Definition handleAddOrUpdate (fresh today : string) (st : state) : state :=
  match entry_of_form fresh today (form st) with
  | inl msg => reject msg st
  | inr entry =>
      let (next, t) := add_or_replace entry (tests st) in
      setForm (resetForm today) (setToastAlert (Some t) (setTests next st))
  end.

(** One record of [data.map(...)] in [handleImportJSON]; [fresh] is the
    value [uid()] returns if it is called. *)
Definition normalize (fresh today : string) (d : raw_record) : entry :=
  let max := or_else (Number (raw_maxMarks d)) zero in
  let obt := or_else (Number (raw_obtainedMarks d)) zero in
  let rank := Number (raw_testRank d) in
  let totalTakers := Number (raw_totalTestTakers d) in
  let hasRank := gt rank zero && gt totalTakers zero && le rank totalTakers in
  {| id := text_or (raw_id d) fresh;
     subject := text_or (raw_subject d) "Unknown";
     category := text_or (raw_category d) first_category;
     provider := text_or (raw_provider d) first_provider;
     maxMarks := max;
     obtainedMarks := obt;
     correctCount :=
       if gt (Number (raw_correctCount d)) zero
       then Some (Number (raw_correctCount d)) else None;
     incorrectCount :=
       if gt (Number (raw_incorrectCount d)) zero
       then Some (Number (raw_incorrectCount d)) else None;
     notAttemptedCount :=
       if gt (Number (raw_notAttemptedCount d)) zero
       then Some (Number (raw_notAttemptedCount d)) else None;
     percentage := if truthy max then percentage_of obt max else zero;
     testRank := if hasRank then Some rank else None;
     totalTestTakers := if hasRank then Some totalTakers else None;
     rankPercentile :=
       if hasRank then Some (rankPercentile_of rank totalTakers) else None;
     date := text_or (raw_date d) today;
     notes := text_or (raw_notes d) EmptyString |}.

(** [data.map(...)]: the records in order, the [k]-th call of [uid()]
    returning [uid k]; [None] when an element is [null] and the property
    read throws. *)
Fixpoint normalize_all (uid : nat -> string) (k : nat) (today : string)
         (items : list (option raw_record)) : option (list entry) :=
  match items with
  | [] => Some []
  | None :: _ => None
  | Some d :: rest =>
      let k' := match text_or (raw_id d) EmptyString with
                | EmptyString => S k
                | _ => k
                end in
      match normalize_all uid k' today rest with
      | Some l => Some (normalize (uid k) today d :: l)
      | None => None
      end
  end.

(** [handleImportJSON], from the moment the file has been read. *)
Definition handleImportJSON (uid : nat -> string) (today : string)
           (file : file_content) (st : state) : state :=
  match file with
  | Unparsable msg => reject ("Failed to import: " ++ msg) st
  | TopArray items =>
      match normalize_all uid 0 today items with
      | Some normalized =>
          setToastAlert (Some (mkToast "Data imported successfully!" success))
            (setTests (sort newest_first (normalized ++ tests st)) st)
      | None => reject ("Failed to import: " ++ TypeError_message) st
      end
  | _ =>
      reject ("Failed to import: "
              ++ "Invalid file format. Ensure it's an array of test objects.") st
  end.

(** [handleExportJSON]: the text [JSON.stringify(tests, null, 2)],
    represented by the array it denotes.  [JSON.stringify] writes [NaN]
    and the infinities as [null] and [-0] as [0]. *)
Definition json_number (x : number) : jsval :=
  match x with
  | S754_nan | S754_infinity _ => JNull
  | S754_zero _ => JNum zero
  | S754_finite _ _ _ => JNum x
  end.

Definition json_nullable (v : option number) : jsval :=
  match v with
  | Some x => json_number x
  | None => JNull
  end.

Definition json_of_entry (t : entry) : raw_record :=
  {| raw_id := Some (id t);
     raw_subject := Some (subject t);
     raw_category := Some (category t);
     raw_provider := Some (provider t);
     raw_maxMarks := json_number (maxMarks t);
     raw_obtainedMarks := json_number (obtainedMarks t);
     raw_correctCount := json_nullable (correctCount t);
     raw_incorrectCount := json_nullable (incorrectCount t);
     raw_notAttemptedCount := json_nullable (notAttemptedCount t);
     raw_testRank := json_nullable (testRank t);
     raw_totalTestTakers := json_nullable (totalTestTakers t);
     raw_date := Some (date t);
     raw_notes := Some (notes t) |}.

Definition handleExportJSON (st : state) : file_content :=
  TopArray (map (fun t => Some (json_of_entry t)) (tests st)).

(** *** Tabular export *)

(** What a cell of a CSV row holds before it is escaped. *)
Inductive csv_value :=
| CsvNull
| CsvNumber (x : number)
| CsvText (s : string).

Definition csvEscape (val : csv_value) : string :=
  match val with
  | CsvNull => EmptyString
  | _ =>
      let s := match val with
               | CsvNumber x => NumberToString x
               | CsvText s => s
               | CsvNull => EmptyString
               end in
      if includes s (str comma) || includes s (str newline) || includes s (str quote)
      then str quote ++ double_quotes s ++ str quote
      else s
  end.

(** [v || ""] for an optional numeric field. *)
Definition or_blank (v : option number) : csv_value :=
  match v with
  | Some x => if truthy x then CsvNumber x else CsvText EmptyString
  | None => CsvText EmptyString
  end.

Definition csv_headers : list string :=
  ["subject"; "category"; "provider"; "maxMarks"; "obtainedMarks";
   "correctCount"; "incorrectCount"; "notAttemptedCount"; "percentage";
   "testRank"; "totalTestTakers"; "rankPercentile"; "date"; "notes"].

Definition csv_cells (t : entry) : list csv_value :=
  [CsvText (subject t); CsvText (category t); CsvText (provider t);
   CsvNumber (maxMarks t); CsvNumber (obtainedMarks t);
   or_blank (correctCount t); or_blank (incorrectCount t);
   or_blank (notAttemptedCount t);
   CsvNumber (percentage t);
   or_blank (testRank t); or_blank (totalTestTakers t);
   or_blank (rankPercentile t);
   CsvText (date t); CsvText (notes t)].

Definition csv_row (t : entry) : string :=
  join (str comma) (map csvEscape (csv_cells t)).

(** [handleExportCSV]: the text handed to the download. *)
Definition handleExportCSV (st : state) : string :=
  join (str newline) (join (str comma) csv_headers :: map csv_row (tests st)).

(** *** Filtering *)

Definition providerFilteredTests (st : state) : list entry :=
  if String.eqb (filterProvider st) "All" then tests st
  else filter (fun t => String.eqb (or_default (provider t) "Other")
                                   (filterProvider st))
              (tests st).

Definition filtered (st : state) : list entry :=
  filter
    (fun t =>
       if negb (String.eqb (filterSubject st) "All")
          && negb (String.eqb (subject t) (filterSubject st)) then false
       else if nonempty (dateFrom st)
               && lt (DateTime (date t)) (DateTime (dateFrom st)) then false
       else if nonempty (dateTo st)
               && gt (DateTime (date t)) (DateTime (dateTo st)) then false
       else if nonempty (search st) then
         let s := toLowerCase (search st) in
         if negb (includes (toLowerCase (subject t)) s)
            && negb (includes (toLowerCase (or_default (notes t) EmptyString)) s)
            && negb (includes (toLowerCase (or_default (category t) EmptyString)) s)
            && negb (includes (toLowerCase (or_default (provider t) EmptyString)) s)
         then false else true
       else true)
    (providerFilteredTests st).

End Handlers.

(** *** Aggregation *)

(** [Math.round(x * 100) / 100]. *)
Definition round2 (x : number) : number :=
  div (Math_round (mul x (of_Z 100))) (of_Z 100).

(** The accumulator kept per subject in [bySubject]. *)
Record group := mkGroup {
  sum : number;
  count : number;
  items : list entry
}.

Record subject_average := mkAverage {
  sa_subject : string;
  avg : number;
  sa_count : number;
  sa_items : list entry
}.

Record summary_data := mkSummary {
  totalTests : nat;
  summary_avg : number;
  subjectAverages : list subject_average;
  avgRankPercentile : option number;
  rankedTestsCount : nat
}.

(** [bySubject] is an object used as a map from subject to accumulator.
    It is kept as the list of its own properties in creation order; a
    subject that names a member inherited from [Object.prototype] is not
    a subject of the vocabulary and lies outside this model. *)
Definition object := list (string * group).



Fixpoint lookup (k : string) (o : object) : option group :=
  match o with
  | [] => None
  | (k', v) :: o' => if String.eqb k' k then Some v else lookup k o'
  end.

(** Assignment to [o[k]]: an existing property keeps its place, a new one
    is created last. *)
Fixpoint assign (k : string) (v : group) (o : object) : object :=
  match o with
  | [] => [(k, v)]
  | (k', v') :: o' =>
      if String.eqb k' k then (k, v) :: o' else (k', v') :: assign k v o'
  end.

(** One turn of the loop [for (const t of filtered)]. *)
Definition accumulate (o : object) (t : entry) : object :=
  if String.eqb (subject t) DEFAULT_MULTI_SUBJECT then o
  else
    let g := match lookup (subject t) o with
             | Some g => g
             | None => mkGroup zero zero []
             end in
    assign (subject t)
           (mkGroup (add (sum g) (percentage t))
                    (add (count g) (of_Z 1))
                    (items g ++ [t]))
           o.

Definition bySubject (l : list entry) : object := fold_left accumulate l [].

(** [Object.entries] lists the properties whose names are array indices
    first, by increasing index, and then the others in creation order.  An
    array index is a decimal numeral without a leading zero, below
    [2^32 - 1]. *)
Definition digit_value (c : ascii) : option N :=
  let n := N_of_ascii c in
  if ((48 <=? n) && (n <=? 57))%N then Some (n - 48)%N else None.

Fixpoint decimal_value (acc : N) (s : string) : option N :=
  match s with
  | EmptyString => Some acc
  | String c s' =>
      match digit_value c with
      | Some d => decimal_value (10 * acc + d) s'
      | None => None
      end
  end.

Definition array_index (s : string) : option N :=
  match s with
  | EmptyString => None
  | String c s' =>
      if Ascii.eqb c "0"%char && nonempty s' then None
      else match decimal_value 0 s with
           | Some n => if (n <? 4294967295)%N then Some n else None
           | None => None
           end
  end.

Definition is_array_index (s : string) : bool :=
  match array_index s with Some _ => true | None => false end.

Definition index_of (s : string) : N :=
  match array_index s with Some n => n | None => 0%N end.

Fixpoint insert_by_index {V} (p : string * V) (l : list (string * V))
  : list (string * V) :=
  match l with
  | [] => [p]
  | q :: l' =>
      if (index_of (fst p) <=? index_of (fst q))%N then p :: l
      else q :: insert_by_index p l'
  end.

Definition Object_entries {V} (o : list (string * V)) : list (string * V) :=
  fold_right insert_by_index [] (filter (fun p => is_array_index (fst p)) o)
  ++ filter (fun p => negb (is_array_index (fst p))) o.

(** [b.avg - a.avg] (highest average first) and [a.avg - b.avg] (lowest
    average first). *)
Definition by_avg_descending (a b : subject_average) : number :=
  sub (avg b) (avg a).
Definition by_avg_ascending (a b : subject_average) : number :=
  sub (avg a) (avg b).

Definition average_of (p : string * group) : subject_average :=
  mkAverage (fst p) (round2 (div (sum (snd p)) (count (snd p))))
            (count (snd p)) (items (snd p)).

Definition isNull {A} (v : option A) : bool :=
  match v with None => true | Some _ => false end.

Definition or_zero (v : option number) : number :=
  match v with Some x => or_else x zero | None => zero end.

(** The [summary] memo, as a function of the filtered list. *)
Definition summary (filtered : list entry) : summary_data :=
  let totalTests := List.length filtered in
  let totalPercentageSum :=
    fold_left (fun a b => add a (or_else (percentage b) zero)) filtered zero in
  let avg :=
    match totalTests with
    | O => zero
    | _ => round2 (div totalPercentageSum (of_nat totalTests))
    end in
  let subjectAverages :=
    sort by_avg_descending (map average_of (Object_entries (bySubject filtered))) in
  let rankedTests := filter (fun t => negb (isNull (rankPercentile t))) filtered in
  let totalRankPercentileSum :=
    fold_left (fun a b => add a (or_zero (rankPercentile b))) rankedTests zero in
  let avgRankPercentile :=
    match List.length rankedTests with
    | O => None
    | n => Some (round2 (div totalRankPercentileSum (of_nat n)))
    end in
  mkSummary totalTests avg subjectAverages avgRankPercentile (List.length rankedTests).

(** The [topWeakestSubjects] memo, as a function of [summary.subjectAverages]. *)
Definition topWeakestSubjects (averages : list subject_average)
  : list subject_average :=
  slice0 5 (sort by_avg_ascending
                 (filter (fun s => lt (avg s) (of_Z 65)) averages)).

(** *** Editing, deleting and clearing *)

Section Editing.

Variable NumberToString : number -> string.
Variable DateTime : string -> number.

(** [Date.prototype.toISOString] for a valid time value. *)
Variable toISOString : number -> string.

(** [formatDateInput(d)] for a date text.  [toISOString] raises a
    [RangeError] on an invalid date; [None] stands for that exception. *)
Definition formatDateInput (d : string) : option string :=
  if negb (nonempty d) then Some EmptyString
  else
    let date := DateTime d in
    if isNaN date then None else Some (substring 0 10 (toISOString date)).

(** [String(v || "")] for an optional numeric field. *)
Definition String_or_blank (v : option number) : string :=
  match v with
  | Some x => if truthy x then NumberToString x else EmptyString
  | None => EmptyString
  end.

(** [handleEdit(id)]: the form is loaded from the first entry with the id,
    and nothing happens when there is none.  [None] stands for the
    exception [formatDateInput] may raise, before the form is set. *)
Definition handleEdit (i : string) (st : state) : option state :=
  match find (fun x => String.eqb (id x) i) (tests st) with
  | None => Some st
  | Some t =>
      match formatDateInput (date t) with
      | None => None
      | Some d =>
          Some (setForm
                  (mkForm (Some (id t)) (subject t)
                          (or_default (category t) first_category)
                          (or_default (provider t) first_provider)
                          (NumberToString (maxMarks t))
                          (NumberToString (obtainedMarks t))
                          (String_or_blank (correctCount t))
                          (String_or_blank (incorrectCount t))
                          (String_or_blank (notAttemptedCount t))
                          (String_or_blank (testRank t))
                          (String_or_blank (totalTestTakers t))
                          d (notes t))
                  st)
      end
  end.

End Editing.

(** The [onChange] handler of the category select: a category that does
    not require a subject sets the subject to the multi-subject
    sentinel. *)
Definition category_onChange (newCategory : string) (f : form_data) : form_data :=
  let requiresSubject :=
    existsb (String.eqb newCategory) SUBJECT_REQUIRED_CATEGORIES in
  mkForm (form_id f)
         (if requiresSubject then form_subject f else DEFAULT_MULTI_SUBJECT)
         newCategory (form_provider f)
         (form_maxMarks f) (form_obtainedMarks f)
         (form_correctCount f) (form_incorrectCount f) (form_notAttemptedCount f)
         (form_testRank f) (form_totalTestTakers f)
         (form_date f) (form_notes f).

(** The pending confirmation: its message and the action of the Confirm
    button. *)
Record confirmation := mkConfirmation {
  confirm_message : string;
  onConfirm : state -> state
}.

(** The component state together with the confirmation dialog. *)
Record page := mkPage {
  current : state;
  confirmModal : option confirmation
}.

Definition setConfirmModal (c : option confirmation) (p : page) : page :=
  mkPage (current p) c.

Definition handleDelete (i : string) (p : page) : page :=
  setConfirmModal
    (Some (mkConfirmation
             "Are you sure you want to delete this test entry? This cannot be undone."
             (fun st =>
                setToastAlert (Some (mkToast "Test deleted." success))
                  (setTests (filter (fun x => negb (String.eqb (id x) i)) (tests st))
                            st))))
    p.

Definition handleClearAll (p : page) : page :=
  setConfirmModal
    (Some (mkConfirmation
             "Are you sure you want to clear all tests? This cannot be undone."
             (fun st =>
                setToastAlert (Some (mkToast "All test data cleared." success))
                  (setTests [] st))))
    p.

(** The two buttons of [ConfirmationModal], which is rendered only while a
    confirmation is pending. *)
Definition Confirm (p : page) : page :=
  match confirmModal p with
  | Some c => mkPage (onConfirm c (current p)) None
  | None => p
  end.

Definition Cancel (p : page) : page :=
  match confirmModal p with
  | Some _ => setConfirmModal None p
  | None => p
  end.

(** *** The subject filter options and the chart series *)

(** The comparison [Array.prototype.sort] uses without a comparator: the
    order of the strings by code units. *)
Definition default_compare (x y : string) : number :=
  match String.compare x y with
  | Lt => of_Z (-1)
  | Eq => zero
  | Gt => of_Z 1
  end.

(** The elements of [new Set(l)] in insertion order. *)
Definition Set_add (acc : list string) (x : string) : list string :=
  if existsb (String.eqb x) acc then acc else acc ++ [x].

Definition Set_of (l : list string) : list string := fold_left Set_add l [].

(** The [subjects] memo. *)
Definition subjects (tests : list entry) : list string :=
  let s := Set_of (map (fun t => or_default (subject t) "Unknown") tests) in
  let allSubjects := Set_of (s ++ ECE_SUBJECTS) in
  "All" :: sort default_compare allSubjects.

Record trend_point := mkTrendPoint {
  tp_name : string;
  tp_percentage : number;
  tp_category : string;
  tp_subject : string;
  tp_provider : string
}.

Record full_test_point := mkFullTestPoint {
  fp_name : string;
  fp_percentage : number;
  fp_category : string;
  fp_provider : string
}.

Record rank_point := mkRankPoint {
  rp_name : string;
  rp_rankPercentile : option number;
  rp_category : string;
  rp_subject : string;
  rp_provider : string
}.

Section Charts.

Variable DateTime : string -> number.

(** The comparator [new Date(a.date) - new Date(b.date)] (oldest first). *)
Definition oldest_first (a b : entry) : number :=
  sub (DateTime (date a)) (DateTime (date b)).

Definition overallTrendChartData (filtered : list entry) : list trend_point :=
  let arr := sort oldest_first filtered in
  map (fun t => mkTrendPoint (date t) (percentage t) (category t) (subject t)
                             (provider t))
      arr.

Definition fullTestChartData (filtered : list entry) : list full_test_point :=
  let arr :=
    sort oldest_first
         (filter (fun t => existsb (String.eqb (category t)) FULL_TEST_CATEGORIES)
                 filtered) in
  map (fun t => mkFullTestPoint (date t) (percentage t) (category t) (provider t))
      arr.

Definition rankChartData (filtered : list entry) : list rank_point :=
  let arr :=
    sort oldest_first
         (filter (fun t => negb (isNull (rankPercentile t))) filtered) in
  map (fun t => mkRankPoint (date t) (rankPercentile t) (category t) (subject t)
                            (provider t))
      arr.

End Charts.

(** *** Requests with retries *)

(** A response, as far as [fetchWithRetry] looks at it: the [ok] flag, the
    status, and what [errorJson.error?.message] yields once the body has
    been read as JSON; [None] when reading the body throws or when it
    holds no message. *)
Record response := mkResponse {
  ok : bool;
  status : N;
  body_error_message : option string
}.

(** What a call of [fetch] settles to. *)
Inductive settled :=
| Rejects (reason : string)
| Resolves (r : response).

(** The value caught in the loop: the reason [fetch] was rejected with,
    or the [Error] thrown for a response that is not [ok]. *)
Inductive caught :=
| Rejection (reason : string)
| HttpError (errorMessage : string).

(** What can be observed of the function from outside: the calls of
    [fetch] and the delays it waits for, in milliseconds. *)
Inductive step :=
| Fetch
| Wait (delay : Z).

Definition errorMessage_of (r : response) : string :=
  let errorMessage :=
    ("HTTP error! status: " ++ NilEmpty.string_of_uint (N.to_uint (status r)))%string in
  match body_error_message r with
  | Some m => or_default m errorMessage
  | None => errorMessage
  end.

(** The body of the [try] block: the response when it is [ok], or the
    value that is caught. *)
Definition attempt (s : settled) : caught + response :=
  match s with
  | Rejects reason => inl (Rejection reason)
  | Resolves r => if ok r then inr r else inl (HttpError (errorMessage_of r))
  end.

(** The loop [for (let i = 0; i < maxRetries; i++)] from the iteration
    [i] on, with [remaining] iterations to go; [network i] is what the
    call of [fetch] in iteration [i] settles to.  The result is the
    response returned or the value thrown, [None] for [null]. *)
Fixpoint retry (network : nat -> settled) (maxRetries remaining i : nat)
         (error : option caught) : list step * (option caught + response) :=
  match remaining with
  | O => ([], inl error)
  | S remaining' =>
      match attempt (network i) with
      | inr response => ([Fetch], inr response)
      | inl e =>
          let delay := (2 ^ Z.of_nat i * 1000)%Z in
          let (steps, outcome) :=
            retry network maxRetries remaining' (S i) (Some e) in
          (Fetch :: (if (i <? maxRetries - 1)%nat then [Wait delay] else []) ++ steps,
           outcome)
      end
  end.

Definition fetchWithRetry (network : nat -> settled) (maxRetries : nat)
  : list step * (option caught + response) :=
  retry network maxRetries maxRetries 0 None.

End Tracker.

(* ------------------------------------------------------------------ *)
(** ** The cloud tracker, [src/src/TestSeriesTracker.jsx] *)

Module CloudTracker.

(** [getPercentile(rank, totalStudents)], the share of students beaten,
    computed for display from the stored rank. *)
Definition getPercentile (rank totalStudents : number) : number :=
  if SFeqb totalStudents zero || gt rank totalStudents || SFeqb rank zero
     || isNaN rank || isNaN totalStudents
  then zero
  else mul (div (sub totalStudents rank) totalStudents) (of_Z 100).

(** A numeric input of the test entry form holds the empty string or the
    number [handleChange] parsed. *)
Inductive field :=
| Blank
| Entered (x : number).

(** The part of [formData] the [stats] memo depends on. *)
Record form_data := mkForm {
  correct : field;
  wrong : field;
  totalQuestions : field
}.

(** [parseFloat(v)]: the empty string gives [NaN]; a number is printed and
    read back, which returns it with [-0] turned into [0]. *)
Definition parseFloat (v : field) : number :=
  match v with
  | Blank => NaN
  | Entered (S754_zero _) => zero
  | Entered x => x
  end.

Definition decimal (n : Z) : string :=
  NilEmpty.string_of_uint (N.to_uint (Z.to_N n)).

Section Stats.

(** [String(x)], used by [toFixed] from [10^21] on. *)
Variable NumberToString : number -> string.

(** [x.toFixed(1)]: the decimal numeral [n / 10] with one digit after the
    point, for the integer [n] nearest to [10 * |x|], the larger one on a
    tie. *)
Definition toFixed1 (x : number) : string :=
  match x with
  | S754_nan => "NaN"
  | S754_infinity false => "Infinity"
  | S754_infinity true => "-Infinity"
  | S754_zero _ => "0.0"
  | S754_finite s m e =>
      if (10 ^ 21 <=? Z.pos m * 2 ^ e)%Z then NumberToString x
      else
        let n := match e with
                 | Zneg k => (20 * Z.pos m + 2 ^ Z.pos k) / 2 ^ (Z.pos k + 1)
                 | _ => 10 * Z.pos m * 2 ^ e
                 end%Z in
        (if s then "-" else EmptyString)
        ++ decimal (n / 10) ++ "." ++ decimal (n mod 10)
  end.

Record stats_data := mkStats {
  accuracy : string;
  unattempted : number
}.

(** The [stats] memo of the test entry form. *)
Definition stats (formData : form_data) : stats_data :=
  let correct := or_else (parseFloat (correct formData)) zero in
  let wrong := or_else (parseFloat (wrong formData)) zero in
  let totalQuestions := or_else (parseFloat (totalQuestions formData)) (of_Z 65) in
  let attemptedQuestions := add correct wrong in
  let acc :=
    if gt attemptedQuestions zero
    then mul (div correct attemptedQuestions) (of_Z 100)
    else zero in
  let unattempted := sub totalQuestions attemptedQuestions in
  mkStats (toFixed1 acc) (if ge unattempted zero then unattempted else zero).

End Stats.

(** *** Durations *)

(** [Math.floor]: the largest integer not above [x]; [NaN], the
    infinities, the zeros and the integers are returned as they are. *)
Definition Math_floor (x : number) : number :=
  match x with
  | S754_finite s m (Zneg k) =>
      match (signed s m / 2 ^ Z.pos k)%Z with
      | Z0 => zero
      | n => of_Z n
      end
  | _ => x
  end.

(** [x % y]: the remainder of the division truncated towards zero, with
    the sign of [x].  It is computed exactly; the result is a number of
    at most 53 bits, which the rounding leaves as it is. *)
Definition remainder (x y : number) : number :=
  match x, y with
  | S754_nan, _ | _, S754_nan => NaN
  | S754_infinity _, _ => NaN
  | _, S754_zero _ => NaN
  | S754_zero _, _ => x
  | _, S754_infinity _ => x
  | S754_finite sx mx ex, S754_finite sy my ey =>
      let e := Z.min ex ey in
      match Z.rem (Z.pos mx * 2 ^ (ex - e)) (Z.pos my * 2 ^ (ey - e)) with
      | Z0 => S754_zero sx
      | r => binary_normalize prec emax (if sx then - r else r)%Z e false
      end
  end.

(** [s.padStart(2, '0')]. *)
Definition padStart2 (s : string) : string :=
  match s with
  | EmptyString => "00"
  | String c EmptyString => String "0"%char s
  | _ => s
  end.

Section Display.

Variable NumberToString : number -> string.

(** [formatTime(minutes)]; [None] stands for [null] and [undefined]. *)
Definition formatTime (minutes : option number) : string :=
  match minutes with
  | None => "--"
  | Some x =>
      if isNaN x then "--"
      else
        let totalMinutes := Math_round x in
        let h := Math_floor (div totalMinutes (of_Z 60)) in
        let m := remainder totalMinutes (of_Z 60) in
        (padStart2 (NumberToString h) ++ ":" ++ padStart2 (NumberToString m))%string
  end.

End Display.

(** *** The study planner *)

Record goal := mkGoal {
  goal_id : number;
  goal_text : string;
  goal_subject : string;
  completed : bool
}.

(** The state of [StudyPlan]. *)
Record study_plan := mkPlan {
  goals : list goal;
  newGoal : string;
  newSubject : string
}.

Section StudyPlan.

Variable trim : string -> string.

(** [addGoal]; [now] is the value of [Date.now()]. *)
Definition addGoal (now : number) (p : study_plan) : study_plan :=
  if negb (String.eqb (trim (newGoal p)) EmptyString)
  then mkPlan (goals p
               ++ [mkGoal now (trim (newGoal p)) (newSubject p) false])
              EmptyString (newSubject p)
  else p.

End StudyPlan.

(** [toggleGoal(id)]; the ids are compared by [===] on numbers. *)
Definition toggleGoal (i : number) (p : study_plan) : study_plan :=
  mkPlan (map (fun g =>
                 if SFeqb (goal_id g) i
                 then mkGoal (goal_id g) (goal_text g) (goal_subject g)
                             (negb (completed g))
                 else g)
              (goals p))
         (newGoal p) (newSubject p).

Definition pendingGoals (p : study_plan) : list goal :=
  filter (fun g => negb (completed g)) (goals p).

Definition completedGoals (p : study_plan) : list goal :=
  filter (fun g => completed g) (goals p).

(** *** Submitting a test *)

(** The fields of [formData] that [handleSubmit] reads.  A numeric input
    holds the empty string or the number [handleChange] parsed. *)
Record entry_form := mkEntryForm {
  ef_provider : string;
  ef_testType : string;
  ef_testName : string;
  ef_date : string;
  ef_totalQuestions : field;
  ef_totalMarks : field;
  ef_timeTaken : field;
  ef_marksObtained : field;
  ef_negativeMarks : field;
  ef_rank : field;
  ef_totalStudents : field;
  ef_correct : field;
  ef_wrong : field
}.

(** The document handed to [addDoc], without the server timestamp. *)
Record new_test := mkNewTest {
  nt_platform : string;
  nt_testType : string;
  nt_testName : string;
  nt_date : string;
  nt_totalQuestions : field;
  nt_totalMarks : field;
  nt_unattempted : number;
  nt_accuracy : number;
  nt_timeTaken : number;
  nt_marks : number;
  nt_negativeMarks : number;
  nt_rank : number;
  nt_totalStudents : number;
  nt_correct : number;
  nt_incorrect : number
}.

(** [v === ''] for a numeric input. *)
Definition is_blank (v : field) : bool :=
  match v with Blank => true | Entered _ => false end.

(** [parseFloat(v || 0)]. *)
Definition parseFloat_or_zero (v : field) : number :=
  match v with
  | Blank => zero
  | Entered x => if truthy x then parseFloat v else zero
  end.

(** The number a numeric input stands for as an operand of [>]. *)
Definition ToNumber (v : field) : number :=
  match v with Blank => zero | Entered x => x end.

Section Submit.

Variable NumberToString : number -> string.

(** [parseFloat] on the text [toFixed] returns. *)
Variable parseFloat_text : string -> number.

(** [handleSubmit] up to the call of [addDoc]: the message set by
    [setError], or the document to be written.  [db_ready] tells whether
    the database handle is there. *)
Definition test_of_form (db_ready : bool) (formData : entry_form)
  : string + new_test :=
  let shown :=
    stats NumberToString
          (mkForm (ef_correct formData) (ef_wrong formData)
                  (ef_totalQuestions formData)) in
  let attemptedQuestions :=
    add (parseFloat_or_zero (ef_correct formData))
        (parseFloat_or_zero (ef_wrong formData)) in
  if negb db_ready then inl "Database connection not ready."
  else if negb (nonempty (ef_provider formData))
          || negb (nonempty (ef_date formData))
          || is_blank (ef_marksObtained formData)
          || is_blank (ef_rank formData)
          || is_blank (ef_totalStudents formData)
          || is_blank (ef_correct formData)
          || is_blank (ef_wrong formData)
          || is_blank (ef_negativeMarks formData)
  then inl "Please fill in all essential fields: Provider, Date, Marks, Rank, Total Takers, Correct, Wrong, and Negative Marks."
  else if gt attemptedQuestions (ToNumber (ef_totalQuestions formData))
  then inl "Data mismatch: Total Attempted questions exceed Total Questions."
  else if gt (ToNumber (ef_marksObtained formData))
             (ToNumber (ef_totalMarks formData))
  then inl "Data mismatch: Obtained Marks cannot exceed Total Marks."
  else
    inr {| nt_platform := ef_provider formData;
           nt_testType := ef_testType formData;
           nt_testName :=
             or_default (ef_testName formData)
                        (ef_testType formData ++ " Test")%string;
           nt_date := ef_date formData;
           nt_totalQuestions := ef_totalQuestions formData;
           nt_totalMarks := ef_totalMarks formData;
           nt_unattempted :=
             or_else (parseFloat (Entered (unattempted shown))) zero;
           nt_accuracy := parseFloat_text (accuracy shown);
           nt_timeTaken := or_else (parseFloat (ef_timeTaken formData)) zero;
           nt_marks := parseFloat (ef_marksObtained formData);
           nt_negativeMarks := parseFloat (ef_negativeMarks formData);
           nt_rank := parseFloat (ef_rank formData);
           nt_totalStudents := parseFloat (ef_totalStudents formData);
           nt_correct := parseFloat (ef_correct formData);
           nt_incorrect := parseFloat (ef_wrong formData) |}.

End Submit.

(** *** The test history *)

(** A stored document, seen through the properties the snapshot handler
    and the history read. *)
Record mock_doc := mkMockDoc {
  doc_id : string;
  doc_platform : string;
  doc_testType : string;
  doc_date : string;
  doc_accuracy : Tracker.jsval;
  doc_marks : Tracker.jsval;
  doc_negativeMarks : Tracker.jsval;
  doc_rank : Tracker.jsval;
  doc_totalStudents : Tracker.jsval;
  doc_timeTaken : Tracker.jsval;
  doc_correct : Tracker.jsval;
  doc_incorrect : Tracker.jsval;
  doc_unattempted : Tracker.jsval
}.

Record mock_test := mkMockTest {
  test_id : string;
  platform : string;
  testType : string;
  test_date : string;
  test_accuracy : number;
  marks : number;
  negativeMarks : number;
  rank : number;
  totalStudents : number;
  timeTaken : number;
  test_correct : number;
  incorrect : number;
  test_unattempted : number
}.

Section History.

Variable StringToNumber : string -> number.
Variable DateTime : string -> number.

(** The comparator [new Date(a.date) - new Date(b.date)]. *)
Definition by_date (a b : mock_test) : number :=
  sub (DateTime (test_date a)) (DateTime (test_date b)).

(** The snapshot handler: the documents with their metrics turned into
    numbers, sorted by date. *)
Definition snapshot_tests (docs : list mock_doc) : list mock_test :=
  sort by_date
       (map (fun doc =>
               mkMockTest (doc_id doc) (doc_platform doc) (doc_testType doc)
                 (doc_date doc)
                 (Tracker.Number StringToNumber (doc_accuracy doc))
                 (Tracker.Number StringToNumber (doc_marks doc))
                 (Tracker.Number StringToNumber (doc_negativeMarks doc))
                 (Tracker.Number StringToNumber (doc_rank doc))
                 (Tracker.Number StringToNumber (doc_totalStudents doc))
                 (Tracker.Number StringToNumber (doc_timeTaken doc))
                 (Tracker.Number StringToNumber (doc_correct doc))
                 (Tracker.Number StringToNumber (doc_incorrect doc))
                 (Tracker.Number StringToNumber (doc_unattempted doc)))
            docs).

End History.

(** The [filteredTests] memo. *)
Definition filteredTests (sortedTests : list mock_test)
           (selectedPlatform selectedType : string) : list mock_test :=
  filter (fun test =>
            let platformMatch :=
              String.eqb selectedPlatform "All"
              || String.eqb (platform test) selectedPlatform in
            let typeMatch :=
              String.eqb selectedType "All"
              || String.eqb (testType test) selectedType in
            platformMatch && typeMatch)
         sortedTests.

(** The rows of the history table, [filteredTests.slice().reverse()]. *)
Definition history_rows (filteredTests : list mock_test) : list mock_test :=
  rev filteredTests.

End CloudTracker.


(* ------------------------------------------------------------------ *)
(** ** A reference host

    Concrete conversions on which the handlers can be run.  They agree with
    ECMAScript on the inputs used in the examples: plain decimal numerals of
    at most fifteen digits, ASCII text, and calendar dates written
    [YYYY-MM-DD]. *)

Module Host.

Local Open Scope Z_scope.

Definition is_digit (c : ascii) : bool :=
  match Tracker.digit_value c with Some _ => true | None => false end.

Fixpoint all_digits (s : string) : bool :=
  match s with
  | EmptyString => true
  | String c s' => is_digit c && all_digits s'
  end.

Fixpoint split_at_point (s : string) : string * option string :=
  match s with
  | EmptyString => (EmptyString, None)
  | String c s' =>
      if Ascii.eqb c "."%char then (EmptyString, Some s')
      else let (a, b) := split_at_point s' in (String c a, b)
  end.

Definition unsigned_value (s : string) : number :=
  let (whole, rest) := split_at_point s in
  let fraction := match rest with Some r => r | None => EmptyString end in
  if all_digits whole && all_digits fraction && nonempty (whole ++ fraction) then
    match Tracker.decimal_value 0 (whole ++ fraction) with
    | Some n =>
        match fraction with
        | EmptyString => of_Z (Z.of_N n)
        | _ => div (of_Z (Z.of_N n)) (of_Z (10 ^ Z.of_nat (String.length fraction)))
        end
    | None => NaN
    end
  else NaN.

(** [Number(text)]: the empty text is [0], a decimal numeral its nearest
    binary64 value, anything else [NaN]. *)
Definition StringToNumber (s : string) : number :=
  match s with
  | EmptyString => zero
  | String "-"%char s' => SFopp (unsigned_value s')
  | _ => unsigned_value s
  end.

Definition is_space (c : ascii) : bool :=
  let n := N_of_ascii c in ((n =? 32) || ((9 <=? n) && (n <=? 13)))%N.

Fixpoint trim_start (s : string) : string :=
  match s with
  | String c s' => if is_space c then trim_start s' else s
  | EmptyString => EmptyString
  end.

Fixpoint trim_end (s : string) : string :=
  match s with
  | EmptyString => EmptyString
  | String c s' =>
      match trim_end s' with
      | EmptyString => if is_space c then EmptyString else String c EmptyString
      | r => String c r
      end
  end.

Definition trim (s : string) : string := trim_end (trim_start s).

Definition lower (c : ascii) : ascii :=
  let n := N_of_ascii c in
  if ((65 <=? n) && (n <=? 90))%N then ascii_of_N (n + 32) else c.

Fixpoint toLowerCase (s : string) : string :=
  match s with
  | EmptyString => EmptyString
  | String c s' => String (lower c) (toLowerCase s')
  end.

(** Days from 1970-01-01 to the given civil date. *)
Definition days_from_civil (y m d : Z) : Z :=
  let y' := if m <=? 2 then y - 1 else y in
  let era := y' / 400 in
  let yoe := y' - era * 400 in
  let doy := (153 * (if 2 <? m then m - 3 else m + 9) + 2) / 5 + d - 1 in
  let doe := yoe * 365 + yoe / 4 - yoe / 100 + doy in
  era * 146097 + doe - 719468.

Definition days_in_month (y m : Z) : Z :=
  if m =? 2 then
    if ((y mod 4 =? 0) && negb (y mod 100 =? 0)) || (y mod 400 =? 0) then 29 else 28
  else if (m =? 4) || (m =? 6) || (m =? 9) || (m =? 11) then 30 else 31.

Definition field_value (s : string) : option Z :=
  if all_digits s then option_map Z.of_N (Tracker.decimal_value 0 s) else None.

(** The time value of [new Date(text)] for a date [YYYY-MM-DD], in
    milliseconds; [NaN] for any other text. *)
Definition DateTime (s : string) : number :=
  if (String.length s =? 10)%nat
     && String.eqb (substring 4 1 s) "-" && String.eqb (substring 7 1 s) "-" then
    match field_value (substring 0 4 s), field_value (substring 5 2 s),
          field_value (substring 8 2 s) with
    | Some y, Some m, Some d =>
        if (1 <=? m) && (m <=? 12) && (1 <=? d) && (d <=? days_in_month y m)
        then of_Z (days_from_civil y m d * 86400000)
        else NaN
    | _, _, _ => NaN
    end
  else NaN.

(** The integer part of a finite number. *)
Definition to_Z (x : number) : Z :=
  match x with
  | S754_finite s m (Zneg k) => Z.quot (signed s m) (2 ^ Z.pos k)
  | S754_finite s m e => signed s m * 2 ^ e
  | _ => 0
  end.

Fixpoint zeros (n : nat) : string :=
  match n with
  | O => EmptyString
  | S n' => String "0"%char (zeros n')
  end.

(** The decimal numeral of [n] with at least [width] digits. *)
Definition padded (width : nat) (n : Z) : string :=
  let digits := CloudTracker.decimal n in
  (zeros (width - String.length digits) ++ digits)%string.

Fixpoint strip_zeros (s : string) : string :=
  match s with
  | EmptyString => EmptyString
  | String c s' =>
      match strip_zeros s' with
      | EmptyString => if Ascii.eqb c "0"%char then EmptyString else String c EmptyString
      | r => String c r
      end
  end.

(** [String(x)]: the exact decimal expansion of a finite number, which is
    what ECMAScript prints for a whole number below [10^21] and for a
    number with a short expansion such as [22.5].  For other numbers
    ECMAScript prints the shortest numeral that reads back, which this
    is not; it is applied here only to numbers of the first kind. *)
Definition NumberToString (x : number) : string :=
  match x with
  | S754_nan => "NaN"
  | S754_infinity false => "Infinity"
  | S754_infinity true => "-Infinity"
  | S754_zero _ => "0"
  | S754_finite s m e =>
      let sign := if s then "-" else EmptyString in
      match e with
      | Zneg k =>
          let places := Pos.to_nat k in
          let digits := padded (S places) (Z.pos m * 5 ^ Z.pos k) in
          let split := (String.length digits - places)%nat in
          let whole := substring 0 split digits in
          match strip_zeros (substring split places digits) with
          | EmptyString => sign ++ whole
          | fraction => sign ++ whole ++ "." ++ fraction
          end
      | _ => sign ++ CloudTracker.decimal (Z.pos m * 2 ^ e)
      end%string
  end.

(** The civil date of a day counted from 1970-01-01. *)
Definition civil_from_days (z : Z) : Z * Z * Z :=
  let z' := z + 719468 in
  let era := z' / 146097 in
  let doe := z' - era * 146097 in
  let yoe := (doe - doe / 1460 + doe / 36524 - doe / 146096) / 365 in
  let doy := doe - (365 * yoe + yoe / 4 - yoe / 100) in
  let mp := (5 * doy + 2) / 153 in
  let d := doy - (153 * mp + 2) / 5 + 1 in
  let m := if mp <? 10 then mp + 3 else mp - 9 in
  (if m <=? 2 then yoe + era * 400 + 1 else yoe + era * 400, m, d).

(** [toISOString] of a time value, for the years 0 to 9999. *)
Definition toISOString (t : number) : string :=
  let ms := to_Z t in
  let rest := ms mod 86400000 in
  let '(y, m, d) := civil_from_days (ms / 86400000) in
  (padded 4 y ++ "-" ++ padded 2 m ++ "-" ++ padded 2 d ++ "T"
   ++ padded 2 (rest / 3600000) ++ ":" ++ padded 2 (rest / 60000 mod 60) ++ ":"
   ++ padded 2 (rest / 1000 mod 60) ++ "." ++ padded 3 (rest mod 1000) ++ "Z")%string.

End Host.

(* ------------------------------------------------------------------ *)
(** ** Sample data *)

Module Samples.

Import Tracker.

(** 22.5, as the numeral is read. *)
Definition n22_5 : number := div (of_Z 225) (of_Z 10).

(** A form for a topic test: 22.5 marks out of 30, rank 15 of 500, no
    question counts. *)
Definition form_ranked : form_data :=
  mkForm None "Control Systems" "Topic Wise" "Ace Academy"
         "30" "22.5" EmptyString EmptyString EmptyString "15" "500"
         "2024-03-01" EmptyString.

(** The same marks without a rank, and with 0 wrong answers recorded. *)
Definition form_counted : form_data :=
  mkForm None "Control Systems" "Topic Wise" "Ace Academy"
         "30" "22.5" "20" "0" "10" EmptyString EmptyString
         "2024-03-01" EmptyString.

(** The same marks with rank 1 of 3. *)
Definition form_third : form_data :=
  mkForm None "Control Systems" "Topic Wise" "Ace Academy"
         "30" "22.5" EmptyString EmptyString EmptyString "1" "3"
         "2024-03-01" EmptyString.

(** A rank of 5 with the number of takers left empty. *)
Definition form_rank_only : form_data :=
  mkForm None "Control Systems" "Topic Wise" "Ace Academy"
         "30" "22.5" EmptyString EmptyString EmptyString "5" EmptyString
         "2024-03-01" EmptyString.

(** 35 marks out of 30. *)
Definition form_excess : form_data :=
  mkForm None "Control Systems" "Topic Wise" "Ace Academy"
         "30" "35" EmptyString EmptyString EmptyString EmptyString EmptyString
         "2024-03-01" EmptyString.

Definition empty_state (f : form_data) : state :=
  mkState [] f "All" "All" EmptyString EmptyString EmptyString None.

(** The state after the ranked form has been added. *)
Definition state_ranked : state :=
  handleAddOrUpdate Host.StringToNumber Host.trim Host.DateTime
                    "t1" "2024-03-01" (empty_state form_ranked).

(** The state after the form with 0 wrong answers has been added. *)
Definition state_counted : state :=
  handleAddOrUpdate Host.StringToNumber Host.trim Host.DateTime
                    "t1" "2024-03-01" (empty_state form_counted).

(** A form for a test of Control Systems with the given marks out of
    100. *)
Definition form_scored (i : option string) (marks day : string) : form_data :=
  mkForm i "Control Systems" "Topic Wise" "Ace Academy"
         "100" marks EmptyString EmptyString EmptyString EmptyString EmptyString
         day EmptyString.

Definition submit (fresh : string) (f : form_data) (st : state) : state :=
  handleAddOrUpdate Host.StringToNumber Host.trim Host.DateTime
                    fresh "2024-06-01" (setForm f st).


(** A form with marks, counts and a rank. *)
Definition form_recorded (correct rank day : string) : form_data :=
  mkForm None "Control Systems" "Topic Wise" "Ace Academy"
         "30" "22.5" correct "5" "10" rank "500" day "Revise root locus.".

(** A test of March and a test of May, both with counts and a rank; the
    collection holds the test of May first. *)
Definition state_two_recorded : state :=
  submit "b" (form_recorded "20" "15" "2024-05-01")
    (submit "a" (form_recorded "18" "40" "2024-03-01")
       (empty_state form_ranked)).

(** A test of May and a test of March are added, then the date of the
    first is edited to January: the update replaces the entry in place, and
    the collection holds the test of January before the test of March. *)
Definition state_oldest_first : state :=
  submit "c" (form_scored (Some "a") "40" "2024-01-01")
    (submit "b" (form_scored None "60" "2024-03-01")
       (submit "a" (form_scored None "40" "2024-05-01")
          (empty_state form_ranked))).

(** A record of an interchange file with 0 wrong answers. *)
Definition record_zero_wrong : raw_record :=
  mkRaw (Some "a1") (Some "Control Systems") (Some "Topic Wise")
        (Some "Ace Academy") (JNum (of_Z 30)) (JNum n22_5)
        (JNum (of_Z 20)) (JNum zero) (JNum (of_Z 10)) JNull JNull
        (Some "2024-03-01") (Some EmptyString).

Definition no_uid (k : nat) : string := "generated".

(** A record of an interchange file with 35 marks out of 30. *)
Definition record_excess : raw_record :=
  mkRaw (Some "a1") (Some "Control Systems") (Some "Topic Wise")
        (Some "Ace Academy") (JNum (of_Z 30)) (JNum (of_Z 35))
        JNull JNull JNull JNull JNull
        (Some "2024-03-01") (Some EmptyString).

(** A form that records 0 correct, 0 wrong and 0 unattempted answers, and
    the state after it has been added. *)
Definition form_zero_counts : form_data :=
  mkForm None "Control Systems" "Topic Wise" "Ace Academy"
         "30" "22.5" "0" "0" "0" EmptyString EmptyString
         "2024-03-01" EmptyString.

Definition state_zero_counts : state :=
  handleAddOrUpdate Host.StringToNumber Host.trim Host.DateTime
                    "t1" "2024-03-01" (empty_state form_zero_counts).

(** A filled-in entry form of the cloud tracker: 50 correct and 10 wrong
    answers out of 65 questions. *)
Definition entry_whole : CloudTracker.entry_form :=
  CloudTracker.mkEntryForm
    "Ace Academy" "Full Length" EmptyString "2024-03-01"
    (CloudTracker.Entered (of_Z 65)) (CloudTracker.Entered (of_Z 100))
    (CloudTracker.Entered (of_Z 180)) (CloudTracker.Entered (of_Z 60))
    (CloudTracker.Entered (of_Z 5)) (CloudTracker.Entered (of_Z 15))
    (CloudTracker.Entered (of_Z 500)) (CloudTracker.Entered (of_Z 50))
    (CloudTracker.Entered (of_Z 10)).

End Samples.

(* ------------------------------------------------------------------ *)
(** ** Specification-side definitions *)

Module Spec.

Import Tracker.

Section Accepted.
Variable StringToNumber : string -> number.
Variable trim : string -> string.

(** What a form that passes the validation satisfies, and the entry it
    yields. *)
Record accepted (fresh today : string) (f : form_data) (e : entry) : Prop := {
  acc_subject : nonempty (trim (form_subject f)) = true;
  acc_max_truthy : truthy (StringToNumber (form_maxMarks f)) = true;
  acc_max : gt (StringToNumber (form_maxMarks f)) zero = true;
  acc_obt_number : isNaN (StringToNumber (form_obtainedMarks f)) = false;
  acc_obt_low : le zero (StringToNumber (form_obtainedMarks f)) = true;
  acc_obt_high :
    le (StringToNumber (form_obtainedMarks f))
       (StringToNumber (form_maxMarks f)) = true;
  acc_rank :
    nonempty (form_testRank f) && nonempty (form_totalTestTakers f) = true ->
    gt (StringToNumber (form_testRank f)) zero = true
    /\ le (StringToNumber (form_testRank f))
          (StringToNumber (form_totalTestTakers f)) = true;
  acc_entry :
    e = {| id := match form_id f with
                 | Some i => or_default i fresh
                 | None => fresh
                 end;
           subject := trim (form_subject f);
           category := form_category f;
           provider := form_provider f;
           maxMarks := StringToNumber (form_maxMarks f);
           obtainedMarks := StringToNumber (form_obtainedMarks f);
           percentage :=
             percentage_of (StringToNumber (form_obtainedMarks f))
                           (StringToNumber (form_maxMarks f));
           correctCount :=
             if nonempty (form_correctCount f) || nonempty (form_incorrectCount f)
                || nonempty (form_notAttemptedCount f)
             then Some (StringToNumber (form_correctCount f)) else None;
           incorrectCount :=
             if nonempty (form_correctCount f) || nonempty (form_incorrectCount f)
                || nonempty (form_notAttemptedCount f)
             then Some (StringToNumber (form_incorrectCount f)) else None;
           notAttemptedCount :=
             if nonempty (form_correctCount f) || nonempty (form_incorrectCount f)
                || nonempty (form_notAttemptedCount f)
             then Some (StringToNumber (form_notAttemptedCount f)) else None;
           testRank :=
             if nonempty (form_testRank f) && nonempty (form_totalTestTakers f)
             then Some (StringToNumber (form_testRank f)) else None;
           totalTestTakers :=
             if nonempty (form_testRank f) && nonempty (form_totalTestTakers f)
             then Some (StringToNumber (form_totalTestTakers f)) else None;
           rankPercentile :=
             if nonempty (form_testRank f) && nonempty (form_totalTestTakers f)
             then Some (rankPercentile_of (StringToNumber (form_testRank f))
                                          (StringToNumber (form_totalTestTakers f)))
             else None;
           date := or_default (form_date f) today;
           notes := form_notes f |}
}.

(** The checks of the validation in the order in which they are made:
    the condition under which a check fails, and its message.  The rank
    checks apply only when both rank fields are filled in. *)
Definition checks (f : form_data) : list (bool * string) :=
  let max := StringToNumber (form_maxMarks f) in
  let obt := StringToNumber (form_obtainedMarks f) in
  let correct := StringToNumber (form_correctCount f) in
  let incorrect := StringToNumber (form_incorrectCount f) in
  let notAttempted := StringToNumber (form_notAttemptedCount f) in
  let rank := StringToNumber (form_testRank f) in
  let totalTakers := StringToNumber (form_totalTestTakers f) in
  let both_ranks :=
    nonempty (form_testRank f) && nonempty (form_totalTestTakers f) in
  [(negb (nonempty (trim (form_subject f))), "Please enter subject.");
   (negb (gt max zero), "Max marks should be a positive number.");
   (negb (le zero obt), "Obtained marks should be a non-negative number.");
   (gt obt max, "Obtained marks cannot be greater than Max Marks.");
   (negb (le zero correct), "Correct count must be a non-negative number.");
   (negb (le zero incorrect), "Incorrect count must be a non-negative number.");
   (negb (le zero notAttempted),
    "Not Attempted count must be a non-negative number.");
   (both_ranks && negb (gt rank zero), "Your Rank must be a positive number.");
   (both_ranks && negb (gt totalTakers zero),
    "Total Test Takers must be a positive number.");
   (both_ranks && gt rank totalTakers,
    "Your Rank cannot be greater than Total Test Takers.")].

(** The message of the first check that fails, if one does. *)
Definition first_failure (f : form_data) : option string :=
  match find fst (checks f) with
  | Some c => Some (snd c)
  | None => None
  end.

End Accepted.

(** The messages of the validation, one per check. *)
Definition validation_messages : list string :=
  ["Please enter subject.";
   "Max marks should be a positive number.";
   "Obtained marks should be a non-negative number.";
   "Obtained marks cannot be greater than Max Marks.";
   "Correct count must be a non-negative number.";
   "Incorrect count must be a non-negative number.";
   "Not Attempted count must be a non-negative number.";
   "Your Rank must be a positive number.";
   "Total Test Takers must be a positive number.";
   "Your Rank cannot be greater than Total Test Takers."].

(** An optional number with a falsy value ([0], [-0] or [NaN]) replaced by
    [null], and an entry with its six optional fields so treated. *)
Definition null_if_falsy (v : option number) : option number :=
  match v with
  | Some x => if truthy x then Some x else None
  | None => None
  end.

Definition without_zeros (t : entry) : entry :=
  mkEntry (id t) (subject t) (category t) (provider t)
          (maxMarks t) (obtainedMarks t) (percentage t)
          (null_if_falsy (correctCount t)) (null_if_falsy (incorrectCount t))
          (null_if_falsy (notAttemptedCount t))
          (null_if_falsy (testRank t)) (null_if_falsy (totalTestTakers t))
          (null_if_falsy (rankPercentile t))
          (date t) (notes t).

(** The characters that make [csvEscape] quote a value. *)
Definition needs_quoting (s : string) : bool :=
  existsb (fun c => Ascii.eqb c comma || Ascii.eqb c newline || Ascii.eqb c quote)
          (list_ascii_of_string s).

(** *** The filter, after the specification *)

Section FilterSpec.
Variable toLowerCase : string -> string.
Variable DateTime : string -> number.

(** The provider of an entry; an entry without one counts as [Other]. *)
Definition provider_of (t : entry) : string := or_default (provider t) "Other".

(** [pattern] occurs in [text]: the text is the pattern with some text
    before it and some text after it. *)
Definition occurs_in (pattern text : string) : Prop :=
  exists before after : string, text = (before ++ pattern ++ after)%string.

(** [text] contains [pattern], letter case ignored. *)
Definition contains_ignoring_case (text pattern : string) : bool :=
  includes (toLowerCase text) (toLowerCase pattern).

Definition provider_matches (st : state) (t : entry) : bool :=
  String.eqb (filterProvider st) "All"
  || String.eqb (provider_of t) (filterProvider st).

Definition subject_matches (st : state) (t : entry) : bool :=
  String.eqb (filterSubject st) "All"
  || String.eqb (subject t) (filterSubject st).

(** The date bounds: an entry is dropped only when it lies strictly before
    the lower or strictly after the upper bound; an empty bound does not
    filter. *)
Definition not_before_from (st : state) (t : entry) : bool :=
  negb (nonempty (dateFrom st))
  || negb (lt (DateTime (date t)) (DateTime (dateFrom st))).

Definition not_after_to (st : state) (t : entry) : bool :=
  negb (nonempty (dateTo st))
  || negb (gt (DateTime (date t)) (DateTime (dateTo st))).

Definition search_matches (st : state) (t : entry) : bool :=
  negb (nonempty (search st))
  || contains_ignoring_case (subject t) (search st)
  || contains_ignoring_case (notes t) (search st)
  || contains_ignoring_case (category t) (search st)
  || contains_ignoring_case (provider t) (search st).

(** All predicates, conjunctively. *)
Definition matches (st : state) (t : entry) : bool :=
  provider_matches st t && subject_matches st t
  && not_before_from st t && not_after_to st t && search_matches st t.

End FilterSpec.

(** [l] is [l'] with some elements left out, the others in their order. *)
Inductive subsequence {A : Type} : list A -> list A -> Prop :=
| subsequence_nil : subsequence [] []
| subsequence_drop (x : A) (l l' : list A) :
    subsequence l l' -> subsequence l (x :: l')
| subsequence_keep (x : A) (l l' : list A) :
    subsequence l l' -> subsequence (x :: l) (x :: l').

(** *** Subject groups, after the specification *)

(** The entries of a subject, in the order of the collection. *)
Definition members (s : string) (l : list entry) : list entry :=
  filter (fun t => String.eqb (subject t) s) l.

(** The sum of the percentages of some entries, added from the left, and
    their number, counted by adding [1] for each. *)
Definition sum_of_percentages (l : list entry) : number :=
  fold_left (fun a t => add a (percentage t)) l zero.

Definition count_of (l : list entry) : number :=
  fold_left (fun c _ => add c (of_Z 1)) l zero.

Definition group_for (s : string) (l : list entry) : group :=
  mkGroup (sum_of_percentages (members s l)) (count_of (members s l)) (members s l).

Definition no_entries (l : list entry) : bool :=
  match l with [] => true | _ => false end.


(** *** Entries that survive the interchange format *)

(** A finite non-zero number. *)
Definition finite_nonzero (x : number) : bool :=
  match x with S754_finite _ _ _ => true | _ => false end.

(** A count that is not recorded, or recorded as a positive finite
    number. *)
Definition positive_if_recorded (v : option number) : Prop :=
  match v with
  | None => True
  | Some x => finite_nonzero x = true /\ gt x zero = true
  end.

(** A valid entry whose numbers are finite and whose recorded counts are
    positive: the text fields are present, the maximum is positive, the
    obtained marks are [0] or positive, the percentage is the one derived
    from the marks, and the rank fields are all [null] or hold a rank with
    [0 < rank <= takers] and the percentile derived from it. *)
Record interchange_stable (t : entry) : Prop := {
  stable_id : nonempty (id t) = true;
  stable_subject : nonempty (subject t) = true;
  stable_category : nonempty (category t) = true;
  stable_provider : nonempty (provider t) = true;
  stable_date : nonempty (date t) = true;
  stable_max : finite_nonzero (maxMarks t) = true;
  stable_obtained : finite_nonzero (obtainedMarks t) = true \/ obtainedMarks t = zero;
  stable_percentage : percentage t = percentage_of (obtainedMarks t) (maxMarks t);
  stable_correct : positive_if_recorded (correctCount t);
  stable_incorrect : positive_if_recorded (incorrectCount t);
  stable_notAttempted : positive_if_recorded (notAttemptedCount t);
  stable_rank :
    match testRank t, totalTestTakers t, rankPercentile t with
    | None, None, None => True
    | Some r, Some n, Some p =>
        finite_nonzero r = true /\ finite_nonzero n = true
        /\ gt r zero = true /\ le r n = true
        /\ p = rankPercentile_of r n
    | _, _, _ => False
    end
}.

(** The entries are in the order the newest-first sort leaves them in. *)
Definition newest_first_order (DateTime : string -> number) (l : list entry) : Prop :=
  Sorted (fun a b => gt (newest_first DateTime a b) zero = false) l.

(** A number with [-0] read as [0]. *)
Definition unsigned_zero (x : number) : number :=
  match x with S754_zero _ => zero | _ => x end.

(** How the [stats] memo of the cloud tracker reads a numeric field of
    the form: the number entered, or the default when the field is blank
    or holds [0] or [NaN]. *)
Definition reading (v : CloudTracker.field) (default : number) : number :=
  match v with
  | CloudTracker.Entered x => if truthy x then x else default
  | CloudTracker.Blank => default
  end.

(** A property of an imported record is missing when it is absent or
    [null]. *)
Definition missing (v : jsval) : bool :=
  match v with JUndefined | JNull => true | _ => false end.

(** *** Dates *)

(** The date of the entry is valid: its time value is a whole number of
    milliseconds, not [NaN]. *)
Definition dated (DateTime : string -> number) (t : entry) : Prop :=
  exists n : Z, DateTime (date t) = of_Z n.

(** [a] is dated no earlier than [b], and [a] is dated later than [b]. *)
Definition not_older (DateTime : string -> number) (a b : entry) : Prop :=
  at_most (DateTime (date b)) (DateTime (date a)).

Definition newer (DateTime : string -> number) (a b : entry) : Prop :=
  ~ at_most (DateTime (date a)) (DateTime (date b)).

(** *** Durations *)

(** Equality of two numbers as data. *)
Definition same_number (x y : number) : bool :=
  match x, y with
  | S754_zero s, S754_zero s' => Bool.eqb s s'
  | S754_infinity s, S754_infinity s' => Bool.eqb s s'
  | S754_nan, S754_nan => true
  | S754_finite s m e, S754_finite s' m' e' =>
      Bool.eqb s s' && Pos.eqb m m' && Z.eqb e e'
  | _, _ => false
  end.

(** The hours and the minutes [formatTime] derives from a whole number
    of minutes are the quotient and the remainder of the division by
    60. *)
Definition splits_into_hours_and_minutes (n : nat) : bool :=
  let totalMinutes := of_Z (Z.of_nat n) in
  same_number (CloudTracker.Math_floor (div totalMinutes (of_Z 60)))
              (of_Z (Z.of_nat n / 60))
  && same_number (CloudTracker.remainder totalMinutes (of_Z 60))
                 (of_Z (Z.of_nat n mod 60)).

(** *** Calls and delays of a request *)

Definition calls (steps : list step) : nat :=
  List.length (filter (fun s => match s with Fetch => true | Wait _ => false end) steps).

Definition waited (steps : list step) : Z :=
  fold_right (fun s total => match s with Fetch => total | Wait d => d + total end)%Z
             0%Z steps.

(** The call of [fetch] is rejected or answered by a response that is not
    [ok]. *)
Definition fails (s : settled) : Prop :=
  match s with
  | Rejects _ => True
  | Resolves r => ok r = false
  end.

(** *** Reading a row of the tabular export back *)

(** The text a cell holds before it is escaped. *)
Definition cell_text (NumberToString : number -> string) (v : csv_value) : string :=
  match v with
  | CsvNull => EmptyString
  | CsvNumber x => NumberToString x
  | CsvText s => s
  end.

(** A reader of one row, by which the rows are shown to be unambiguous:
    fields are separated by commas; a field that opens with a quote
    character runs to the next quote character that is not doubled, and a
    doubled one stands for one quote character. *)
Inductive reader_state := FieldStart | Unquoted | Quoted | QuoteSeen.

Fixpoint read_row (st : reader_state) (field s : string) : list string :=
  match s with
  | EmptyString => [field]
  | String c s' =>
      match st with
      | FieldStart =>
          if Ascii.eqb c quote then read_row Quoted field s'
          else if Ascii.eqb c comma then field :: read_row FieldStart EmptyString s'
          else read_row Unquoted (field ++ str c) s'
      | Unquoted =>
          if Ascii.eqb c comma then field :: read_row FieldStart EmptyString s'
          else read_row Unquoted (field ++ str c) s'
      | Quoted =>
          if Ascii.eqb c quote then read_row QuoteSeen field s'
          else read_row Quoted (field ++ str c) s'
      | QuoteSeen =>
          if Ascii.eqb c quote then read_row Quoted (field ++ str quote) s'
          else if Ascii.eqb c comma then field :: read_row FieldStart EmptyString s'
          else read_row Unquoted (field ++ str c) s'
      end
  end.

(** The continuation of a field in a row: the end of the row or a comma. *)
Definition field_end (rest : string) : Prop :=
  rest = EmptyString \/ exists r, rest = String comma r.

(** What [csvEscape] makes of a text. *)
Definition escaped (s : string) : string :=
  (if needs_quoting s then str quote ++ double_quotes s ++ str quote else s)%string.

(** [a] comes before [b] in the order of the code units, or is [b]. *)
Definition in_order (a b : string) : Prop := String.compare a b = Lt \/ a = b.

(** *** Entries that survive an edit *)

Section Editable.
Variable StringToNumber : string -> number.
Variable NumberToString : number -> string.
Variable trim : string -> string.
Variable DateTime : string -> number.
Variable toISOString : number -> string.

(** The text an optional number is loaded into the form as: empty for
    [null] and for a falsy number, the printed number otherwise. *)
Definition loaded_text (v : option number) : string :=
  match null_if_falsy v with
  | Some x => NumberToString x
  | None => EmptyString
  end.

(** The number is printed as a text that is not empty and that reads back
    as the number. *)
Definition prints_back (x : number) : Prop :=
  nonempty (NumberToString x) = true /\ StringToNumber (NumberToString x) = x.

(** An optional number that is [null], [0], or a number that prints
    back. *)
Definition loads_back (v : option number) : Prop :=
  match v with
  | None => True
  | Some x => if truthy x then prints_back x else x = zero
  end.

(** What the edit form needs to hand an entry back unchanged: the texts
    the form would replace by a default are present, the subject is
    trimmed, the date is one [formatDateInput] returns as it is, the empty
    text reads as [0], the numbers print back, and the counts, when they
    are recorded, are not all [0]. *)
Record survives_edit (t : entry) : Prop := {
  se_id : nonempty (id t) = true;
  se_subject : trim (subject t) = subject t;
  se_category : nonempty (category t) = true;
  se_provider : nonempty (provider t) = true;
  se_date : nonempty (date t) = true;
  se_date_format : formatDateInput DateTime toISOString (date t) = Some (date t);
  se_blank : StringToNumber EmptyString = zero;
  se_maxMarks : prints_back (maxMarks t);
  se_obtainedMarks : prints_back (obtainedMarks t);
  se_correct : loads_back (correctCount t);
  se_incorrect : loads_back (incorrectCount t);
  se_notAttempted : loads_back (notAttemptedCount t);
  se_rank : loads_back (testRank t);
  se_takers : loads_back (totalTestTakers t);
  se_counts :
    correctCount t = None
    \/ exists x,
         In (Some x) [correctCount t; incorrectCount t; notAttemptedCount t]
         /\ truthy x = true
}.

End Editable.

End Spec.

(* ------------------------------------------------------------------ *)
(** ** Facts about numbers *)

Section NumberFacts.

Lemma SFcompare_swap (x y : number) :
  SFcompare y x = option_map CompOpp (SFcompare x y).
Proof.
  destruct x as [sx | sx | | sx mx ex], y as [sy | sy | | sy my ey];
    try (destruct sx); try (destruct sy); simpl; try reflexivity.
  - rewrite (Z.compare_antisym ex ey).
    destruct (ex ?= ey)%Z; simpl; try reflexivity.
    now rewrite (Pos.compare_cont_antisym mx my Eq).
  - rewrite (Z.compare_antisym ex ey).
    destruct (ex ?= ey)%Z; simpl; try reflexivity.
    pose proof (Pos.compare_cont_antisym mx my Eq) as H. simpl in H.
    now rewrite <- H.
Qed.

Lemma SFcompare_defined (x y : number) :
  isNaN x = false -> isNaN y = false -> exists c, SFcompare x y = Some c.
Proof.
  destruct x, y; simpl; intros; try discriminate; eauto.
Qed.

Lemma truthy_not_NaN (x : number) : truthy x = true -> isNaN x = false.
Proof. destruct x; simpl; congruence. Qed.

(** Among numbers, [not (x < y)] is [y <= x]. *)
Lemma not_lt_le (x y : number) :
  isNaN x = false -> isNaN y = false -> lt x y = false -> le y x = true.
Proof.
  intros Hx Hy. unfold lt, le, SFltb, SFleb.
  rewrite (SFcompare_swap x y).
  destruct (SFcompare_defined x y Hx Hy) as [c ->].
  destruct c; simpl; congruence.
Qed.

(** Among numbers, [not (x <= y)] is [y < x]. *)
Lemma not_le_lt (x y : number) :
  isNaN x = false -> isNaN y = false -> le x y = false -> lt y x = true.
Proof.
  intros Hx Hy. unfold lt, le, SFltb, SFleb.
  rewrite (SFcompare_swap x y).
  destruct (SFcompare_defined x y Hx Hy) as [c ->].
  destruct c; simpl; congruence.
Qed.

Lemma lt_not_le_swap (x y : number) : lt x y = true -> le y x = false.
Proof.
  unfold lt, le, SFltb, SFleb. rewrite (SFcompare_swap x y).
  destruct (SFcompare x y) as [[]|]; simpl; congruence.
Qed.

(** Powers of two in [Q]. *)
Lemma two_power_pos (e : Z) : (0 < 2 ^ e)%Q.
Proof. apply Qpower_0_lt. reflexivity. Qed.

Lemma scale_back (a k : Z) :
  (0 <= k)%Z -> (inject_Z (a * 2 ^ k) * 2 ^ (- k) == inject_Z a)%Q.
Proof.
  intros Hk. rewrite inject_Z_mult, Zpower_Qpower by assumption.
  rewrite Qpower_opp. change (inject_Z 2) with 2%Q. field.
  apply Qpower_not_0. discriminate.
Qed.

Lemma negative_power (z : Z) (k : positive) :
  (inject_Z z * 2 ^ Z.neg k == z # 2 ^ k)%Q.
Proof.
  change (Z.neg k) with (- Z.pos k)%Z.
  rewrite Qpower_opp, (Qmake_Qdiv z (2 ^ k)), Pos2Z.inj_pow.
  rewrite Zpower_Qpower by lia. reflexivity.
Qed.

Lemma iter_xO_mul (p k : positive) :
  Z.pos (Pos.iter xO p k) = (Z.pos p * 2 ^ Z.pos k)%Z.
Proof.
  induction k as [|k IH] using Pos.peano_ind.
  - simpl. lia.
  - rewrite Pos.iter_succ, Pos2Z.inj_xO, IH, Pos2Z.inj_succ, Z.pow_succ_r; lia.
Qed.

Lemma digits2_size (p : positive) : digits2_pos p = Pos.size p.
Proof. induction p; simpl; congruence. Qed.

(** A positive number has as many binary digits as [digits2_pos] says. *)
Lemma digits2_bounds (p : positive) :
  (2 ^ (Z.pos (digits2_pos p) - 1) <= Z.pos p < 2 ^ Z.pos (digits2_pos p))%Z.
Proof.
  rewrite digits2_size.
  pose proof (Pos.size_gt p) as Hgt. pose proof (Pos.size_le p) as Hle.
  apply Pos2Z.pos_lt_pos in Hgt. apply Pos2Z.pos_le_pos in Hle.
  rewrite Pos2Z.inj_pow in Hgt, Hle.
  assert (H2 : (2 ^ Z.pos (Pos.size p) = 2 * 2 ^ (Z.pos (Pos.size p) - 1))%Z).
  { rewrite <- Z.pow_succ_r by lia. f_equal. lia. }
  lia.
Qed.

Lemma digits2_iter_xO (p k : positive) :
  Z.pos (digits2_pos (Pos.iter xO p k)) = (Z.pos (digits2_pos p) + Z.pos k)%Z.
Proof.
  induction k as [|k IH] using Pos.peano_ind.
  - simpl. lia.
  - rewrite Pos.iter_succ. cbn [digits2_pos]. rewrite Pos2Z.inj_succ, IH. lia.
Qed.

(** A mantissa of 53 bits with an exponent in range is returned as it
    is. *)
Lemma binary_round_aux_canonical (s : bool) (m : positive) (e : Z) :
  Z.pos (digits2_pos m) = prec -> (emin prec emax <= e <= emax - prec)%Z ->
  binary_round_aux prec emax s (Z.pos m) e loc_Exact = S754_finite s m e.
Proof.
  intros Hd He.
  assert (Hshift : shr_fexp prec emax (Z.pos m) e loc_Exact
                   = (Build_shr_record (Z.pos m) false false, e)).
  { unfold shr_fexp, fexp. cbn [Zdigits2]. rewrite Hd.
    replace (Z.max (prec + e - prec) (emin prec emax) - e)%Z with 0%Z by lia.
    reflexivity. }
  unfold binary_round_aux. rewrite Hshift. cbn [shr_m loc_of_shr_record round_nearest_even].
  rewrite Hshift. cbn [shr_m].
  destruct He as [_ He]. apply Z.leb_le in He. now rewrite He.
Qed.

(** [of_Z] is the conversion that rounds an integer to the nearest
    number. *)
Lemma of_Z_rounds (n : Z) : of_Z n = binary_normalize prec emax n 0 false.
Proof.
  assert (Hpos : forall s p, of_pos s p = binary_round prec emax s p 0).
  { intros s p. unfold of_pos.
    destruct (Z.pos (digits2_pos p) <=? prec)%Z eqn:E; [|reflexivity].
    apply Z.leb_le in E. unfold binary_round, shl_align, fexp.
    replace (Z.max (Z.pos (digits2_pos p) + 0 - prec) (emin prec emax) - 0)%Z
      with (Z.pos (digits2_pos p) - prec)%Z
      by (unfold prec, emax, emin in *; lia).
    replace (Z.max (Z.pos (digits2_pos p) + 0 - prec) (emin prec emax))%Z
      with (Z.pos (digits2_pos p) - prec)%Z
      by (unfold prec, emax, emin in *; lia).
    destruct (Z.pos (digits2_pos p) - prec)%Z as [|k|k] eqn:Ek; try lia.
    - replace (prec - Z.pos (digits2_pos p))%Z with 0%Z by lia. cbn [Z.to_N Pos.shiftl].
      symmetry. apply binary_round_aux_canonical; unfold prec, emax, emin in *; lia.
    - replace (prec - Z.pos (digits2_pos p))%Z with (Z.pos k) by lia.
      cbn [Z.to_N Pos.shiftl].
      symmetry. apply binary_round_aux_canonical.
      + rewrite digits2_iter_xO. lia.
      + unfold prec, emax, emin in *. lia. }
  destruct n; simpl; auto.
Qed.

(** [floor (x + 1/2)] is the integer nearest to [x], the upper one on a
    tie. *)
Lemma round_half_up_nearest (s : bool) (m k : positive) :
  let n := round_half_up s m (Z.neg k) in
  (inject_Z n - (1 # 2) <= signed s m # (2 ^ k)
   /\ signed s m # (2 ^ k) < inject_Z n + (1 # 2))%Q.
Proof.
  intros n. set (z := signed s m).
  assert (Hp : (Z.pos (2 ^ k) = 2 ^ Z.pos k)%Z) by now rewrite Pos2Z.inj_pow.
  assert (Hpos : (0 < 2 ^ Z.pos k)%Z) by (apply Z.pow_pos_nonneg; lia).
  assert (HD : (2 ^ (Z.pos k + 1) = 2 * 2 ^ Z.pos k)%Z)
    by (rewrite Z.pow_add_r by lia; lia).
  assert (Hn : (n = (2 * z + 2 ^ Z.pos k) / (2 * 2 ^ Z.pos k))%Z)
    by (unfold n, round_half_up; fold z; now rewrite HD).
  pose proof (Z.div_mod (2 * z + 2 ^ Z.pos k) (2 * 2 ^ Z.pos k) ltac:(lia)) as Hdm.
  pose proof (Z.mod_pos_bound (2 * z + 2 ^ Z.pos k) (2 * 2 ^ Z.pos k) ltac:(lia)) as Hr.
  rewrite <- Hn in Hdm.
  unfold Qle, Qlt, Qminus, Qplus, Qopp, inject_Z; simpl.
  rewrite Hp. nia.
Qed.

(** Integers below [2^53] in magnitude are represented exactly. *)
Lemma exact_of_Z (n : Z) :
  (Z.abs n < 2 ^ 53)%Z ->
  exists r, exact (of_Z n) = Some r /\ (r == inject_Z n)%Q.
Proof.
  intros Hn.
  assert (Hpos : forall s p, (Z.pos p < 2 ^ 53)%Z ->
            exists r, exact (of_pos s p) = Some r /\ (r == inject_Z (signed s p))%Q).
  { intros s p Hp. unfold of_pos.
    pose proof (digits2_bounds p) as [Hlo _].
    assert (Hd : (Z.pos (digits2_pos p) <= 53)%Z).
    { destruct (Z_le_gt_dec (Z.pos (digits2_pos p)) 53) as [|Hgt]; [assumption|].
      exfalso.
      assert ((2 ^ 53 <= 2 ^ (Z.pos (digits2_pos p) - 1))%Z)
        by (apply Z.pow_le_mono_r; lia).
      lia. }
    unfold prec. apply Z.leb_le in Hd. rewrite Hd. apply Z.leb_le in Hd.
    eexists; split; [reflexivity|].
    set (k := (53 - Z.pos (digits2_pos p))%Z).
    replace (Z.pos (digits2_pos p) - 53)%Z with (- k)%Z by (unfold k; lia).
    assert (Hsh : signed s (Pos.shiftl p (Z.to_N k)) = (signed s p * 2 ^ k)%Z).
    { assert (Hk : (0 <= k)%Z) by (unfold k; lia).
      destruct k as [|k|k]; [| |lia].
      - simpl. destruct s; simpl; lia.
      - simpl Z.to_N. unfold Pos.shiftl.
        destruct s; unfold signed;
          [rewrite <- Pos2Z.opp_pos|]; rewrite iter_xO_mul; lia. }
    rewrite Hsh. apply scale_back. unfold k. lia. }
  destruct n as [|p|p]; simpl.
  - exists 0%Q. split; reflexivity.
  - apply (Hpos false p). simpl in Hn. lia.
  - apply (Hpos true p). simpl in Hn. lia.
Qed.

(** [Math.round] returns the nearest integer, the upper one on a tie. *)
Lemma Math_round_nearest (x : number) (q : Q) :
  exact x = Some q ->
  exists n : Z,
    (inject_Z n - (1 # 2) <= q /\ q < inject_Z n + (1 # 2))%Q
    /\ ((Z.abs n < 2 ^ 53)%Z ->
        exists r, exact (Math_round x) = Some r /\ (r == inject_Z n)%Q).
Proof.
  destruct x as [s | s | | s m e]; simpl; intros Hq; try discriminate;
    injection Hq as <-.
  - exists 0%Z. split; [split; [unfold Qle|unfold Qlt]; simpl; lia|].
    intros _. exists 0%Q. split; reflexivity.
  - destruct e as [|e|k].
    + exists (signed s m). split.
      * rewrite Qpower_0_r, Qmult_1_r. unfold Qle, Qlt; simpl. lia.
      * intros _. eexists; split; [reflexivity|].
        now rewrite Qpower_0_r, Qmult_1_r.
    + exists (signed s m * 2 ^ Z.pos e)%Z.
      assert (Heq : (inject_Z (signed s m) * 2 ^ Z.pos e
                     == inject_Z (signed s m * 2 ^ Z.pos e))%Q).
      { rewrite inject_Z_mult, Zpower_Qpower by lia. reflexivity. }
      split.
      * rewrite Heq. unfold Qle, Qlt; simpl. lia.
      * intros _. eexists; split; [reflexivity|exact Heq].
    + exists (round_half_up s m (Z.neg k)). split.
      * rewrite negative_power. apply round_half_up_nearest.
      * intros Hn. destruct (round_half_up s m (Z.neg k)) eqn:Hr.
        -- exists 0%Q. split; reflexivity.
        -- exact (exact_of_Z (Z.pos p) Hn).
        -- exact (exact_of_Z (Z.neg p) Hn).
Qed.

End NumberFacts.

(* ------------------------------------------------------------------ *)
(** ** Facts about sorting *)

Section SortFacts.
Context {A : Type}.
Variable cmp : A -> A -> number.

Lemma insert_perm (x : A) (l : list A) : Permutation (insert cmp x l) (x :: l).
Proof.
  induction l as [|y l IH]; simpl.
  - apply Permutation_refl.
  - destruct (gt (cmp x y) zero).
    + eapply perm_trans; [apply perm_skip, IH | apply perm_swap].
    + apply Permutation_refl.
Qed.

Lemma sort_perm (l : list A) : Permutation (sort cmp l) l.
Proof.
  induction l as [|x l IH]; simpl.
  - apply perm_nil.
  - eapply perm_trans; [apply insert_perm | apply perm_skip, IH].
Qed.

Lemma sort_In (x : A) (l : list A) : In x (sort cmp l) <-> In x l.
Proof.
  split; apply Permutation_in; [|apply Permutation_sym]; apply sort_perm.
Qed.
End SortFacts.

(* ------------------------------------------------------------------ *)
(** ** The add/update path *)

Section AddPath.
Import Tracker.
Variable StringToNumber : string -> number.
Variable trim : string -> string.

Ltac split_checks H :=
  repeat match type of H with
         | (if ?c then _ else _) = _ =>
             let E := fresh "E" in destruct c eqn:E; [discriminate H|]
         end.

Lemma entry_of_form_accepted (fresh today : string) (f : form_data) (e : entry) :
  entry_of_form StringToNumber trim fresh today f = inr e ->
  Spec.accepted StringToNumber trim fresh today f e.
Proof.
  unfold entry_of_form. intros H. split_checks H.
  injection H as <-.
  apply negb_false_iff in E.
  apply orb_false_iff in E0 as [Hmt Hml]. apply negb_false_iff in Hmt.
  apply orb_false_iff in E1 as [Hon Hol].
  pose proof (truthy_not_NaN _ Hmt) as Hmn.
  assert (Hz : isNaN zero = false) by reflexivity.
  split; auto.
  - apply not_le_lt; assumption.
  - apply not_lt_le; assumption.
  - apply not_lt_le; assumption.
  - intros Hr. rewrite Hr in E6, E7, E8. simpl in E6, E7, E8.
    apply orb_false_iff in E6 as [Hrt Hrl]. apply negb_false_iff in Hrt.
    apply orb_false_iff in E7 as [Htt Htl]. apply negb_false_iff in Htt.
    split.
    + apply not_le_lt; auto using truthy_not_NaN.
    + apply not_lt_le; auto using truthy_not_NaN.
  - rewrite Hmt. reflexivity.
Qed.

Lemma entry_of_form_message (fresh today : string) (f : form_data) (msg : string) :
  entry_of_form StringToNumber trim fresh today f = inl msg ->
  In msg Spec.validation_messages.
Proof.
  unfold entry_of_form. intros H.
  repeat match type of H with
         | (if ?c then _ else _) = _ =>
             destruct c;
             [injection H as <-; unfold Spec.validation_messages; simpl; tauto|]
         end.
  discriminate H.
Qed.

Lemma not_positive (x : number) :
  negb (truthy x) || le x zero = negb (gt x zero).
Proof. destruct x as [s|s| |s m e]; try destruct s; reflexivity. Qed.

Lemma not_non_negative (x : number) :
  isNaN x || lt x zero = negb (le zero x).
Proof. destruct x as [s|s| |s m e]; try destruct s; reflexivity. Qed.

(** A form is rejected with the message of the first check that fails,
    and accepted when none does. *)
Lemma entry_of_form_first_failure (fresh today : string) (f : form_data) :
  match entry_of_form StringToNumber trim fresh today f with
  | inl msg => Spec.first_failure StringToNumber trim f = Some msg
  | inr _ => Spec.first_failure StringToNumber trim f = None
  end.
Proof.
  unfold entry_of_form, Spec.first_failure, Spec.checks.
  rewrite !not_positive, !not_non_negative.
  cbn [find fst snd].
  repeat match goal with
         | |- match (if ?c then _ else _) with _ => _ end =>
             destruct c; [reflexivity|]
         end.
  reflexivity.
Qed.

Lemma violation_rejected (fresh today : string) (f : form_data) :
  let max := StringToNumber (form_maxMarks f) in
  let obt := StringToNumber (form_obtainedMarks f) in
  let rank := StringToNumber (form_testRank f) in
  let totalTakers := StringToNumber (form_totalTestTakers f) in
  truthy max = false \/ le max zero = true
  \/ isNaN obt = true \/ lt obt zero = true \/ gt obt max = true
  \/ (nonempty (form_testRank f) && nonempty (form_totalTestTakers f) = true
      /\ (truthy rank = false \/ le rank zero = true
          \/ truthy totalTakers = false \/ le totalTakers zero = true
          \/ gt rank totalTakers = true)) ->
  exists msg, entry_of_form StringToNumber trim fresh today f = inl msg.
Proof.
  intros max obt rank totalTakers Hv. unfold entry_of_form.
  fold max obt rank totalTakers.
  repeat match goal with
         | |- exists _, (if ?c then _ else _) = _ =>
             let E := fresh "E" in destruct c eqn:E; [eexists; reflexivity|]
         end.
  exfalso.
  destruct Hv as [H|[H|[H|[H|[H|[Hr H]]]]]];
    [| | | | |rewrite Hr in *; destruct H as [H|[H|[H|[H|H]]]]];
    rewrite H in *; simpl in *; rewrite ?orb_true_r in *; discriminate.
Qed.

End AddPath.

(** C1.  For every entry produced by the add/update path, the maximum is
    positive, the obtained marks lie between zero and the maximum, and the
    stored percentage is [Math.round(obtained / max * 10000) / 100] in
    binary64 arithmetic, where [Math.round] yields the integer nearest to
    its argument and the upper one on a tie.  The import computes the
    percentage of a record with a non-zero maximum by the same expression.
    With 22.5 marks out of 30 the stored percentage is 75. *)
Theorem percentage_rounded_half_up :
  forall (StringToNumber : string -> number) (trim : string -> string)
         (fresh today : string) (f : Tracker.form_data) (e : Tracker.entry),
    Tracker.entry_of_form StringToNumber trim fresh today f = inr e ->
    let m := Tracker.maxMarks e in
    let o := Tracker.obtainedMarks e in
    m = StringToNumber (Tracker.form_maxMarks f)
    /\ o = StringToNumber (Tracker.form_obtainedMarks f)
    /\ gt m zero = true /\ le zero o = true /\ le o m = true
    /\ Tracker.percentage e
       = div (Math_round (mul (div o m) (of_Z 10000))) (of_Z 100)
    /\ (forall (x : number) (q : Q),
           exact x = Some q ->
           exists n : Z,
             (inject_Z n - (1 # 2) <= q /\ q < inject_Z n + (1 # 2))%Q
             /\ ((Z.abs n < 2 ^ 53)%Z ->
                 exists r, exact (Math_round x) = Some r /\ (r == inject_Z n)%Q))
    /\ (forall (fresh' today' : string) (d : Tracker.raw_record),
           let e' := Tracker.normalize StringToNumber fresh' today' d in
           truthy (Tracker.maxMarks e') = true ->
           Tracker.percentage e'
           = div (Math_round (mul (div (Tracker.obtainedMarks e') (Tracker.maxMarks e'))
                                  (of_Z 10000)))
                 (of_Z 100))
    /\ (m = of_Z 30 -> o = Samples.n22_5 -> Tracker.percentage e = of_Z 75).
Proof.
  intros StringToNumber trim fresh today f e H m o.
  destruct (entry_of_form_accepted _ _ _ _ _ _ H)
    as [_ _ Hmax _ Hlow Hhigh _ He].
  assert (Hm : m = StringToNumber (Tracker.form_maxMarks f))
    by (unfold m; rewrite He; reflexivity).
  assert (Ho : o = StringToNumber (Tracker.form_obtainedMarks f))
    by (unfold o; rewrite He; reflexivity).
  assert (Hp : Tracker.percentage e
               = div (Math_round (mul (div o m) (of_Z 10000))) (of_Z 100))
    by (rewrite Hm, Ho, He; reflexivity).
  repeat split; try assumption; try (rewrite ?Hm, ?Ho; assumption).
  - intros x q. apply Math_round_nearest.
  - intros fresh' today' d e' Ht. unfold e' in *. simpl in *.
    rewrite Ht. reflexivity.
  - intros H30 H22. rewrite Hp, H30, H22. vm_compute. reflexivity.
Qed.

(** The form with 22.5 marks out of 30 passes the validation and its entry
    stores 75 percent. *)
Lemma percentage_rounded_half_up_witness :
  exists e,
    Tracker.entry_of_form Host.StringToNumber Host.trim "t1" "2024-03-01"
                          Samples.form_ranked = inr e
    /\ Tracker.percentage e = of_Z 75.
Proof.
  destruct (Tracker.entry_of_form Host.StringToNumber Host.trim "t1" "2024-03-01"
                                  Samples.form_ranked) as [msg|e] eqn:H.
  - vm_compute in H. discriminate H.
  - exists e. split; [reflexivity|].
    apply (percentage_rounded_half_up _ _ _ _ _ _ H);
      vm_compute in H; injection H as <-; vm_compute; reflexivity.
Defined.

Lemma at_least_one_positive (r : number) :
  le (of_Z 1) r = true -> gt r zero = true.
Proof.
  destruct r as [s|s| |s m e]; try destruct s; intros H; try reflexivity;
    cbv in H; discriminate H.
Qed.

Lemma above_positive_positive (r n : number) :
  gt r zero = true -> le r n = true -> gt n zero = true.
Proof.
  destruct r as [s|s| |s m e], n as [t|t| |t m' e']; try destruct s;
    try destruct t; intros H1 H2; try reflexivity;
    try (cbv in H1; discriminate H1); cbv in H2; discriminate H2.
Qed.

(** C2.  On the add/update path, when both rank fields are supplied the
    entry stores the rank, the number of takers (with [0 < rank <= takers])
    and the percentile [Math.round((1 - rank / takers) * 10000) / 100],
    where [Math.round] yields the integer nearest to its argument and the
    upper one on a tie; when one of them is left empty all three are
    [null].  The import stores the same percentile for a record with
    [1 <= rank <= takers], and [null] when a rank property is missing.
    Rank 15 among 500 gives 97 and rank 1 among 3 gives 66.67.  The cloud
    tracker's [getPercentile] is a display helper that does not round: it
    computes [(takers - rank) / takers * 100], which is 97 for rank 15
    among 500 and differs from 66.67 for rank 1 among 3. *)
Theorem rank_percentile_rounded_or_null :
  forall (StringToNumber : string -> number) (trim : string -> string)
         (fresh today : string) (f : Tracker.form_data) (e : Tracker.entry),
    Tracker.entry_of_form StringToNumber trim fresh today f = inr e ->
    let r := StringToNumber (Tracker.form_testRank f) in
    let n := StringToNumber (Tracker.form_totalTestTakers f) in
    (nonempty (Tracker.form_testRank f) = true ->
     nonempty (Tracker.form_totalTestTakers f) = true ->
     Tracker.testRank e = Some r /\ Tracker.totalTestTakers e = Some n
     /\ gt r zero = true /\ le r n = true
     /\ Tracker.rankPercentile e
        = Some (div (Math_round (mul (sub (of_Z 1) (div r n)) (of_Z 10000)))
                    (of_Z 100))
     /\ (r = of_Z 15 -> n = of_Z 500 -> Tracker.rankPercentile e = Some (of_Z 97))
     /\ (r = of_Z 1 -> n = of_Z 3 ->
         Tracker.rankPercentile e = Some (div (of_Z 6667) (of_Z 100))))
    /\ (forall (x : number) (q : Q),
           exact x = Some q ->
           exists k : Z,
             (inject_Z k - (1 # 2) <= q /\ q < inject_Z k + (1 # 2))%Q
             /\ ((Z.abs k < 2 ^ 53)%Z ->
                 exists v, exact (Math_round x) = Some v /\ (v == inject_Z k)%Q))
    /\ (nonempty (Tracker.form_testRank f) = false
        \/ nonempty (Tracker.form_totalTestTakers f) = false ->
        Tracker.testRank e = None /\ Tracker.totalTestTakers e = None
        /\ Tracker.rankPercentile e = None)
    /\ (forall (fresh' today' : string) (d : Tracker.raw_record),
           let r' := Tracker.Number StringToNumber (Tracker.raw_testRank d) in
           let n' := Tracker.Number StringToNumber (Tracker.raw_totalTestTakers d) in
           let e' := Tracker.normalize StringToNumber fresh' today' d in
           (le (of_Z 1) r' = true -> le r' n' = true ->
            Tracker.testRank e' = Some r' /\ Tracker.totalTestTakers e' = Some n'
            /\ Tracker.rankPercentile e'
               = Some (div (Math_round (mul (sub (of_Z 1) (div r' n')) (of_Z 10000)))
                           (of_Z 100)))
           /\ (Spec.missing (Tracker.raw_testRank d) = true
               \/ Spec.missing (Tracker.raw_totalTestTakers d) = true ->
               Tracker.testRank e' = None /\ Tracker.totalTestTakers e' = None
               /\ Tracker.rankPercentile e' = None))
    /\ CloudTracker.getPercentile (of_Z 15) (of_Z 500) = of_Z 97
    /\ CloudTracker.getPercentile (of_Z 1) (of_Z 3) <> div (of_Z 6667) (of_Z 100)
    /\ (forall rank totalStudents : number,
           SFeqb totalStudents zero = false -> gt rank totalStudents = false ->
           SFeqb rank zero = false ->
           isNaN rank = false -> isNaN totalStudents = false ->
           CloudTracker.getPercentile rank totalStudents
           = mul (div (sub totalStudents rank) totalStudents) (of_Z 100)).
Proof.
  intros StringToNumber trim fresh today f e H r n.
  destruct (entry_of_form_accepted _ _ _ _ _ _ H) as [_ _ _ _ _ _ Hrank He].
  split; [|split; [|split; [|split; [|split; [|split]]]]].
  - intros Hr Hn.
    assert (Hboth : nonempty (Tracker.form_testRank f)
                    && nonempty (Tracker.form_totalTestTakers f) = true)
      by now rewrite Hr, Hn.
    destruct (Hrank Hboth) as [Hpos Hle].
    rewrite He.
    cbn [Tracker.testRank Tracker.totalTestTakers Tracker.rankPercentile].
    rewrite Hboth.
    refine (conj eq_refl (conj eq_refl (conj Hpos (conj Hle (conj eq_refl _))))).
    split.
    + intros E15 E500. unfold r in E15. unfold n in E500.
      rewrite E15, E500. vm_compute. reflexivity.
    + intros E1 E3. unfold r in E1. unfold n in E3.
      rewrite E1, E3. vm_compute. reflexivity.
  - intros x q. apply Math_round_nearest.
  - intros Hmiss.
    assert (Hboth : nonempty (Tracker.form_testRank f)
                    && nonempty (Tracker.form_totalTestTakers f) = false)
      by (destruct Hmiss as [-> | ->]; [reflexivity | apply andb_false_r]).
    rewrite He.
    cbn [Tracker.testRank Tracker.totalTestTakers Tracker.rankPercentile].
    rewrite Hboth. auto.
  - intros fresh' today' d r' n' e'. split.
    + intros Hone Hle. pose proof (at_least_one_positive _ Hone) as Hp.
      unfold e', Tracker.normalize.
      cbn [Tracker.testRank Tracker.totalTestTakers Tracker.rankPercentile].
      fold r' n'. rewrite Hp, (above_positive_positive _ _ Hp Hle), Hle. auto.
    + intros Hmiss.
      assert (Hno : gt r' zero && gt n' zero && le r' n' = false).
      { unfold r', n'.
        destruct Hmiss as [Hm | Hm];
          [destruct (Tracker.raw_testRank d)
          |destruct (Tracker.raw_totalTestTakers d)];
          try discriminate Hm; simpl; rewrite ?andb_false_r; reflexivity. }
      unfold e', Tracker.normalize.
      cbn [Tracker.testRank Tracker.totalTestTakers Tracker.rankPercentile].
      fold r' n'. rewrite Hno. auto.
  - vm_compute. reflexivity.
  - vm_compute. discriminate.
  - intros rank totalStudents H1 H2 H3 H4 H5.
    unfold CloudTracker.getPercentile. rewrite H1, H2, H3, H4, H5. reflexivity.
Qed.

(** The form with rank 1 among 3 passes the validation and its entry
    stores the percentile 66.67, which is 66.666... rounded. *)
Lemma rank_percentile_rounded_or_null_witness :
  exists e,
    Tracker.entry_of_form Host.StringToNumber Host.trim "t1" "2024-03-01"
                          Samples.form_third = inr e
    /\ Tracker.rankPercentile e = Some (div (of_Z 6667) (of_Z 100)).
Proof.
  destruct (Tracker.entry_of_form Host.StringToNumber Host.trim "t1" "2024-03-01"
                                  Samples.form_third) as [msg|e] eqn:H.
  - vm_compute in H. discriminate H.
  - exists e. split; [reflexivity|].
    destruct (rank_percentile_rounded_or_null _ _ _ _ _ _ H) as [Hboth _].
    destruct (Hboth eq_refl eq_refl) as (_ & _ & _ & _ & _ & _ & Hthird).
    apply Hthird; vm_compute; reflexivity.
Defined.

(** The form with 35 marks out of 30 is rejected by the check of the
    obtained marks against the maximum. *)
Example excess_marks_rejected :
  Tracker.entry_of_form Host.StringToNumber Host.trim "t1" "2024-03-01"
                        Samples.form_excess
  = inl "Obtained marks cannot be greater than Max Marks.".
Proof. vm_compute. reflexivity. Qed.

(** A positive whole number is at least 1. *)
Lemma whole_positive_at_least_one (x : number) :
  valid_binary prec emax x = true -> whole x -> gt x zero = true ->
  le (of_Z 1) x = true.
Proof.
  destruct x as [s|s| |s m e]; try destruct s; intros Hv Hw Hp;
    try discriminate Hp; try contradiction; try reflexivity.
  cbn [valid_binary] in Hv. unfold bounded, canonical_mantissa, fexp in Hv.
  apply andb_true_iff in Hv as [Hc _]. apply Z.eqb_eq in Hc.
  pose proof (digits2_bounds m) as [Hlo Hhi].
  unfold le, SFleb. change (of_Z 1) with (S754_finite false 4503599627370496 (-52)).
  cbn [SFcompare].
  destruct (Z.compare_spec (-52) e) as [He|He|He]; try reflexivity.
  - subst e. assert (Hd : Z.pos (digits2_pos m) = 53%Z)
      by (unfold prec, emax, emin in Hc; lia).
    rewrite Hd in Hlo.
    change (Pos.compare_cont Eq 4503599627370496 m) with (4503599627370496 ?= m)%positive.
    destruct (Pos.compare_spec 4503599627370496 m) as [E|E|E]; try reflexivity.
    apply Pos2Z.pos_lt_pos in E. simpl in Hlo. lia.
  - exfalso. destruct e as [|e|k]; try lia.
    assert (Hk : (53 <= Z.pos k)%Z) by lia.
    unfold whole in Hw. cbn [exact signed] in Hw. destruct Hw as [n Hn].
    rewrite negative_power in Hn. unfold Qeq in Hn. cbn in Hn.
    rewrite Pos2Z.inj_pow in Hn.
    assert (Hd : (Z.pos (digits2_pos m) <= 53)%Z)
      by (unfold prec, emax, emin in Hc; lia).
    assert (H53 : (Z.pos m < 2 ^ 53)%Z).
    { eapply Z.lt_le_trans; [exact Hhi|]. apply Z.pow_le_mono_r; lia. }
    assert (Hpow : (2 ^ 53 <= 2 ^ Z.pos k)%Z) by (apply Z.pow_le_mono_r; lia).
    rewrite Pos.mul_1_r in Hn.
    set (P := (2 ^ Z.pos k)%Z) in *. set (B := (2 ^ 53)%Z) in *.
    assert (HB : (0 < B)%Z) by (unfold B; lia).
    assert (Hn1 : (1 <= n)%Z) by nia.
    nia.
Qed.

(** C3, as the claim states it, fails.  The import normalizes a record
    with 35 marks out of 30 without a check: the entry is stored, with
    the percentage 116.67.  On the add path a form with a rank but no
    number of takers is not rejected either: its entry is stored without
    rank. *)
Lemma unchecked_input_is_stored :
  (let st := Tracker.handleImportJSON Host.StringToNumber Host.DateTime
               "null" Samples.no_uid "2024-03-01"
               (Tracker.TopArray [Some Samples.record_excess])
               (Samples.empty_state Samples.form_ranked) in
   exists e,
     Tracker.tests st = [e]
     /\ Tracker.maxMarks e = of_Z 30
     /\ Tracker.obtainedMarks e = of_Z 35
     /\ le (Tracker.obtainedMarks e) (Tracker.maxMarks e) = false
     /\ Tracker.percentage e = div (of_Z 11667) (of_Z 100)
     /\ Tracker.toastAlert st
        = Some (Tracker.mkToast "Data imported successfully!" Tracker.success))
  /\ (let st := Tracker.handleAddOrUpdate Host.StringToNumber Host.trim
                  Host.DateTime "t1" "2024-03-01"
                  (Samples.empty_state Samples.form_rank_only) in
      nonempty (Tracker.form_testRank Samples.form_rank_only) = true
      /\ nonempty (Tracker.form_totalTestTakers Samples.form_rank_only) = false
      /\ exists e,
           Tracker.tests st = [e]
           /\ Tracker.testRank e = None
           /\ Tracker.totalTestTakers e = None
           /\ Tracker.toastAlert st
              = Some (Tracker.mkToast "Test added successfully!" Tracker.success)).
Proof.
  split.
  - eexists. repeat split; vm_compute; reflexivity.
  - split; [reflexivity|]. split; [reflexivity|].
    eexists. repeat split; vm_compute; reflexivity.
Qed.

(** C3, amended.  Every entry the add/update path produces has
    [0 < maxMarks], [0 <= obtainedMarks <= maxMarks], and rank fields that
    are all [null] or satisfy [0 < testRank <= totalTestTakers], so that
    [1 <= testRank] when the rank is a whole number; it is then in the
    collection.  The checks are made in a fixed order (subject, maximum,
    obtained marks, the three counts, and the three rank checks when both
    rank fields are filled in); a form that fails one is rejected with the
    message of the first check it fails, shown as an error toast, and the
    collection is unchanged; a form that fails none is accepted.  A form
    is rejected in particular when its maximum is not a positive number,
    its obtained marks are not a number from zero to the maximum, or both
    rank fields are supplied and the rank or the number of takers is not
    positive or the rank exceeds the takers; 35 marks out of 30 are
    rejected with the message about obtained marks exceeding the maximum.
    A form with only one of the rank fields filled in passes the rank
    checks and its entry has no rank.  The import makes no such check: it
    stores the marks of a record as it reads them, and rank fields that
    are all [null] or satisfy [0 < testRank <= totalTestTakers]. *)
Theorem validation_guards_invariants :
  forall (StringToNumber : string -> number) (trim : string -> string)
         (DateTime : string -> number) (fresh today : string) (st : Tracker.state),
    let f := Tracker.form st in
    let st' := Tracker.handleAddOrUpdate StringToNumber trim DateTime fresh today st in
    let max := StringToNumber (Tracker.form_maxMarks f) in
    let obt := StringToNumber (Tracker.form_obtainedMarks f) in
    let rank := StringToNumber (Tracker.form_testRank f) in
    let totalTakers := StringToNumber (Tracker.form_totalTestTakers f) in
    match Tracker.entry_of_form StringToNumber trim fresh today f with
    | inr e =>
        gt (Tracker.maxMarks e) zero = true
        /\ le zero (Tracker.obtainedMarks e) = true
        /\ le (Tracker.obtainedMarks e) (Tracker.maxMarks e) = true
        /\ match Tracker.testRank e, Tracker.totalTestTakers e with
           | None, None => Tracker.rankPercentile e = None
           | Some r, Some n =>
               gt r zero = true /\ le r n = true
               /\ (valid_binary prec emax r = true -> whole r ->
                   le (of_Z 1) r = true)
           | _, _ => False
           end
        /\ In e (Tracker.tests st')
        /\ Spec.first_failure StringToNumber trim f = None
        /\ (nonempty (Tracker.form_testRank f)
            && nonempty (Tracker.form_totalTestTakers f) = false ->
            Tracker.testRank e = None /\ Tracker.totalTestTakers e = None)
    | inl msg =>
        Spec.first_failure StringToNumber trim f = Some msg
        /\ In msg Spec.validation_messages
        /\ st' = Tracker.reject msg st
        /\ Tracker.tests st' = Tracker.tests st
        /\ Tracker.toastAlert st' = Some (Tracker.mkToast msg Tracker.error)
    end
    /\ (truthy max = false \/ le max zero = true
        \/ isNaN obt = true \/ lt obt zero = true \/ gt obt max = true
        \/ (nonempty (Tracker.form_testRank f)
            && nonempty (Tracker.form_totalTestTakers f) = true
            /\ (truthy rank = false \/ le rank zero = true
                \/ truthy totalTakers = false \/ le totalTakers zero = true
                \/ gt rank totalTakers = true)) ->
        exists msg, Tracker.entry_of_form StringToNumber trim fresh today f = inl msg)
    /\ (nonempty (trim (Tracker.form_subject f)) = true ->
        max = of_Z 30 -> obt = of_Z 35 ->
        Tracker.entry_of_form StringToNumber trim fresh today f
        = inl "Obtained marks cannot be greater than Max Marks.")
    /\ (forall (fresh' today' : string) (d : Tracker.raw_record) (x y : number),
           let e' := Tracker.normalize StringToNumber fresh' today' d in
           (Tracker.raw_maxMarks d = Tracker.JNum x -> truthy x = true ->
            Tracker.raw_obtainedMarks d = Tracker.JNum y -> truthy y = true ->
            Tracker.maxMarks e' = x /\ Tracker.obtainedMarks e' = y)
           /\ match Tracker.testRank e', Tracker.totalTestTakers e' with
              | None, None => Tracker.rankPercentile e' = None
              | Some r, Some n => gt r zero = true /\ le r n = true
              | _, _ => False
              end).
Proof.
  intros StringToNumber trim DateTime fresh today st f st' max obt rank totalTakers.
  split; [|split; [|split]].
  - unfold st', Tracker.handleAddOrUpdate. fold f.
    pose proof (entry_of_form_first_failure StringToNumber trim fresh today f)
      as Hfirst.
    destruct (Tracker.entry_of_form StringToNumber trim fresh today f)
      as [msg|e] eqn:H.
    + split; [exact Hfirst|].
      repeat split. eapply entry_of_form_message; eassumption.
    + destruct (entry_of_form_accepted _ _ _ _ _ _ H)
        as [_ _ Hmax _ Hlow Hhigh Hrank He].
      refine (conj _ (conj _ (conj _ (conj _ (conj _ (conj Hfirst _)))))).
      * rewrite He; exact Hmax.
      * rewrite He; exact Hlow.
      * rewrite He; exact Hhigh.
      * rewrite He; simpl.
        destruct (nonempty (Tracker.form_testRank f)
                  && nonempty (Tracker.form_totalTestTakers f));
          [|reflexivity].
        destruct (Hrank eq_refl) as [Hpos Hle].
        refine (conj Hpos (conj Hle _)).
        intros Hvalid Hwhole. now apply whole_positive_at_least_one.
      * unfold Tracker.add_or_replace.
        destruct (existsb _ (Tracker.tests st)) eqn:Hex;
          cbv beta iota zeta delta [Tracker.setForm Tracker.setToastAlert
                                    Tracker.setTests Tracker.tests].
        -- apply existsb_exists in Hex as [p [Hin Hid]].
           apply in_map_iff. exists p. rewrite Hid. auto.
        -- apply sort_In. left. reflexivity.
      * intros Hone. rewrite He.
        cbn [Tracker.testRank Tracker.totalTestTakers]. rewrite Hone. auto.
  - apply violation_rejected.
  - intros Hs Hm Ho. unfold Tracker.entry_of_form. fold f max obt.
    rewrite Hs, Hm, Ho. reflexivity.
  - intros fresh' today' d x y e'. split.
    + intros Hx Tx Hy Ty. unfold e', Tracker.normalize.
      cbn [Tracker.maxMarks Tracker.obtainedMarks]. rewrite Hx, Hy.
      cbn [Tracker.Number]. unfold or_else. now rewrite Tx, Ty.
    + unfold e', Tracker.normalize.
      cbn [Tracker.testRank Tracker.totalTestTakers Tracker.rankPercentile].
      destruct (gt (Tracker.Number StringToNumber (Tracker.raw_testRank d)) zero)
        eqn:Er; [|reflexivity].
      destruct (gt (Tracker.Number StringToNumber (Tracker.raw_totalTestTakers d))
                   zero) eqn:En; [|reflexivity].
      destruct (le (Tracker.Number StringToNumber (Tracker.raw_testRank d))
                   (Tracker.Number StringToNumber (Tracker.raw_totalTestTakers d)))
        eqn:El; [|reflexivity].
      cbn. auto.
Qed.

(** C4 fails on import: of a record with 20 correct, 0 wrong and 10
    unattempted answers the import keeps the first and the last count and
    stores [null] for the recorded zero, so the triple is neither stored
    as a unit nor is the zero kept apart from [null]. *)
Lemma import_drops_recorded_zero :
  let e := Tracker.normalize Host.StringToNumber "generated" "2024-03-01"
                             Samples.record_zero_wrong in
  Tracker.correctCount e = Some (of_Z 20)
  /\ Tracker.incorrectCount e = None
  /\ Tracker.notAttemptedCount e = Some (of_Z 10).
Proof. repeat split; vm_compute; reflexivity. Qed.

(** On the add/update path the three counts are stored as a unit: all
    three are [null] when none of the three fields is supplied, and
    otherwise each is the number read from its field, a zero included.  On
    import each count is stored on its own: the number when it is positive,
    [null] otherwise. *)
Theorem counts_stored_as_unit_on_add :
  forall (StringToNumber : string -> number) (trim : string -> string)
         (fresh today : string) (f : Tracker.form_data) (e : Tracker.entry),
    Tracker.entry_of_form StringToNumber trim fresh today f = inr e ->
    let supplied :=
      nonempty (Tracker.form_correctCount f)
      || nonempty (Tracker.form_incorrectCount f)
      || nonempty (Tracker.form_notAttemptedCount f) in
    (supplied = false ->
     Tracker.correctCount e = None /\ Tracker.incorrectCount e = None
     /\ Tracker.notAttemptedCount e = None)
    /\ (supplied = true ->
        Tracker.correctCount e = Some (StringToNumber (Tracker.form_correctCount f))
        /\ Tracker.incorrectCount e
           = Some (StringToNumber (Tracker.form_incorrectCount f))
        /\ Tracker.notAttemptedCount e
           = Some (StringToNumber (Tracker.form_notAttemptedCount f)))
    /\ (forall (fresh' today' : string) (d : Tracker.raw_record),
           let e' := Tracker.normalize StringToNumber fresh' today' d in
           let kept (v : Tracker.jsval) :=
             if gt (Tracker.Number StringToNumber v) zero
             then Some (Tracker.Number StringToNumber v) else None in
           Tracker.correctCount e' = kept (Tracker.raw_correctCount d)
           /\ Tracker.incorrectCount e' = kept (Tracker.raw_incorrectCount d)
           /\ Tracker.notAttemptedCount e' = kept (Tracker.raw_notAttemptedCount d)).
Proof.
  intros StringToNumber trim fresh today f e H supplied.
  destruct (entry_of_form_accepted _ _ _ _ _ _ H) as [_ _ _ _ _ _ _ He].
  split; [|split].
  - intros Hs. rewrite He; simpl. fold supplied. rewrite Hs. auto.
  - intros Hs. rewrite He; simpl. fold supplied. rewrite Hs. auto.
  - intros fresh' today' d e' kept. repeat split.
Qed.

(** The form that records 20 correct, 0 wrong and 10 unattempted answers
    stores all three counts, the zero as [0]. *)
Lemma counts_stored_as_unit_on_add_witness :
  exists e,
    Tracker.entry_of_form Host.StringToNumber Host.trim "t1" "2024-03-01"
                          Samples.form_counted = inr e
    /\ Tracker.correctCount e = Some (of_Z 20)
    /\ Tracker.incorrectCount e = Some zero
    /\ Tracker.notAttemptedCount e = Some (of_Z 10).
Proof.
  destruct (Tracker.entry_of_form Host.StringToNumber Host.trim "t1" "2024-03-01"
                                  Samples.form_counted) as [msg|e] eqn:H.
  - vm_compute in H. discriminate H.
  - exists e. split; [reflexivity|].
    destruct (counts_stored_as_unit_on_add _ _ _ _ _ _ H) as [_ [Hs _]].
    specialize (Hs eq_refl). exact Hs.
Defined.

(** C6.  When the content of an imported file is not an array, be it
    unparsable, a scalar or an object, the import shows an error toast
    whose message starts with [Failed to import: ] and leaves the state,
    the collection included, otherwise unchanged: no record is written. *)
Theorem import_rejects_non_array :
  forall (StringToNumber : string -> number) (DateTime : string -> number)
         (TypeError_message : string) (uid : nat -> string) (today : string)
         (file : Tracker.file_content) (st : Tracker.state),
    Tracker.isArray file = false ->
    let st' := Tracker.handleImportJSON StringToNumber DateTime TypeError_message
                                        uid today file st in
    let reason :=
      match file with
      | Tracker.Unparsable syntax_error => syntax_error
      | _ => "Invalid file format. Ensure it's an array of test objects."
      end in
    st' = Tracker.reject ("Failed to import: " ++ reason) st
    /\ Tracker.tests st' = Tracker.tests st
    /\ Tracker.toastAlert st'
       = Some (Tracker.mkToast ("Failed to import: " ++ reason) Tracker.error).
Proof.
  intros StringToNumber DateTime TypeError_message uid today file st Harr.
  destruct file; try discriminate Harr; repeat split.
Qed.

(** Importing a file that holds an object leaves the collection as it is
    and shows the error toast. *)
Lemma import_rejects_non_array_witness :
  let st := Samples.empty_state Samples.form_ranked in
  let st' := Tracker.handleImportJSON Host.StringToNumber Host.DateTime "null"
               Samples.no_uid "2024-03-01"
               (Tracker.TopObject [("tests", Tracker.JNull)]) st in
  Tracker.tests st' = Tracker.tests st
  /\ Tracker.toastAlert st'
     = Some (Tracker.mkToast
               ("Failed to import: "
                ++ "Invalid file format. Ensure it's an array of test objects.")
               Tracker.error).
Proof.
  intros st st'.
  exact (proj2 (import_rejects_non_array Host.StringToNumber Host.DateTime "null"
                  Samples.no_uid "2024-03-01"
                  (Tracker.TopObject [("tests", Tracker.JNull)]) st eq_refl)).
Defined.

(* ------------------------------------------------------------------ *)
(** ** The tabular export *)

Lemma prefix_str (c : ascii) (s : string) :
  prefix (str c) s = match s with
                     | String c' _ => Ascii.eqb c c'
                     | EmptyString => false
                     end.
Proof.
  destruct s as [|c' s']; simpl; [reflexivity|].
  destruct (ascii_dec c c') as [->|Hne].
  - rewrite Ascii.eqb_refl. destruct s'; reflexivity.
  - apply Ascii.eqb_neq in Hne. rewrite Hne. reflexivity.
Qed.

(** [s.includes(c)] for a one-character pattern: [c] occurs in [s]. *)
Lemma includes_str (c : ascii) (s : string) :
  includes s (str c) = existsb (fun c' => Ascii.eqb c' c) (list_ascii_of_string s).
Proof.
  induction s as [|c' s IH].
  - reflexivity.
  - cbn [includes list_ascii_of_string existsb]. rewrite IH, prefix_str.
    now rewrite (Ascii.eqb_sym c c').
Qed.

Lemma needs_quoting_includes (s : string) :
  includes s (str comma) || includes s (str newline) || includes s (str quote)
  = Spec.needs_quoting s.
Proof.
  rewrite !includes_str. unfold Spec.needs_quoting.
  induction (list_ascii_of_string s) as [|c l IH]; simpl; [reflexivity|].
  rewrite <- IH.
  destruct (Ascii.eqb c comma), (Ascii.eqb c newline), (Ascii.eqb c quote);
    simpl; rewrite ?orb_true_r; try reflexivity;
    destruct (existsb _ l); simpl; rewrite ?orb_true_r; reflexivity.
Qed.


(* ------------------------------------------------------------------ *)
(** ** The form statistics of the cloud tracker *)

Lemma or_else_parseFloat (v : CloudTracker.field) (d : number) :
  or_else (CloudTracker.parseFloat v) d = Spec.reading v d.
Proof. destruct v as [|[s|s| |s m e]]; reflexivity. Qed.


(* ------------------------------------------------------------------ *)
(** ** Filtering *)

Lemma filter_filter_and {A : Type} (f g : A -> bool) (l : list A) :
  filter g (filter f l) = filter (fun x => f x && g x) l.
Proof.
  induction l as [|x l IH]; simpl; [reflexivity|].
  destruct (f x); simpl; [destruct (g x)|]; now rewrite IH.
Qed.

Lemma filter_subsequence {A : Type} (f : A -> bool) (l : list A) :
  Spec.subsequence (filter f l) l.
Proof.
  induction l as [|x l IH]; simpl.
  - constructor.
  - destruct (f x); constructor; exact IH.
Qed.

Lemma or_default_empty (s : string) : or_default s EmptyString = s.
Proof. destruct s; reflexivity. Qed.

Lemma prefix_append (p s : string) :
  prefix p s = true <-> exists rest : string, s = (p ++ rest)%string.
Proof.
  revert s. induction p as [|a p IH]; intros s.
  - split; [intros _; now exists s | intros _; destruct s; reflexivity].
  - destruct s as [|b s]; cbn [prefix].
    + split; [discriminate | intros [rest H]; discriminate H].
    + destruct (ascii_dec a b) as [->|Hne].
      * rewrite IH. split; intros [rest H]; exists rest.
        -- now rewrite H.
        -- now injection H.
      * split; [discriminate|]. intros [rest H]. injection H as E _. congruence.
Qed.

(** [s.includes(sub)] holds exactly when [sub] occurs in [s]. *)
Lemma includes_occurs (s sub : string) :
  includes s sub = true <-> Spec.occurs_in sub s.
Proof.
  unfold Spec.occurs_in. induction s as [|c s IH]; cbn [includes].
  - rewrite orb_false_r, prefix_append. split.
    + intros [rest H]. exists EmptyString, rest. exact H.
    + intros (before & after & H). destruct before; [|discriminate H].
      now exists after.
  - rewrite orb_true_iff, prefix_append, IH. split.
    + intros [[rest H]|(before & after & H)].
      * exists EmptyString, rest. exact H.
      * exists (String c before), after. now rewrite H.
    + intros (before & after & H). destruct before as [|c' before].
      * left. now exists after.
      * right. injection H as _ H. now exists before, after.
Qed.

Section FilterFacts.
Variable toLowerCase : string -> string.
Variable DateTime : string -> number.

(** The body of the callback of [filtered] is the conjunction of the
    subject, date and search predicates. *)
Lemma filtered_callback (st : Tracker.state) (t : Tracker.entry) :
  (if negb (String.eqb (Tracker.filterSubject st) "All")
      && negb (String.eqb (Tracker.subject t) (Tracker.filterSubject st)) then false
   else if nonempty (Tracker.dateFrom st)
           && lt (DateTime (Tracker.date t)) (DateTime (Tracker.dateFrom st)) then false
   else if nonempty (Tracker.dateTo st)
           && gt (DateTime (Tracker.date t)) (DateTime (Tracker.dateTo st)) then false
   else if nonempty (Tracker.search st) then
     let s := toLowerCase (Tracker.search st) in
     if negb (includes (toLowerCase (Tracker.subject t)) s)
        && negb (includes (toLowerCase (or_default (Tracker.notes t) EmptyString)) s)
        && negb (includes (toLowerCase (or_default (Tracker.category t) EmptyString)) s)
        && negb (includes (toLowerCase (or_default (Tracker.provider t) EmptyString)) s)
     then false else true
   else true)
  = Spec.subject_matches st t
    && Spec.not_before_from DateTime st t && Spec.not_after_to DateTime st t
    && Spec.search_matches toLowerCase st t.
Proof.
  unfold Spec.subject_matches, Spec.not_before_from, Spec.not_after_to,
    Spec.search_matches, Spec.contains_ignoring_case.
  rewrite !or_default_empty. cbv zeta.
  destruct (String.eqb (Tracker.filterSubject st) "All"); simpl;
    [|destruct (String.eqb (Tracker.subject t) (Tracker.filterSubject st)); simpl;
      [|reflexivity]];
    (destruct (nonempty (Tracker.dateFrom st)); simpl;
     [destruct (lt (DateTime (Tracker.date t)) (DateTime (Tracker.dateFrom st)));
      simpl; [reflexivity|]|]);
    (destruct (nonempty (Tracker.dateTo st)); simpl;
     [destruct (gt (DateTime (Tracker.date t)) (DateTime (Tracker.dateTo st)));
      simpl; [reflexivity|]|]);
    (destruct (nonempty (Tracker.search st)); simpl; [|reflexivity]);
    destruct (includes (toLowerCase (Tracker.subject t)) _); simpl; try reflexivity;
    destruct (includes (toLowerCase (Tracker.notes t)) _); simpl; try reflexivity;
    destruct (includes (toLowerCase (Tracker.category t)) _); simpl; try reflexivity;
    destruct (includes (toLowerCase (Tracker.provider t)) _); reflexivity.
Qed.

Lemma filtered_is_filter (st : Tracker.state) :
  Tracker.filtered toLowerCase DateTime st
  = filter (Spec.matches toLowerCase DateTime st) (Tracker.tests st).
Proof.
  unfold Tracker.filtered, Tracker.providerFilteredTests.
  destruct (String.eqb (Tracker.filterProvider st) "All") eqn:Hall.
  - apply filter_ext. intros t. rewrite filtered_callback.
    unfold Spec.matches, Spec.provider_matches. rewrite Hall. simpl.
    now rewrite <- !andb_assoc.
  - rewrite filter_filter_and. apply filter_ext. intros t.
    rewrite filtered_callback.
    unfold Spec.matches, Spec.provider_matches, Spec.provider_of. rewrite Hall. simpl.
    now rewrite <- !andb_assoc.
Qed.

End FilterFacts.

(** C7.  The filtered list is the collection restricted to the entries
    that satisfy all predicates at once: the provider filter ([All] for no
    filter, otherwise equality with the entry's provider, an entry without
    provider counting as [Other]), the subject filter ([All] for no filter,
    otherwise equality), the two date bounds (an entry is dropped only when
    its date lies strictly before the lower or strictly after the upper
    bound, so both bounds are inclusive) and the search text (contained,
    letter case ignored, in the subject, the notes, the category or the
    provider: the lowered search text occurs as a substring in the
    lowered field, and an empty search text does not filter).  The result
    keeps the entries in the order of the collection; the collection
    itself is an argument that is only read. *)
Theorem filtered_conjunctive_in_order :
  forall (toLowerCase : string -> string) (DateTime : string -> number)
         (st : Tracker.state),
    Tracker.filtered toLowerCase DateTime st
    = filter (Spec.matches toLowerCase DateTime st) (Tracker.tests st)
    /\ Spec.subsequence (Tracker.filtered toLowerCase DateTime st) (Tracker.tests st)
    /\ (forall t : Tracker.entry,
           In t (Tracker.filtered toLowerCase DateTime st) <->
           In t (Tracker.tests st)
           /\ Spec.provider_matches st t = true
           /\ Spec.subject_matches st t = true
           /\ Spec.not_before_from DateTime st t = true
           /\ Spec.not_after_to DateTime st t = true
           /\ Spec.search_matches toLowerCase st t = true)
    /\ (forall t : Tracker.entry,
           nonempty (Tracker.provider t) = true ->
           Spec.provider_of t = Tracker.provider t)
    /\ (forall t : Tracker.entry,
           Spec.search_matches toLowerCase st t = true <->
           Tracker.search st = EmptyString
           \/ exists field : string,
                In field [Tracker.subject t; Tracker.notes t;
                          Tracker.category t; Tracker.provider t]
                /\ Spec.occurs_in (toLowerCase (Tracker.search st))
                                  (toLowerCase field))
    /\ (forall a b : number,
           isNaN a = false -> isNaN b = false ->
           negb (lt a b) = le b a /\ negb (gt a b) = le a b).
Proof.
  intros toLowerCase DateTime st.
  split; [apply filtered_is_filter|].
  split; [rewrite filtered_is_filter; apply filter_subsequence|].
  split; [|split; [|split]].
  - intros t. rewrite filtered_is_filter, filter_In. unfold Spec.matches.
    rewrite !andb_true_iff. tauto.
  - intros t Ht. unfold Spec.provider_of, or_default. now rewrite Ht.
  - intros t. unfold Spec.search_matches, Spec.contains_ignoring_case.
    rewrite !orb_true_iff, !includes_occurs, negb_true_iff.
    assert (Hempty : nonempty (Tracker.search st) = false
                     <-> Tracker.search st = EmptyString).
    { destruct (Tracker.search st); split; intros H;
        first [reflexivity | discriminate H]. }
    rewrite Hempty. split.
    + intros [[[[H|H]|H]|H]|H]; [now left| | | |];
        right; eexists; (split; [|exact H]); simpl; tauto.
    + intros [H|(field & [<-|[<-|[<-|[<-|[]]]]] & H)]; tauto.
  - intros a b Ha Hb. split.
    + destruct (lt a b) eqn:E.
      * rewrite (lt_not_le_swap _ _ E). reflexivity.
      * rewrite (not_lt_le _ _ Ha Hb E). reflexivity.
    + change (gt a b) with (lt b a). destruct (lt b a) eqn:E.
      * rewrite (lt_not_le_swap _ _ E). reflexivity.
      * rewrite (not_lt_le _ _ Hb Ha E). reflexivity.
Qed.

(* ------------------------------------------------------------------ *)
(** ** The interchange format *)

Section Interchange.
Variable StringToNumber : string -> number.
Variable DateTime : string -> number.
Variable TypeError_message : string.

Lemma json_number_finite (x : number) :
  Spec.finite_nonzero x = true ->
  Tracker.Number StringToNumber (Tracker.json_number x) = x /\ truthy x = true.
Proof. destruct x; simpl; try discriminate; auto. Qed.

Lemma json_nullable_count (v : option number) :
  Spec.positive_if_recorded v ->
  (if gt (Tracker.Number StringToNumber (Tracker.json_nullable v)) zero
   then Some (Tracker.Number StringToNumber (Tracker.json_nullable v))
   else None) = v.
Proof.
  destruct v as [x|]; simpl; [|reflexivity].
  intros [Hf Hg]. destruct (json_number_finite x Hf) as [-> _]. now rewrite Hg.
Qed.

Lemma text_or_present (s fallback : string) :
  nonempty s = true -> Tracker.text_or (Some s) fallback = s.
Proof. intros H. simpl. unfold or_default. now rewrite H. Qed.

(** Importing the record written for a stable entry gives the entry
    back. *)
Lemma normalize_json_of_entry (fresh today : string) (t : Tracker.entry) :
  Spec.interchange_stable t ->
  Tracker.normalize StringToNumber fresh today (Tracker.json_of_entry t) = t.
Proof.
  intros [Hid Hsub Hcat Hprov Hdate Hmax Hobt Hpct Hc Hi Hn Hrank].
  destruct t as [i sb ct pv mx ob pc cc ic nc tr tt rp dt nt].
  cbn [Tracker.id Tracker.subject Tracker.category Tracker.provider Tracker.maxMarks
       Tracker.obtainedMarks Tracker.percentage Tracker.correctCount
       Tracker.incorrectCount Tracker.notAttemptedCount Tracker.testRank
       Tracker.totalTestTakers Tracker.rankPercentile Tracker.date Tracker.notes] in *.
  unfold Tracker.normalize, Tracker.json_of_entry.
  cbn [Tracker.raw_id Tracker.raw_subject Tracker.raw_category Tracker.raw_provider
       Tracker.raw_maxMarks Tracker.raw_obtainedMarks Tracker.raw_correctCount
       Tracker.raw_incorrectCount Tracker.raw_notAttemptedCount Tracker.raw_testRank
       Tracker.raw_totalTestTakers Tracker.raw_date Tracker.raw_notes
       Tracker.id Tracker.subject Tracker.category Tracker.provider Tracker.maxMarks
       Tracker.obtainedMarks Tracker.percentage Tracker.correctCount
       Tracker.incorrectCount Tracker.notAttemptedCount Tracker.testRank
       Tracker.totalTestTakers Tracker.rankPercentile Tracker.date Tracker.notes].
  rewrite !text_or_present by assumption.
  rewrite !json_nullable_count by assumption.
  destruct (json_number_finite mx Hmax) as [Emx Tmx].
  assert (Eob : or_else (Tracker.Number StringToNumber (Tracker.json_number ob)) zero = ob).
  { destruct Hobt as [Hf | ->]; [|reflexivity].
    destruct (json_number_finite ob Hf) as [-> Tob]. unfold or_else. now rewrite Tob. }
  rewrite Emx, Eob. unfold or_else. rewrite !Tmx, <- Hpct.
  assert (Ent : Tracker.text_or (Some nt) EmptyString = nt)
    by (simpl; apply or_default_empty).
  rewrite Ent.
  destruct tr as [r|], tt as [n|], rp as [p|]; try contradiction.
  - destruct Hrank as (Hr & Hn' & Hgr & Hle & ->).
    cbn [Tracker.json_nullable].
    destruct (json_number_finite r Hr) as [-> _].
    destruct (json_number_finite n Hn') as [-> _].
    rewrite Hgr, (above_positive_positive _ _ Hgr Hle), Hle. reflexivity.
  - reflexivity.
Qed.

Lemma normalize_all_export (uid : nat -> string) (k : nat) (today : string)
      (l : list Tracker.entry) :
  Forall Spec.interchange_stable l ->
  Tracker.normalize_all StringToNumber uid k today
    (map (fun t => Some (Tracker.json_of_entry t)) l) = Some l.
Proof.
  induction 1 as [|t l Ht Hl IH]; [reflexivity|].
  cbn [map Tracker.normalize_all].
  assert (Hk : Tracker.text_or (Tracker.raw_id (Tracker.json_of_entry t)) EmptyString
               = Tracker.id t).
  { apply text_or_present. apply Ht. }
  rewrite Hk. pose proof (Spec.stable_id t Ht) as Hid.
  destruct (Tracker.id t) eqn:E; [discriminate Hid|].
  rewrite IH, normalize_json_of_entry by assumption. reflexivity.
Qed.

End Interchange.

(** A list whose neighbours the comparator leaves in place is left as it
    is by the sort. *)
Lemma sort_in_order {A : Type} (cmp : A -> A -> number) (l : list A) :
  Sorted (fun a b => gt (cmp a b) zero = false) l -> sort cmp l = l.
Proof.
  induction 1 as [|x l Hl IH Hhd]; [reflexivity|].
  cbn [sort fold_right]. fold (sort cmp l). rewrite IH.
  destruct Hhd as [|y l' Hxy]; [reflexivity|].
  cbn [insert]. now rewrite Hxy.
Qed.

(** C5, as the claim states it, fails: a collection of two valid entries
    that holds the older one first, as it does after the date of an entry
    has been edited, is exported and imported into an empty collection; the
    import stores the newer entry first. *)
Lemma roundtrip_reorders :
  let st := Samples.state_oldest_first in
  let st' := Tracker.handleImportJSON Host.StringToNumber Host.DateTime "null"
               Samples.no_uid "2024-03-01" (Tracker.handleExportJSON st)
               (Samples.empty_state Samples.form_ranked) in
  Forall Spec.interchange_stable (Tracker.tests st)
  /\ map (fun t => (Tracker.id t, Tracker.date t)) (Tracker.tests st)
     = [("a", "2024-01-01"); ("b", "2024-03-01")]
  /\ map Tracker.id (Tracker.tests st') = ["b"; "a"]
  /\ Tracker.tests st' <> Tracker.tests st.
Proof.
  split.
  { vm_compute. repeat constructor; vm_compute; auto. }
  split; [vm_compute; reflexivity|].
  split; [vm_compute; reflexivity|].
  intros H. apply (f_equal (map Tracker.id)) in H.
  vm_compute in H. discriminate H.
Qed.

(** The entry added from a form that records 0 wrong answers comes back
    from an export and import with [null] in place of the zero. *)
Lemma roundtrip_loses_recorded_zero :
  let st := Samples.state_counted in
  let st' := Tracker.handleImportJSON Host.StringToNumber Host.DateTime "null"
               Samples.no_uid "2024-03-01" (Tracker.handleExportJSON st)
               (Samples.empty_state Samples.form_ranked) in
  map Tracker.incorrectCount (Tracker.tests st) = [Some zero]
  /\ map Tracker.incorrectCount (Tracker.tests st') = [None]
  /\ Tracker.tests st' <> Tracker.tests st.
Proof.
  split; [vm_compute; reflexivity|].
  split; [vm_compute; reflexivity|].
  intros H. apply (f_equal (map Tracker.incorrectCount)) in H.
  vm_compute in H. discriminate H.
Qed.

(* ------------------------------------------------------------------ *)
(** ** The sign of a rounded sum *)

Section Rounding.

Lemma shr_1_mantissa (mrs : shr_record) :
  (0 <= shr_m mrs)%Z -> shr_m (shr_1 mrs) = (shr_m mrs / 2)%Z.
Proof.
  destruct mrs as [m r s]; cbn [shr_m]. intros Hm.
  destruct m as [|[p|p|]|p]; try lia; cbn [shr_1 shr_m]; try reflexivity.
  - apply (Z.div_unique_pos _ 2 (Z.pos p) 1); lia.
  - apply (Z.div_unique_pos _ 2 (Z.pos p) 0); lia.
Qed.

Lemma iter_shr_1_mantissa (p : positive) (mrs : shr_record) :
  (0 <= shr_m mrs)%Z ->
  shr_m (iter_pos shr_1 p mrs) = (shr_m mrs / 2 ^ Z.pos p)%Z.
Proof.
  revert mrs. induction p as [p IH|p IH|]; intros mrs Hm; simpl iter_pos.
  - assert (H1 : (0 <= shr_m (shr_1 mrs))%Z)
      by (rewrite shr_1_mantissa by assumption; apply Z.div_pos; lia).
    assert (H2 : (0 <= shr_m (iter_pos shr_1 p (shr_1 mrs)))%Z)
      by (rewrite IH by assumption; apply Z.div_pos; [assumption|apply Z.pow_pos_nonneg; lia]).
    rewrite IH, IH, shr_1_mantissa by assumption.
    rewrite !Z.div_div
      by first [lia | apply Z.pow_pos_nonneg; lia | apply Z.pow_nonzero; lia].
    f_equal.
    assert (E : (2 ^ Z.pos p~1 = 2 ^ 1 * 2 ^ Z.pos p * 2 ^ Z.pos p)%Z)
      by (rewrite <- !Z.pow_add_r by lia; f_equal; lia).
    rewrite E. lia.
  - assert (H2 : (0 <= shr_m (iter_pos shr_1 p mrs))%Z)
      by (rewrite IH by assumption; apply Z.div_pos; [assumption|apply Z.pow_pos_nonneg; lia]).
    rewrite IH, IH by assumption.
    rewrite Z.div_div
      by first [lia | apply Z.pow_pos_nonneg; lia | apply Z.pow_nonzero; lia].
    f_equal.
    assert (E : (2 ^ Z.pos p~0 = 2 ^ Z.pos p * 2 ^ Z.pos p)%Z)
      by (rewrite <- !Z.pow_add_r by lia; f_equal; lia).
    rewrite E. reflexivity.
  - rewrite shr_1_mantissa by assumption. reflexivity.
Qed.

Lemma shr_record_of_loc_mantissa (m : Z) (l : location) :
  shr_m (shr_record_of_loc m l) = m.
Proof. destruct l as [|[]]; reflexivity. Qed.

(** The exponent [shr_fexp] returns is at least [emin]. *)
Lemma shr_fexp_exponent (m e : Z) (l : location) :
  (emin prec emax <= snd (shr_fexp prec emax m e l))%Z.
Proof.
  unfold shr_fexp, shr, fexp.
  destruct (Z.max (Zdigits2 m + e - prec) (emin prec emax) - e)%Z eqn:E; simpl; lia.
Qed.

(** A positive mantissa above [emin] stays positive through [shr_fexp]. *)
Lemma shr_fexp_positive (m : positive) (e : Z) (l : location) :
  (emin prec emax <= e)%Z ->
  (0 < shr_m (fst (shr_fexp prec emax (Z.pos m) e l)))%Z.
Proof.
  intros He. unfold shr_fexp, shr, fexp.
  destruct (Z.max (Zdigits2 (Z.pos m) + e - prec) (emin prec emax) - e)%Z
    as [|n|n] eqn:E; simpl fst; rewrite ?shr_record_of_loc_mantissa; try lia.
  rewrite iter_shr_1_mantissa by (rewrite shr_record_of_loc_mantissa; lia).
  rewrite shr_record_of_loc_mantissa.
  simpl Zdigits2 in E.
  pose proof (digits2_bounds m) as [Hlo _].
  assert (Hn : (Z.pos n = Z.pos (digits2_pos m) - prec)%Z) by lia.
  apply Z.div_str_pos. split; [apply Z.pow_pos_nonneg; lia|].
  eapply Z.le_trans; [|exact Hlo].
  apply Z.pow_le_mono_r; [lia|]. rewrite Hn. unfold prec. lia.
Qed.

Lemma round_nearest_even_positive (m : Z) (l : location) :
  (0 < m)%Z -> (0 < round_nearest_even m l)%Z.
Proof.
  intros Hm. destruct l as [|[]]; simpl; try lia.
  destruct (Z.even m); lia.
Qed.

Lemma binary_round_aux_positive (s : bool) (m : positive) (e : Z) (l : location) :
  (emin prec emax <= e)%Z ->
  nonzero_with_sign s (binary_round_aux prec emax s (Z.pos m) e l).
Proof.
  intros He. unfold binary_round_aux.
  pose proof (shr_fexp_positive m e l He) as H1.
  pose proof (shr_fexp_exponent (Z.pos m) e l) as He1.
  destruct (shr_fexp prec emax (Z.pos m) e l) as [mrs' e'] eqn:E1.
  simpl in H1, He1.
  pose proof (round_nearest_even_positive _ (loc_of_shr_record mrs') H1) as H2.
  destruct (round_nearest_even (shr_m mrs') (loc_of_shr_record mrs')) as [|m2|m2];
    try lia.
  pose proof (shr_fexp_positive m2 e' loc_Exact He1) as H3.
  pose proof (shr_fexp_exponent (Z.pos m2) e' loc_Exact) as He2.
  destruct (shr_fexp prec emax (Z.pos m2) e' loc_Exact) as [mrs'' e''] eqn:E2.
  simpl in H3, He2.
  destruct (shr_m mrs'') as [|m3|m3]; try lia.
  destruct (e'' <=? emax - prec)%Z; simpl; auto.
Qed.

Lemma binary_round_positive (s : bool) (m : positive) (e : Z) :
  (emin prec emax <= e)%Z ->
  nonzero_with_sign s (binary_round prec emax s m e).
Proof.
  intros He. unfold binary_round, shl_align.
  destruct (fexp prec emax (Z.pos (digits2_pos m) + e) - e)%Z eqn:E;
    apply binary_round_aux_positive; try assumption.
  unfold fexp in *. lia.
Qed.



End Rounding.

(* ------------------------------------------------------------------ *)
(** ** The sign of a difference *)

Section Differences.

Lemma aligned_value (z e ez : Z) :
  (ez <= e)%Z -> (inject_Z (z * 2 ^ (e - ez)) * 2 ^ ez == inject_Z z * 2 ^ e)%Q.
Proof.
  intros He. rewrite inject_Z_mult, Zpower_Qpower by lia.
  change (inject_Z 2) with 2%Q.
  rewrite <- Qmult_assoc, <- Qpower_plus by discriminate.
  replace (e - ez + ez)%Z with e by lia. reflexivity.
Qed.

Lemma shl_align_value (m : positive) (e ez : Z) :
  (ez <= e)%Z ->
  Z.pos (fst (shl_align m e ez)) = (Z.pos m * 2 ^ (e - ez))%Z.
Proof.
  intros He. unfold shl_align.
  destruct (ez - e)%Z as [|d|d] eqn:E; simpl fst; try lia.
  - replace (e - ez)%Z with 0%Z by lia. lia.
  - rewrite iter_xO_mul. f_equal. f_equal. lia.
Qed.

Lemma cond_Zopp_aligned (s : bool) (m : positive) (e ez : Z) :
  (ez <= e)%Z ->
  cond_Zopp s (Z.pos (fst (shl_align m e ez))) = (signed s m * 2 ^ (e - ez))%Z.
Proof.
  intros He. rewrite shl_align_value by assumption.
  unfold cond_Zopp, signed. destruct s; [|reflexivity].
  rewrite <- Pos2Z.opp_pos. ring.
Qed.

(** The order of two finite values is the order of their mantissas once
    these are brought to a common exponent. *)
Lemma exact_order_aligned (sx sy : bool) (mx my : positive) (ex ey ez : Z) :
  (ez <= ex)%Z -> (ez <= ey)%Z ->
  (signed sx mx * 2 ^ (ex - ez) <= signed sy my * 2 ^ (ey - ez))%Z ->
  (inject_Z (signed sx mx) * 2 ^ ex <= inject_Z (signed sy my) * 2 ^ ey)%Q.
Proof.
  intros Hx Hy Hle.
  rewrite <- (aligned_value _ ex ez Hx), <- (aligned_value _ ey ez Hy).
  apply Qmult_le_compat_r.
  - rewrite <- Zle_Qle. exact Hle.
  - apply Qlt_le_weak, two_power_pos.
Qed.

Lemma exact_sign_positive (m : positive) (e : Z) :
  (0 <= inject_Z (Z.pos m) * 2 ^ e)%Q.
Proof.
  apply Qmult_le_0_compat; [unfold Qle; simpl; lia|].
  apply Qlt_le_weak, two_power_pos.
Qed.

Lemma exact_sign_negative (m : positive) (e : Z) :
  (inject_Z (Z.neg m) * 2 ^ e <= 0)%Q.
Proof.
  setoid_replace 0%Q with (0 * 2 ^ e)%Q by (now rewrite Qmult_0_l).
  apply Qmult_le_compat_r; [unfold Qle; simpl; lia|].
  apply Qlt_le_weak, two_power_pos.
Qed.

Lemma gt_zero_nonzero_with_sign (s : bool) (x : number) :
  nonzero_with_sign s x -> gt x zero = negb s.
Proof.
  destruct x as [s'|s'| |s' m e]; simpl; try contradiction.
  - intros ->. destruct s; reflexivity.
  - intros [-> _]. destruct s; reflexivity.
Qed.

(** [x - y] is positive exactly when [x] lies above [y]. *)
Lemma difference_sign (x y : number) :
  isNaN x = false -> isNaN y = false ->
  bounded_below x -> bounded_below y ->
  if gt (sub x y) zero then at_most y x else at_most x y.
Proof.
  intros Hx Hy Bx By.
  destruct x as [sx|sx| |sx mx ex], y as [sy|sy| |sy my ey];
    try discriminate Hx; try discriminate Hy.
  - destruct sx, sy; simpl; unfold Qle; simpl; lia.
  - destruct sx, sy; simpl; trivial.
  - destruct sx, sy; simpl;
      first [apply exact_sign_positive | apply exact_sign_negative].
  - destruct sx, sy; simpl; trivial.
  - destruct sx, sy; simpl; trivial.
  - destruct sx, sy; simpl; trivial.
  - destruct sx, sy; simpl;
      first [apply exact_sign_positive | apply exact_sign_negative].
  - destruct sx, sy; simpl; trivial.
  - cbn [bounded_below] in Bx, By.
    set (ez := Z.min ex ey).
    assert (Hzx : (ez <= ex)%Z) by (unfold ez; lia).
    assert (Hzy : (ez <= ey)%Z) by (unfold ez; lia).
    assert (Hze : (emin prec emax <= ez)%Z) by (unfold ez; lia).
    assert (Hsub : sub (S754_finite sx mx ex) (S754_finite sy my ey)
                   = binary_normalize prec emax
                       (signed sx mx * 2 ^ (ex - ez) - signed sy my * 2 ^ (ey - ez))
                       ez false).
    { unfold sub, SFsub. fold ez.
      now rewrite !cond_Zopp_aligned by assumption. }
    rewrite Hsub. clear Hsub.
    destruct (signed sx mx * 2 ^ (ex - ez) - signed sy my * 2 ^ (ey - ez))%Z
      as [|d|d] eqn:Ed; cbn [binary_normalize].
    + change (gt (S754_zero false) zero) with false. cbn [at_most exact].
      apply (exact_order_aligned _ _ _ _ _ _ ez); lia.
    + rewrite (gt_zero_nonzero_with_sign false)
        by (apply binary_round_positive; assumption).
      cbn [negb at_most exact]. apply (exact_order_aligned _ _ _ _ _ _ ez); lia.
    + rewrite (gt_zero_nonzero_with_sign true)
        by (apply binary_round_positive; assumption).
      cbn [negb at_most exact]. apply (exact_order_aligned _ _ _ _ _ _ ez); lia.
Qed.

Lemma at_most_transitive (x y z : number) :
  at_most x y -> at_most y z -> at_most x z.
Proof.
  destruct x as [sx|sx| |sx mx ex], y as [sy|sy| |sy my ey], z as [sz|sz| |sz mz ez];
    try destruct sx; try destruct sy; try destruct sz;
    cbn [at_most exact]; try tauto; apply Qle_trans.
Qed.

End Differences.

(* ------------------------------------------------------------------ *)
(** ** Sorting by a key *)

Section SortedByKey.
Context {A : Type}.
Variable cmp : A -> A -> number.
Variable domain : A -> Prop.
Variable before : A -> A -> Prop.
Hypothesis cmp_decides :
  forall a b, domain a -> domain b ->
              if gt (cmp a b) zero then before b a else before a b.
Hypothesis before_transitive :
  forall a b c, before a b -> before b c -> before a c.

Lemma insert_sorted (x : A) (l : list A) :
  domain x -> Forall domain l ->
  StronglySorted before l -> StronglySorted before (insert cmp x l).
Proof.
  intros Hx Hl Hs. induction Hs as [|y l Hs IH Hy]; simpl.
  - constructor; constructor.
  - inversion Hl as [|? ? Dy Dl]; subst.
    pose proof (cmp_decides x y Hx Dy) as Hc.
    destruct (gt (cmp x y) zero).
    + constructor; [apply IH; assumption|].
      apply (Permutation_Forall (Permutation_sym (insert_perm cmp x l))).
      constructor; assumption.
    + constructor; [constructor; assumption|].
      constructor; [assumption|].
      eapply Forall_impl; [|exact Hy]. intros z Hz.
      eapply before_transitive; eassumption.
Qed.

Lemma sort_sorted (l : list A) :
  Forall domain l -> StronglySorted before (sort cmp l).
Proof.
  induction 1 as [|x l Hx Hl IH]; simpl.
  - constructor.
  - apply insert_sorted; [assumption| |assumption].
    apply (Permutation_Forall (Permutation_sym (sort_perm cmp l))). assumption.
Qed.

End SortedByKey.




(* ------------------------------------------------------------------ *)
(** ** The subject groups *)

Local Open Scope list_scope.

Section ObjectFacts.
Import Tracker.

Lemma lookup_assign_same (k : string) (v : group) (o : object) :
  lookup k (assign k v o) = Some v.
Proof.
  induction o as [|[k' v'] o IH]; simpl.
  - now rewrite String.eqb_refl.
  - destruct (String.eqb k' k) eqn:E; simpl.
    + now rewrite String.eqb_refl.
    + now rewrite E.
Qed.

Lemma lookup_assign_other (k k2 : string) (v : group) (o : object) :
  k2 <> k -> lookup k2 (assign k v o) = lookup k2 o.
Proof.
  intros Hne. assert (Hk : String.eqb k k2 = false)
    by (apply String.eqb_neq; congruence).
  induction o as [|[k' v'] o IH]; simpl.
  - now rewrite Hk.
  - destruct (String.eqb k' k) eqn:E; simpl.
    + apply String.eqb_eq in E. subst k'. now rewrite Hk.
    + now rewrite IH.
Qed.

Lemma assign_key_In (k x : string) (v : group) (o : object) :
  In x (map fst (assign k v o)) -> x = k \/ In x (map fst o).
Proof.
  induction o as [|[k' v'] o IH]; simpl.
  - intros [<-|[]]. now left.
  - destruct (String.eqb k' k) eqn:E; simpl.
    + apply String.eqb_eq in E. subst k'. tauto.
    + intros [<-|H]; [tauto|]. destruct (IH H); tauto.
Qed.

Lemma assign_keys_NoDup (k : string) (v : group) (o : object) :
  NoDup (map fst o) -> NoDup (map fst (assign k v o)).
Proof.
  induction o as [|[k' v'] o IH]; simpl; intros Hnd.
  - constructor; [intros []|constructor].
  - inversion Hnd as [|? ? Hnot Hrest]; subst.
    destruct (String.eqb k' k) eqn:E; simpl.
    + apply String.eqb_eq in E. subst k'. constructor; assumption.
    + constructor; [|apply IH; assumption].
      intros Hin. destruct (assign_key_In _ _ _ _ Hin) as [->|Hin'].
      * now rewrite String.eqb_refl in E.
      * contradiction.
Qed.

Lemma lookup_Some_In (k : string) (g : group) (o : object) :
  lookup k o = Some g -> In (k, g) o.
Proof.
  induction o as [|[k' v'] o IH]; simpl; [discriminate|].
  destruct (String.eqb k' k) eqn:E.
  - apply String.eqb_eq in E. subst k'. intros [= ->]. now left.
  - intros H. right. now apply IH.
Qed.

Lemma In_lookup_Some (k : string) (g : group) (o : object) :
  NoDup (map fst o) -> In (k, g) o -> lookup k o = Some g.
Proof.
  induction o as [|[k' v'] o IH]; simpl; intros Hnd Hin; [contradiction|].
  inversion Hnd as [|? ? Hnot Hrest]; subst.
  destruct Hin as [[= -> ->]|Hin].
  - now rewrite String.eqb_refl.
  - destruct (String.eqb k' k) eqn:E.
    + apply String.eqb_eq in E. subst k'. exfalso. apply Hnot.
      apply in_map_iff. exists (k, g). auto.
    + now apply IH.
Qed.

Lemma members_app (s : string) (l : list entry) (t : entry) :
  Spec.members s (l ++ [t])
  = Spec.members s l ++ (if String.eqb (subject t) s then [t] else []).
Proof. unfold Spec.members. rewrite filter_app. reflexivity. Qed.

Lemma no_entries_nil (l : list entry) : Spec.no_entries l = true -> l = [].
Proof. destruct l; [reflexivity|discriminate]. Qed.

Lemma no_entries_app_one (l : list entry) (t : entry) :
  Spec.no_entries (l ++ [t]) = false.
Proof. destruct l; reflexivity. Qed.

(** What [bySubject] holds after the loop: one property per subject other
    than the multi-subject sentinel that has entries, with the sum, the
    count and the entries of that subject. *)
Lemma bySubject_lookup (l : list entry) :
  NoDup (map fst (bySubject l))
  /\ forall s,
       lookup s (bySubject l)
       = if String.eqb s DEFAULT_MULTI_SUBJECT || Spec.no_entries (Spec.members s l)
         then None else Some (Spec.group_for s l).
Proof.
  unfold bySubject.
  induction l as [|t l [IHnd IH]] using rev_ind.
  - split; [constructor|]. intros s. simpl. now rewrite orb_true_r.
  - rewrite fold_left_app. cbn [fold_left].
    set (o := fold_left accumulate l []) in *.
    unfold accumulate.
    destruct (String.eqb (subject t) DEFAULT_MULTI_SUBJECT) eqn:Et.
    + split; [assumption|]. intros s. rewrite IH.
      destruct (String.eqb s DEFAULT_MULTI_SUBJECT) eqn:Es; [reflexivity|].
      assert (Hts : String.eqb (subject t) s = false).
      { apply String.eqb_neq. intros E. rewrite E in Et. congruence. }
      unfold Spec.group_for. rewrite members_app, Hts, app_nil_r. reflexivity.
    + assert (Hg : match lookup (subject t) o with
                   | Some g => g
                   | None => mkGroup zero zero []
                   end = Spec.group_for (subject t) l).
      { rewrite IH, Et. simpl.
        destruct (Spec.no_entries (Spec.members (subject t) l)) eqn:En; [|reflexivity].
        unfold Spec.group_for. now rewrite (no_entries_nil _ En). }
      rewrite Hg. split; [apply assign_keys_NoDup; assumption|].
      intros s. destruct (String.eqb (subject t) s) eqn:Ets.
      * apply String.eqb_eq in Ets. subst s.
        rewrite lookup_assign_same, Et. simpl.
        unfold Spec.group_for. rewrite members_app, String.eqb_refl.
        rewrite no_entries_app_one.
        unfold Spec.sum_of_percentages, Spec.count_of.
        rewrite !fold_left_app. reflexivity.
      * rewrite lookup_assign_other
          by (intros ->; now rewrite String.eqb_refl in Ets).
        rewrite IH. unfold Spec.group_for.
        rewrite members_app, Ets, app_nil_r. reflexivity.
Qed.

Lemma insert_by_index_perm {V : Type} (p : string * V) (l : list (string * V)) :
  Permutation (insert_by_index p l) (p :: l).
Proof.
  induction l as [|q l IH]; simpl.
  - apply Permutation_refl.
  - destruct (index_of (fst p) <=? index_of (fst q))%N.
    + apply Permutation_refl.
    + eapply perm_trans; [apply perm_skip, IH | apply perm_swap].
Qed.

Lemma filter_partition_perm {V : Type} (f : V -> bool) (l : list V) :
  Permutation (filter f l ++ filter (fun x => negb (f x)) l) l.
Proof.
  induction l as [|x l IH]; simpl; [apply perm_nil|].
  destruct (f x); simpl.
  - now apply perm_skip.
  - eapply perm_trans; [apply Permutation_sym, Permutation_middle|].
    now apply perm_skip.
Qed.

(** [Object.entries] lists every property once. *)
Lemma Object_entries_perm {V : Type} (o : list (string * V)) :
  Permutation (Object_entries o) o.
Proof.
  unfold Object_entries.
  eapply perm_trans; [|apply (filter_partition_perm (fun p => is_array_index (fst p)))].
  apply Permutation_app_tail.
  induction (filter (fun p => is_array_index (fst p)) o) as [|p l IH]; simpl.
  - apply perm_nil.
  - eapply perm_trans; [apply insert_by_index_perm | now apply perm_skip].
Qed.

(** The averages are those of the properties of [bySubject], in some
    order. *)
Lemma subjectAverages_perm (l : list entry) :
  Permutation (subjectAverages (summary l)) (map average_of (bySubject l)).
Proof.
  unfold summary. cbn [subjectAverages].
  eapply perm_trans; [apply sort_perm|].
  apply Permutation_map, Object_entries_perm.
Qed.

Lemma average_in_subjectAverages (l : list entry) (a : subject_average) :
  In a (subjectAverages (summary l)) <->
  exists s, a = average_of (s, Spec.group_for s l)
            /\ String.eqb s DEFAULT_MULTI_SUBJECT = false
            /\ Spec.no_entries (Spec.members s l) = false.
Proof.
  destruct (bySubject_lookup l) as [Hnd Hlook].
  split.
  - intros Hin.
    apply (Permutation_in _ (subjectAverages_perm l)) in Hin.
    apply in_map_iff in Hin as [[s g] [<- Hin]].
    apply (In_lookup_Some _ _ _ Hnd) in Hin. rewrite Hlook in Hin.
    exists s.
    destruct (String.eqb s DEFAULT_MULTI_SUBJECT); [discriminate Hin|].
    destruct (Spec.no_entries (Spec.members s l)); [discriminate Hin|].
    simpl in Hin. injection Hin as <-. auto.
  - intros (s & -> & Hs & Hm).
    apply (Permutation_in _ (Permutation_sym (subjectAverages_perm l))).
    apply in_map. apply lookup_Some_In. rewrite Hlook, Hs, Hm. reflexivity.
Qed.

End ObjectFacts.

Section Aggregation.
Import Tracker.







End Aggregation.

(* ------------------------------------------------------------------ *)
(** ** Time values and the order of dates *)

Section TimeValues.

Lemma nonzero_with_sign_number (s : bool) (x : number) :
  nonzero_with_sign s x -> isNaN x = false /\ bounded_below x.
Proof.
  destruct x as [s'|s'| |s' m e]; simpl; try contradiction; intuition.
Qed.

Lemma of_Z_number (n : Z) : isNaN (of_Z n) = false /\ bounded_below (of_Z n).
Proof.
  assert (Hpos : forall s p, isNaN (of_pos s p) = false /\ bounded_below (of_pos s p)).
  { intros s p. unfold of_pos.
    destruct (Z.pos (digits2_pos p) <=? prec)%Z eqn:E.
    - split; [reflexivity|]. cbn [bounded_below]. unfold emin, emax, prec. lia.
    - apply (nonzero_with_sign_number s), binary_round_positive.
      unfold emin, emax, prec. lia. }
  destruct n as [|p|p]; simpl; [split; [reflexivity|exact I] | apply Hpos | apply Hpos].
Qed.

Lemma exact_positive_strict (m : positive) (e : Z) :
  (0 < inject_Z (Z.pos m) * 2 ^ e)%Q.
Proof.
  apply Qmult_lt_0_compat; [unfold Qlt; simpl; lia | apply two_power_pos].
Qed.

Lemma exact_negative_strict (m : positive) (e : Z) :
  (inject_Z (Z.neg m) * 2 ^ e < 0)%Q.
Proof.
  setoid_replace (inject_Z (Z.neg m) * 2 ^ e)%Q
    with (- (inject_Z (Z.pos m) * 2 ^ e))%Q
    by (change (inject_Z (Z.neg m)) with (- inject_Z (Z.pos m))%Q; ring).
  pose proof (exact_positive_strict m e) as H.
  apply Qopp_lt_compat in H. exact H.
Qed.

(** The order of two finite values, read back on the aligned mantissas. *)
Lemma exact_order_aligned_inv (sx sy : bool) (mx my : positive) (ex ey ez : Z) :
  (ez <= ex)%Z -> (ez <= ey)%Z ->
  (inject_Z (signed sx mx) * 2 ^ ex <= inject_Z (signed sy my) * 2 ^ ey)%Q ->
  (signed sx mx * 2 ^ (ex - ez) <= signed sy my * 2 ^ (ey - ez))%Z.
Proof.
  intros Hx Hy Hle.
  rewrite <- (aligned_value _ ex ez Hx), <- (aligned_value _ ey ez Hy) in Hle.
  apply Qmult_le_r in Hle; [|apply two_power_pos].
  now rewrite <- Zle_Qle in Hle.
Qed.

(** [x - y] is positive only when [x] lies strictly above [y]. *)
Lemma difference_positive (x y : number) :
  isNaN x = false -> isNaN y = false ->
  bounded_below x -> bounded_below y ->
  gt (sub x y) zero = true -> ~ at_most x y.
Proof.
  intros Hx Hy Bx By.
  destruct x as [sx|sx| |sx mx ex], y as [sy|sy| |sy my ey];
    try discriminate Hx; try discriminate Hy.
  - destruct sx, sy; simpl; discriminate.
  - destruct sx, sy; simpl; auto; discriminate.
  - destruct sx, sy; simpl; try discriminate; intros _ H;
      apply Qle_not_lt in H; apply H; apply exact_negative_strict.
  - destruct sx, sy; simpl; auto; discriminate.
  - destruct sx, sy; simpl; auto; discriminate.
  - destruct sx, sy; simpl; auto; discriminate.
  - destruct sx, sy; simpl; try discriminate; intros _ H;
      apply Qle_not_lt in H; apply H; apply exact_positive_strict.
  - destruct sx, sy; simpl; auto; discriminate.
  - cbn [bounded_below] in Bx, By.
    set (ez := Z.min ex ey).
    assert (Hzx : (ez <= ex)%Z) by (unfold ez; lia).
    assert (Hzy : (ez <= ey)%Z) by (unfold ez; lia).
    assert (Hze : (emin prec emax <= ez)%Z) by (unfold ez; lia).
    assert (Hsub : sub (S754_finite sx mx ex) (S754_finite sy my ey)
                   = binary_normalize prec emax
                       (signed sx mx * 2 ^ (ex - ez) - signed sy my * 2 ^ (ey - ez))
                       ez false).
    { unfold sub, SFsub. fold ez.
      now rewrite !cond_Zopp_aligned by assumption. }
    rewrite Hsub. clear Hsub.
    destruct (signed sx mx * 2 ^ (ex - ez) - signed sy my * 2 ^ (ey - ez))%Z
      as [|d|d] eqn:Ed; cbn [binary_normalize].
    + discriminate.
    + intros _ H. cbn [at_most exact] in H.
      apply (exact_order_aligned_inv _ _ _ _ _ _ ez Hzx Hzy) in H. lia.
    + rewrite (gt_zero_nonzero_with_sign true)
        by (apply binary_round_positive; assumption).
      discriminate.
Qed.

Section Dates.
Import Tracker.
Variable DateTime : string -> number.

Lemma dated_number (t : entry) :
  Spec.dated DateTime t ->
  isNaN (DateTime (date t)) = false /\ bounded_below (DateTime (date t)).
Proof. intros [n ->]. apply of_Z_number. Qed.

Lemma newest_first_decides (a b : entry) :
  Spec.dated DateTime a -> Spec.dated DateTime b ->
  if gt (newest_first DateTime a b) zero
  then Spec.not_older DateTime b a else Spec.not_older DateTime a b.
Proof.
  intros Ha Hb. apply dated_number in Ha as [Na Ba], Hb as [Nb Bb].
  unfold newest_first, Spec.not_older. apply difference_sign; assumption.
Qed.

Lemma newest_first_strict (a b : entry) :
  Spec.dated DateTime a -> Spec.dated DateTime b ->
  gt (newest_first DateTime a b) zero = true -> Spec.newer DateTime b a.
Proof.
  intros Ha Hb. apply dated_number in Ha as [Na Ba], Hb as [Nb Bb].
  unfold newest_first, Spec.newer. apply difference_positive; assumption.
Qed.

Lemma oldest_first_decides (a b : entry) :
  Spec.dated DateTime a -> Spec.dated DateTime b ->
  if gt (oldest_first DateTime a b) zero
  then Spec.not_older DateTime a b else Spec.not_older DateTime b a.
Proof.
  intros Ha Hb. apply dated_number in Ha as [Na Ba], Hb as [Nb Bb].
  unfold oldest_first, Spec.not_older. apply difference_sign; assumption.
Qed.

Lemma not_older_transitive (a b c : entry) :
  Spec.not_older DateTime a b -> Spec.not_older DateTime b c ->
  Spec.not_older DateTime a c.
Proof.
  unfold Spec.not_older. intros Hab Hbc. eapply at_most_transitive; eassumption.
Qed.

End Dates.

End TimeValues.

(* ------------------------------------------------------------------ *)
(** ** The collection under adding, updating and deleting *)

Section CollectionFacts.
Import Tracker.

Lemma existsb_id (i : string) (l : list entry) :
  existsb (fun p => String.eqb (id p) i) l = true <-> In i (map id l).
Proof.
  rewrite existsb_exists, in_map_iff. split.
  - intros (p & Hin & Hp). apply String.eqb_eq in Hp. eauto.
  - intros (p & Hp & Hin). exists p. split; [assumption|]. now apply String.eqb_eq.
Qed.

Lemma not_existsb_id (i : string) (l : list entry) :
  existsb (fun p => String.eqb (id p) i) l = false <-> ~ In i (map id l).
Proof.
  rewrite <- existsb_id. destruct (existsb _ l); split; intros H; congruence.
Qed.

Lemma replace_ids (e : entry) (l : list entry) :
  map id (map (fun p => if String.eqb (id p) (id e) then e else p) l) = map id l.
Proof.
  induction l as [|p l IH]; simpl; [reflexivity|]. rewrite IH. f_equal.
  destruct (String.eqb (id p) (id e)) eqn:E; [|reflexivity].
  apply String.eqb_eq in E. now rewrite E.
Qed.

Lemma filter_other_ids (i : string) (l : list entry) :
  ~ In i (map id l) -> filter (fun x => negb (String.eqb (id x) i)) l = l.
Proof.
  induction l as [|x l IH]; simpl; intros H; [reflexivity|].
  destruct (String.eqb (id x) i) eqn:E.
  - apply String.eqb_eq in E. exfalso. apply H. now left.
  - simpl. rewrite IH; [reflexivity|]. intros Hin. apply H. now right.
Qed.

Lemma filter_insert_same (cmp : entry -> entry -> number) (e : entry) (l : list entry) :
  filter (fun x => negb (String.eqb (id x) (id e))) (insert cmp e l)
  = filter (fun x => negb (String.eqb (id x) (id e))) l.
Proof.
  induction l as [|y l IH]; simpl.
  - now rewrite String.eqb_refl.
  - destruct (gt (cmp e y) zero); simpl.
    + now rewrite IH.
    + now rewrite String.eqb_refl.
Qed.

Lemma NoDup_ids_filter (f : entry -> bool) (l : list entry) :
  NoDup (map id l) -> NoDup (map id (filter f l)).
Proof.
  induction l as [|x l IH]; simpl; intros H; [constructor|].
  inversion H as [|? ? Hx Hl]; subst.
  destruct (f x); simpl; [|now apply IH].
  constructor; [|now apply IH].
  intros Hin. apply Hx. apply in_map_iff in Hin as (y & Hy & Hin).
  apply in_map_iff. exists y. split; [assumption|].
  now apply filter_In in Hin as [Hin _].
Qed.

(** Where the insertion puts an element: behind the elements the
    comparator ranks before it, and in front of the first one it does
    not. *)
Lemma insert_position {A : Type} (cmp : A -> A -> number) (x : A) (l : list A) :
  exists l1 l2,
    l = l1 ++ l2 /\ insert cmp x l = l1 ++ x :: l2
    /\ Forall (fun y => gt (cmp x y) zero = true) l1
    /\ match l2 with
       | [] => True
       | y :: _ => gt (cmp x y) zero = false
       end.
Proof.
  induction l as [|y l (l1 & l2 & Hl & Hi & H1 & H2)]; simpl.
  - exists [], []. repeat split; constructor.
  - destruct (gt (cmp x y) zero) eqn:E.
    + exists (y :: l1), l2. simpl. rewrite Hi, <- Hl.
      repeat split; [constructor; assumption | exact H2].
    + exists [], (y :: l). simpl. repeat split; [constructor | exact E].
Qed.

Section WithHost.
Variable StringToNumber : string -> number.
Variable trim : string -> string.
Variable DateTime : string -> number.

Lemma handleAddOrUpdate_accepted (fresh today : string) (st : state) (e : entry) :
  entry_of_form StringToNumber trim fresh today (form st) = inr e ->
  handleAddOrUpdate StringToNumber trim DateTime fresh today st
  = setForm (resetForm today)
      (setToastAlert (Some (snd (add_or_replace DateTime e (tests st))))
         (setTests (fst (add_or_replace DateTime e (tests st))) st)).
Proof.
  intros H. unfold handleAddOrUpdate. rewrite H.
  now destruct (add_or_replace DateTime e (tests st)).
Qed.

Lemma add_new (e : entry) (l : list entry) :
  ~ In (id e) (map id l) ->
  add_or_replace DateTime e l
  = (sort (newest_first DateTime) (e :: l),
     mkToast "Test added successfully!" success).
Proof.
  intros H. unfold add_or_replace.
  now rewrite (proj2 (not_existsb_id (id e) l) H).
Qed.

Lemma replace_known (e : entry) (l : list entry) :
  In (id e) (map id l) ->
  add_or_replace DateTime e l
  = (map (fun p => if String.eqb (id p) (id e) then e else p) l,
     mkToast "Test updated successfully!" success).
Proof.
  intros H. unfold add_or_replace.
  now rewrite (proj2 (existsb_id (id e) l) H).
Qed.

(** With valid dates, a collection in newest-first order is one the
    comparator leaves in place. *)
Lemma not_older_in_order (l : list entry) :
  Forall (Spec.dated DateTime) l ->
  StronglySorted (Spec.not_older DateTime) l ->
  Spec.newest_first_order DateTime l.
Proof.
  intros Hd Hs. unfold Spec.newest_first_order.
  induction Hs as [|a l Hs IH Ha]; [constructor|].
  inversion Hd as [|? ? Da Dl]; subst.
  constructor; [now apply IH|].
  destruct l as [|b l]; constructor.
  inversion Ha as [|? ? Hab _]; subst.
  inversion Dl as [|? ? Db _]; subst.
  destruct (gt (newest_first DateTime a b) zero) eqn:E; [|reflexivity].
  exfalso. exact (newest_first_strict DateTime a b Da Db E Hab).
Qed.

End WithHost.

End CollectionFacts.

(** C5, amended.  For every collection of valid entries whose numbers are
    finite and whose recorded counts are positive, the import reads the
    records of the exported text back as the entries of the collection,
    field for field, [null] fields included.  Imported into an empty
    collection they are all stored, each once.  When the dates are valid
    the stored collection is sorted newest first, and it is the exported
    collection when that was in newest-first order. *)
Theorem export_import_roundtrip :
  forall (StringToNumber : string -> number) (DateTime : string -> number)
         (TypeError_message : string) (uid : nat -> string) (today : string)
         (st st0 : Tracker.state),
    Forall Spec.interchange_stable (Tracker.tests st) ->
    Tracker.tests st0 = [] ->
    let st' := Tracker.handleImportJSON StringToNumber DateTime TypeError_message
                 uid today (Tracker.handleExportJSON st) st0 in
    Tracker.normalize_all StringToNumber uid 0 today
      (map (fun t => Some (Tracker.json_of_entry t)) (Tracker.tests st))
    = Some (Tracker.tests st)
    /\ Permutation (Tracker.tests st') (Tracker.tests st)
    /\ (Forall (Spec.dated DateTime) (Tracker.tests st) ->
        StronglySorted (Spec.not_older DateTime) (Tracker.tests st')
        /\ (StronglySorted (Spec.not_older DateTime) (Tracker.tests st) ->
            Tracker.tests st' = Tracker.tests st))
    /\ Tracker.toastAlert st'
       = Some (Tracker.mkToast "Data imported successfully!" Tracker.success).
Proof.
  intros StringToNumber DateTime TypeError_message uid today st st0 Hst H0 st'.
  pose proof (normalize_all_export StringToNumber uid 0 today _ Hst) as Hn.
  assert (Ht : Tracker.tests st'
               = sort (Tracker.newest_first DateTime) (Tracker.tests st)).
  { unfold st', Tracker.handleImportJSON, Tracker.handleExportJSON.
    rewrite Hn, H0, app_nil_r. reflexivity. }
  split; [exact Hn|]. split; [|split].
  - rewrite Ht. apply sort_perm.
  - intros Hd. split.
    + rewrite Ht.
      apply (sort_sorted (Tracker.newest_first DateTime) (Spec.dated DateTime)
                         (Spec.not_older DateTime)).
      * intros a b Da Db.
        pose proof (newest_first_decides DateTime a b Da Db) as H.
        destruct (gt (Tracker.newest_first DateTime a b) zero); exact H.
      * apply not_older_transitive.
      * exact Hd.
    + intros Hs. rewrite Ht. apply sort_in_order.
      now apply not_older_in_order.
  - unfold st', Tracker.handleImportJSON, Tracker.handleExportJSON.
    rewrite Hn. reflexivity.
Qed.

(** The collection of two tests with marks, counts and ranks, the newer
    one first, is read back unchanged. *)
Lemma export_import_roundtrip_witness :
  let st := Samples.state_two_recorded in
  let st' := Tracker.handleImportJSON Host.StringToNumber Host.DateTime "null"
               Samples.no_uid "2024-03-01" (Tracker.handleExportJSON st)
               (Samples.empty_state Samples.form_ranked) in
  map Tracker.id (Tracker.tests st) = ["b"; "a"]
  /\ map Tracker.correctCount (Tracker.tests st)
     = [Some (of_Z 20); Some (of_Z 18)]
  /\ Tracker.tests st' = Tracker.tests st.
Proof.
  intros st st'.
  split; [vm_compute; reflexivity|]. split; [vm_compute; reflexivity|].
  destruct (Tracker.tests st) as [|a [|b [|c l]]] eqn:E;
    try (vm_compute in E; discriminate E).
  vm_compute in E. injection E as <- <-.
  match goal with
  | |- Tracker.tests _ = [?x; ?y] => set (a := x); set (b := y)
  end.
  assert (E : Tracker.tests st = [a; b]) by (vm_compute; reflexivity).
  assert (Hst : Forall Spec.interchange_stable (Tracker.tests st)).
  { rewrite E. constructor; [|constructor; [|constructor]];
      (split;
       first [reflexivity | exact I | left; reflexivity
             | split; reflexivity | repeat split; reflexivity]). }
  assert (Hd : Forall (Spec.dated Host.DateTime) (Tracker.tests st)).
  { rewrite E. constructor; [|constructor; [|constructor]].
    - exists 1714521600000%Z. vm_compute. reflexivity.
    - exists 1709251200000%Z. vm_compute. reflexivity. }
  assert (Hs : StronglySorted (Spec.not_older Host.DateTime) (Tracker.tests st)).
  { rewrite E. constructor; [constructor; constructor|].
    constructor; [|constructor].
    unfold Spec.not_older, at_most. vm_compute. discriminate. }
  destruct (export_import_roundtrip Host.StringToNumber Host.DateTime "null"
              Samples.no_uid "2024-03-01" st
              (Samples.empty_state Samples.form_ranked) Hst eq_refl)
    as (_ & _ & Hord & _).
  exact (proj2 (Hord Hd) Hs).
Defined.

(** X1.  Confirming the deletion of a test removes every entry with the
    given id and nothing else: the other entries stay, in their order, a
    collection without that id is left as it is, and the dialog closes
    with the toast [Test deleted.]; the request itself and Cancel leave
    the collection untouched. *)
Theorem delete_removes_the_entry_only :
  forall (i : string) (p : Tracker.page),
    let asked := Tracker.handleDelete i p in
    let p' := Tracker.Confirm asked in
    Tracker.current asked = Tracker.current p
    /\ (forall t, In t (Tracker.tests (Tracker.current p')) <->
                  In t (Tracker.tests (Tracker.current p)) /\ Tracker.id t <> i)
    /\ Spec.subsequence (Tracker.tests (Tracker.current p'))
                        (Tracker.tests (Tracker.current p))
    /\ (~ In i (map Tracker.id (Tracker.tests (Tracker.current p))) ->
        Tracker.tests (Tracker.current p') = Tracker.tests (Tracker.current p))
    /\ Tracker.toastAlert (Tracker.current p')
       = Some (Tracker.mkToast "Test deleted." Tracker.success)
    /\ Tracker.confirmModal p' = None
    /\ Tracker.current (Tracker.Cancel asked) = Tracker.current p
    /\ Tracker.confirmModal (Tracker.Cancel asked) = None.
Proof.
  intros i p. cbn.
  split; [reflexivity|]. split; [|split; [|split; [|repeat split]]].
  - intros t. rewrite filter_In. split; intros [Hin Hid]; (split; [assumption|]).
    + intros <-. now rewrite String.eqb_refl in Hid.
    + apply negb_true_iff, String.eqb_neq. exact Hid.
  - apply filter_subsequence.
  - apply filter_other_ids.
Qed.

(** X2.  Adding a test under an id the collection does not hold and then
    deleting it gives back the collection as it was, when the dates of
    the new test and of the stored ones are valid and the collection was
    in newest-first order: the sort moves no stored entry. *)
Theorem add_then_delete_restores :
  forall (StringToNumber : string -> number) (trim : string -> string)
         (DateTime : string -> number) (fresh today : string)
         (st : Tracker.state) (e : Tracker.entry),
    Tracker.entry_of_form StringToNumber trim fresh today (Tracker.form st) = inr e ->
    ~ In (Tracker.id e) (map Tracker.id (Tracker.tests st)) ->
    Forall (Spec.dated DateTime) (e :: Tracker.tests st) ->
    StronglySorted (Spec.not_older DateTime) (Tracker.tests st) ->
    let added :=
      Tracker.handleAddOrUpdate StringToNumber trim DateTime fresh today st in
    let p' :=
      Tracker.Confirm (Tracker.handleDelete (Tracker.id e) (Tracker.mkPage added None)) in
    In e (Tracker.tests added)
    /\ Tracker.tests (Tracker.current p') = Tracker.tests st.
Proof.
  intros StringToNumber trim DateTime fresh today st e He Hnew Hd Hs added p'.
  subst p' added.
  inversion Hd as [|? ? _ Dl]; subst.
  pose proof (not_older_in_order DateTime _ Dl Hs) as Hord.
  rewrite (handleAddOrUpdate_accepted _ _ DateTime _ _ _ _ He).
  rewrite (add_new DateTime _ _ Hnew). cbn.
  fold (sort (Tracker.newest_first DateTime) (Tracker.tests st)).
  rewrite (sort_in_order _ _ Hord). split.
  - apply (Permutation_in _ (Permutation_sym (insert_perm _ e _))). now left.
  - rewrite filter_insert_same. now apply filter_other_ids.
Qed.

Lemma add_then_delete_restores_witness :
  let st := Tracker.setForm Samples.form_counted Samples.state_ranked in
  let added :=
    Tracker.handleAddOrUpdate Host.StringToNumber Host.trim Host.DateTime
                              "t2" "2024-03-01" st in
  map Tracker.id (Tracker.tests added) = ["t2"; "t1"]
  /\ Tracker.tests
       (Tracker.current
          (Tracker.Confirm (Tracker.handleDelete "t2" (Tracker.mkPage added None))))
     = Tracker.tests st.
Proof.
  intros st added.
  destruct (Tracker.entry_of_form Host.StringToNumber Host.trim "t2" "2024-03-01"
                                  (Tracker.form st)) as [msg|e] eqn:H.
  - vm_compute in H. discriminate H.
  - assert (Hid : Tracker.id e = "t2")
      by (vm_compute in H; injection H as <-; reflexivity).
    assert (Hnew : ~ In (Tracker.id e) (map Tracker.id (Tracker.tests st))).
    { rewrite Hid. vm_compute. intros [E|[]]. discriminate E. }
    assert (Hd : Forall (Spec.dated Host.DateTime) (e :: Tracker.tests st)).
    { constructor.
      - vm_compute in H. injection H as <-.
        exists 1709251200000%Z. vm_compute. reflexivity.
      - destruct (Tracker.tests st) as [|a [|b l]] eqn:E;
          [constructor | | vm_compute in E; discriminate E].
        vm_compute in E. injection E as <-. constructor; [|constructor].
        exists 1709251200000%Z. vm_compute. reflexivity. }
    assert (Hs : StronglySorted (Spec.not_older Host.DateTime) (Tracker.tests st)).
    { destruct (Tracker.tests st) as [|a [|b l]] eqn:E;
        [constructor | constructor; constructor | vm_compute in E; discriminate E]. }
    split; [vm_compute; reflexivity|].
    rewrite <- Hid.
    exact (proj2 (add_then_delete_restores Host.StringToNumber Host.trim Host.DateTime
                    "t2" "2024-03-01" st e H Hnew Hd Hs)).
Defined.

(** X3.  The ids of the collection stay pairwise distinct under every
    submission of the form, accepted or not, and under every confirmed
    deletion: a new entry is added only when no stored entry has its id,
    and an update replaces the entry of the same id. *)
Theorem ids_stay_distinct :
  forall (StringToNumber : string -> number) (trim : string -> string)
         (DateTime : string -> number) (fresh today i : string)
         (st : Tracker.state),
    NoDup (map Tracker.id (Tracker.tests st)) ->
    NoDup (map Tracker.id
               (Tracker.tests
                  (Tracker.handleAddOrUpdate StringToNumber trim DateTime
                                             fresh today st)))
    /\ NoDup (map Tracker.id
                  (Tracker.tests
                     (Tracker.current
                        (Tracker.Confirm
                           (Tracker.handleDelete i (Tracker.mkPage st None)))))).
Proof.
  intros StringToNumber trim DateTime fresh today i st Hnd. split.
  - destruct (Tracker.entry_of_form StringToNumber trim fresh today (Tracker.form st))
      as [msg|e] eqn:He.
    + unfold Tracker.handleAddOrUpdate. rewrite He. exact Hnd.
    + rewrite (handleAddOrUpdate_accepted _ _ DateTime _ _ _ _ He). cbn.
      destruct (in_dec string_dec (Tracker.id e) (map Tracker.id (Tracker.tests st)))
        as [Hin|Hnew].
      * rewrite (replace_known DateTime _ _ Hin). cbn [fst].
        now rewrite replace_ids.
      * rewrite (add_new DateTime _ _ Hnew). cbn [fst].
        apply (Permutation_NoDup
                 (l := map Tracker.id (e :: Tracker.tests st))).
        -- apply Permutation_map, Permutation_sym, sort_perm.
        -- simpl. constructor; assumption.
  - cbn. now apply NoDup_ids_filter.
Qed.

Lemma ids_stay_distinct_witness :
  NoDup (map Tracker.id
             (Tracker.tests
                (Tracker.handleAddOrUpdate Host.StringToNumber Host.trim Host.DateTime
                   "t2" "2024-03-01"
                   (Tracker.setForm Samples.form_counted Samples.state_ranked)))).
Proof.
  apply (ids_stay_distinct Host.StringToNumber Host.trim Host.DateTime
                           "t2" "2024-03-01" "t1"
                           (Tracker.setForm Samples.form_counted Samples.state_ranked)).
  vm_compute. constructor; [intros []|constructor].
Defined.

(** X4.  A submission whose id is already stored updates in place: every
    entry with that id is replaced by the new entry at its position, the
    other entries and the order are kept, and the collection is not sorted
    again, whatever the new date.  The form is reset and the toast reads
    [Test updated successfully!]. *)
Theorem update_replaces_in_place :
  forall (StringToNumber : string -> number) (trim : string -> string)
         (DateTime : string -> number) (fresh today : string)
         (st : Tracker.state) (e : Tracker.entry),
    Tracker.entry_of_form StringToNumber trim fresh today (Tracker.form st) = inr e ->
    In (Tracker.id e) (map Tracker.id (Tracker.tests st)) ->
    let st' :=
      Tracker.handleAddOrUpdate StringToNumber trim DateTime fresh today st in
    List.length (Tracker.tests st') = List.length (Tracker.tests st)
    /\ map Tracker.id (Tracker.tests st') = map Tracker.id (Tracker.tests st)
    /\ (forall (n : nat) (t : Tracker.entry),
           nth_error (Tracker.tests st) n = Some t ->
           nth_error (Tracker.tests st') n
           = Some (if String.eqb (Tracker.id t) (Tracker.id e) then e else t))
    /\ In e (Tracker.tests st')
    /\ Tracker.form st' = Tracker.resetForm today
    /\ Tracker.toastAlert st'
       = Some (Tracker.mkToast "Test updated successfully!" Tracker.success).
Proof.
  intros StringToNumber trim DateTime fresh today st e He Hin st'. subst st'.
  rewrite (handleAddOrUpdate_accepted _ _ DateTime _ _ _ _ He).
  rewrite (replace_known DateTime _ _ Hin). cbn.
  split; [apply length_map|]. split; [apply replace_ids|].
  split; [|split; [|split; reflexivity]].
  - intros n t Hn. now rewrite nth_error_map, Hn.
  - apply in_map_iff in Hin as (t & Ht & Hin).
    apply in_map_iff. exists t. split; [|assumption].
    now rewrite Ht, String.eqb_refl.
Qed.

Lemma update_replaces_in_place_witness :
  let st := Tracker.setForm (Samples.form_scored (Some "t1") "40" "2024-01-01")
                            Samples.state_ranked in
  let st' := Tracker.handleAddOrUpdate Host.StringToNumber Host.trim Host.DateTime
                                       "t2" "2024-03-01" st in
  map Tracker.id (Tracker.tests st') = map Tracker.id (Tracker.tests st).
Proof.
  intros st st'.
  destruct (Tracker.entry_of_form Host.StringToNumber Host.trim "t2" "2024-03-01"
                                  (Tracker.form st)) as [msg|e] eqn:H.
  - vm_compute in H. discriminate H.
  - assert (Hin : In (Tracker.id e) (map Tracker.id (Tracker.tests st)))
      by (vm_compute in H; injection H as <-; vm_compute; now left).
    exact (proj1 (proj2 (update_replaces_in_place Host.StringToNumber Host.trim
                           Host.DateTime "t2" "2024-03-01" st e H Hin))).
Defined.

(** X5.  A submission whose id is not yet stored adds exactly one entry:
    the collection becomes a rearrangement of the new entry and the stored
    ones, and when all dates are valid it is in newest-first order, even
    if it was not before.  The form is reset and the toast reads
    [Test added successfully!]. *)
Theorem add_stores_newest_first :
  forall (StringToNumber : string -> number) (trim : string -> string)
         (DateTime : string -> number) (fresh today : string)
         (st : Tracker.state) (e : Tracker.entry),
    Tracker.entry_of_form StringToNumber trim fresh today (Tracker.form st) = inr e ->
    ~ In (Tracker.id e) (map Tracker.id (Tracker.tests st)) ->
    let st' :=
      Tracker.handleAddOrUpdate StringToNumber trim DateTime fresh today st in
    Permutation (Tracker.tests st') (e :: Tracker.tests st)
    /\ List.length (Tracker.tests st') = S (List.length (Tracker.tests st))
    /\ (Forall (Spec.dated DateTime) (e :: Tracker.tests st) ->
        StronglySorted (Spec.not_older DateTime) (Tracker.tests st'))
    /\ Tracker.form st' = Tracker.resetForm today
    /\ Tracker.toastAlert st'
       = Some (Tracker.mkToast "Test added successfully!" Tracker.success).
Proof.
  intros StringToNumber trim DateTime fresh today st e He Hnew st'. subst st'.
  rewrite (handleAddOrUpdate_accepted _ _ DateTime _ _ _ _ He).
  rewrite (add_new DateTime _ _ Hnew).
  cbn [fst snd Tracker.tests Tracker.form Tracker.toastAlert
       Tracker.setForm Tracker.setToastAlert Tracker.setTests].
  split; [apply sort_perm|].
  split; [apply (Permutation_length (sort_perm _ (e :: Tracker.tests st)))|].
  split; [|split; reflexivity].
  intros Hd.
  apply (sort_sorted (Tracker.newest_first DateTime) (Spec.dated DateTime)
                     (Spec.not_older DateTime)).
  - intros a b Da Db.
    pose proof (newest_first_decides DateTime a b Da Db) as H.
    destruct (gt (Tracker.newest_first DateTime a b) zero); exact H.
  - apply not_older_transitive.
  - exact Hd.
Qed.

Lemma add_stores_newest_first_witness :
  let st := Tracker.setForm (Samples.form_scored None "40" "2024-05-01")
                            Samples.state_ranked in
  let st' := Tracker.handleAddOrUpdate Host.StringToNumber Host.trim Host.DateTime
                                       "t2" "2024-06-01" st in
  List.length (Tracker.tests st') = 2%nat.
Proof.
  intros st st'.
  destruct (Tracker.entry_of_form Host.StringToNumber Host.trim "t2" "2024-06-01"
                                  (Tracker.form st)) as [msg|e] eqn:H.
  - vm_compute in H. discriminate H.
  - assert (Hnew : ~ In (Tracker.id e) (map Tracker.id (Tracker.tests st))).
    { vm_compute in H. injection H as <-. vm_compute. intros [E|[]]. discriminate E. }
    exact (proj1 (proj2 (add_stores_newest_first Host.StringToNumber Host.trim
                           Host.DateTime "t2" "2024-06-01" st e H Hnew))).
Defined.

(** X6.  In a collection that is in newest-first order, with valid dates,
    the added entry is stored behind the entries dated later than it and
    in front of all others, those of its own date included; the stored
    entries keep their places relative to each other. *)
Theorem added_entry_leads_its_date :
  forall (StringToNumber : string -> number) (trim : string -> string)
         (DateTime : string -> number) (fresh today : string)
         (st : Tracker.state) (e : Tracker.entry),
    Tracker.entry_of_form StringToNumber trim fresh today (Tracker.form st) = inr e ->
    ~ In (Tracker.id e) (map Tracker.id (Tracker.tests st)) ->
    Forall (Spec.dated DateTime) (e :: Tracker.tests st) ->
    StronglySorted (Spec.not_older DateTime) (Tracker.tests st) ->
    let st' :=
      Tracker.handleAddOrUpdate StringToNumber trim DateTime fresh today st in
    exists later others : list Tracker.entry,
      Tracker.tests st = later ++ others
      /\ Tracker.tests st' = later ++ e :: others
      /\ Forall (fun t => Spec.newer DateTime t e) later
      /\ Forall (fun t => Spec.not_older DateTime e t) others.
Proof.
  intros StringToNumber trim DateTime fresh today st e He Hnew Hd Hs st'. subst st'.
  rewrite (handleAddOrUpdate_accepted _ _ DateTime _ _ _ _ He).
  rewrite (add_new DateTime _ _ Hnew).
  cbn [fst snd Tracker.tests Tracker.setForm Tracker.setToastAlert Tracker.setTests].
  inversion Hd as [|? ? De Dl]; subst.
  cbn [sort fold_right]. fold (sort (Tracker.newest_first DateTime) (Tracker.tests st)).
  rewrite (sort_in_order _ _ (not_older_in_order DateTime _ Dl Hs)).
  destruct (insert_position (Tracker.newest_first DateTime) e (Tracker.tests st))
    as (l1 & l2 & Hl & Hi & H1 & H2).
  exists l1, l2. split; [exact Hl|]. split; [exact Hi|].
  rewrite Hl in Dl, Hs. apply Forall_app in Dl as [D1 D2]. split.
  - rewrite Forall_forall in *. intros t Ht.
    apply (newest_first_strict DateTime e t De (D1 t Ht) (H1 t Ht)).
  - destruct l2 as [|y l2]; constructor.
    + inversion D2 as [|? ? Dy _]; subst.
      pose proof (newest_first_decides DateTime e y De Dy) as H.
      rewrite H2 in H. exact H.
    + assert (Hy : Spec.not_older DateTime e y).
      { inversion D2 as [|? ? Dy _]; subst.
        pose proof (newest_first_decides DateTime e y De Dy) as H.
        rewrite H2 in H. exact H. }
      assert (Hs2 : StronglySorted (Spec.not_older DateTime) (y :: l2)).
      { clear - Hs. induction l1 as [|a l1 IH]; simpl in Hs; [exact Hs|].
        inversion Hs; subst. now apply IH. }
      inversion Hs2 as [|? ? _ Hall]; subst.
      eapply Forall_impl; [|exact Hall]. intros z Hz.
      eapply not_older_transitive; eassumption.
Qed.

Lemma added_entry_leads_its_date_witness :
  let st := Tracker.setForm (Samples.form_scored None "40" "2024-03-01")
                            Samples.state_ranked in
  let st' := Tracker.handleAddOrUpdate Host.StringToNumber Host.trim Host.DateTime
                                       "t2" "2024-06-01" st in
  map (fun t => (Tracker.id t, Tracker.date t)) (Tracker.tests st')
  = [("t2", "2024-03-01"); ("t1", "2024-03-01")]
  /\ exists e later others,
       Tracker.tests st = later ++ others
       /\ Tracker.tests st' = later ++ e :: others
       /\ Forall (fun t => Spec.newer Host.DateTime t e) later
       /\ Forall (fun t => Spec.not_older Host.DateTime e t) others.
Proof.
  intros st st'. split; [vm_compute; reflexivity|].
  destruct (Tracker.entry_of_form Host.StringToNumber Host.trim "t2" "2024-06-01"
                                  (Tracker.form st)) as [msg|e] eqn:H.
  - vm_compute in H. discriminate H.
  - exists e.
    assert (Hnew : ~ In (Tracker.id e) (map Tracker.id (Tracker.tests st))).
    { vm_compute in H. injection H as <-. vm_compute. intros [E|[]]. discriminate E. }
    assert (Hd : Forall (Spec.dated Host.DateTime) (e :: Tracker.tests st)).
    { constructor.
      - vm_compute in H. injection H as <-.
        exists 1709251200000%Z. vm_compute. reflexivity.
      - destruct (Tracker.tests st) as [|a [|b l]] eqn:E;
          [constructor | | vm_compute in E; discriminate E].
        vm_compute in E. injection E as <-. constructor; [|constructor].
        exists 1709251200000%Z. vm_compute. reflexivity. }
    assert (Hs : StronglySorted (Spec.not_older Host.DateTime) (Tracker.tests st)).
    { destruct (Tracker.tests st) as [|a [|b l]] eqn:E;
        [constructor | constructor; constructor | vm_compute in E; discriminate E]. }
    exact (added_entry_leads_its_date Host.StringToNumber Host.trim Host.DateTime
             "t2" "2024-06-01" st e H Hnew Hd Hs).
Defined.

(* ------------------------------------------------------------------ *)
(** ** The import, record by record *)

Section ImportFacts.
Import Tracker.
Variable StringToNumber : string -> number.

Lemma normalize_all_records (uid : nat -> string) (today : string)
      (items : list (option raw_record)) (k : nat) :
  ~ In None items ->
  exists l, normalize_all StringToNumber uid k today items = Some l
            /\ List.length l = List.length items.
Proof.
  revert k. induction items as [|[d|] items IH]; intros k Hnull.
  - exists []. split; reflexivity.
  - cbn [normalize_all].
    destruct (IH (match text_or (raw_id d) EmptyString with
                  | EmptyString => S k
                  | String _ _ => k
                  end)) as (l & -> & Hlen).
    { intros Hin. apply Hnull. now right. }
    eexists. split; [reflexivity|]. simpl. now rewrite Hlen.
  - exfalso. apply Hnull. now left.
Qed.

Lemma normalize_all_null (uid : nat -> string) (today : string)
      (items : list (option raw_record)) (k : nat) :
  In None items -> normalize_all StringToNumber uid k today items = None.
Proof.
  revert k. induction items as [|[d|] items IH]; intros k Hin.
  - contradiction.
  - cbn [normalize_all]. destruct Hin as [Hin|Hin]; [discriminate Hin|].
    now rewrite IH.
  - reflexivity.
Qed.

End ImportFacts.

(** X7.  The import of an array without [null] elements turns every
    record into an entry and adds them all: no record is rejected or
    merged with a stored entry of the same id, every stored entry stays,
    and the collection grows by the number of records.  With valid dates
    the result is in newest-first order. *)
Theorem import_adds_every_record :
  forall (StringToNumber : string -> number) (DateTime : string -> number)
         (TypeError_message : string) (uid : nat -> string) (today : string)
         (items : list (option Tracker.raw_record)) (st : Tracker.state),
    ~ In None items ->
    let st' := Tracker.handleImportJSON StringToNumber DateTime TypeError_message
                 uid today (Tracker.TopArray items) st in
    exists normalized : list Tracker.entry,
      Tracker.normalize_all StringToNumber uid 0 today items = Some normalized
      /\ List.length normalized = List.length items
      /\ Permutation (Tracker.tests st') (normalized ++ Tracker.tests st)
      /\ List.length (Tracker.tests st')
         = (List.length items + List.length (Tracker.tests st))%nat
      /\ (forall t, In t (Tracker.tests st) -> In t (Tracker.tests st'))
      /\ (Forall (Spec.dated DateTime) (normalized ++ Tracker.tests st) ->
          StronglySorted (Spec.not_older DateTime) (Tracker.tests st'))
      /\ Tracker.toastAlert st'
         = Some (Tracker.mkToast "Data imported successfully!" Tracker.success).
Proof.
  intros StringToNumber DateTime TypeError_message uid today items st Hnull st'.
  destruct (normalize_all_records StringToNumber uid today items 0 Hnull)
    as (normalized & Hn & Hlen).
  exists normalized. subst st'. unfold Tracker.handleImportJSON. rewrite Hn.
  cbn [Tracker.tests Tracker.toastAlert Tracker.setToastAlert Tracker.setTests].
  pose proof (sort_perm (Tracker.newest_first DateTime)
                        (normalized ++ Tracker.tests st)) as Hperm.
  split; [reflexivity|]. split; [exact Hlen|]. split; [exact Hperm|].
  split; [|split; [|split; [|reflexivity]]].
  - rewrite (Permutation_length Hperm), length_app, Hlen. reflexivity.
  - intros t Hin. apply (Permutation_in _ (Permutation_sym Hperm)).
    apply in_or_app. now right.
  - intros Hd.
    apply (sort_sorted (Tracker.newest_first DateTime) (Spec.dated DateTime)
                       (Spec.not_older DateTime)).
    + intros a b Da Db.
      pose proof (newest_first_decides DateTime a b Da Db) as H.
      destruct (gt (Tracker.newest_first DateTime a b) zero); exact H.
    + apply not_older_transitive.
    + exact Hd.
Qed.

Lemma import_adds_every_record_witness :
  let st := Samples.state_ranked in
  let st' := Tracker.handleImportJSON Host.StringToNumber Host.DateTime "null"
               Samples.no_uid "2024-03-01" (Tracker.handleExportJSON st) st in
  map Tracker.id (Tracker.tests st') = ["t1"; "t1"]
  /\ List.length (Tracker.tests st')
     = (List.length (Tracker.tests st) + List.length (Tracker.tests st))%nat.
Proof.
  intros st st'. split; [vm_compute; reflexivity|].
  assert (Hnull : ~ In None (map (fun t => Some (Tracker.json_of_entry t))
                                 (Tracker.tests st))).
  { intros Hin. apply in_map_iff in Hin as (t & Ht & _). discriminate Ht. }
  destruct (import_adds_every_record Host.StringToNumber Host.DateTime "null"
              Samples.no_uid "2024-03-01" _ st Hnull)
    as (normalized & _ & _ & _ & Hlen & _).
  rewrite length_map in Hlen. exact Hlen.
Defined.

(** X8.  An array that holds a [null] element is rejected as a whole:
    the records next to it are not written, the collection and the rest of
    the state stay as they are, and the toast reports the failure. *)
Theorem import_with_null_element_writes_nothing :
  forall (StringToNumber : string -> number) (DateTime : string -> number)
         (TypeError_message : string) (uid : nat -> string) (today : string)
         (items : list (option Tracker.raw_record)) (st : Tracker.state),
    In None items ->
    let st' := Tracker.handleImportJSON StringToNumber DateTime TypeError_message
                 uid today (Tracker.TopArray items) st in
    st' = Tracker.reject ("Failed to import: " ++ TypeError_message)%string st
    /\ Tracker.tests st' = Tracker.tests st
    /\ Tracker.form st' = Tracker.form st
    /\ Tracker.toastAlert st'
       = Some (Tracker.mkToast ("Failed to import: " ++ TypeError_message)%string
                               Tracker.error).
Proof.
  intros StringToNumber DateTime TypeError_message uid today items st Hnull st'.
  subst st'. unfold Tracker.handleImportJSON.
  rewrite (normalize_all_null StringToNumber uid today items 0 Hnull).
  repeat split.
Qed.

Lemma import_with_null_element_writes_nothing_witness :
  Tracker.tests
    (Tracker.handleImportJSON Host.StringToNumber Host.DateTime "null"
       Samples.no_uid "2024-03-01"
       (Tracker.TopArray [Some Samples.record_zero_wrong; None])
       Samples.state_ranked)
  = Tracker.tests Samples.state_ranked.
Proof.
  apply (import_with_null_element_writes_nothing Host.StringToNumber Host.DateTime
           "null" Samples.no_uid "2024-03-01"
           [Some Samples.record_zero_wrong; None] Samples.state_ranked).
  right. now left.
Defined.

(** X9.  For a record of an imported file whose text properties (id,
    subject, category, provider, date, notes) are strings or missing,
    whatever its numeric properties hold, the entry made of it
    has a subject, a category and a provider (the defaults [Unknown],
    [Topic Wise] and [Ace Academy] fill the gaps), marks that are numbers
    ([0] replaces a missing or unreadable one), the percentage [0] when
    the maximum is [0], rank fields that are all [null] or hold
    [0 < rank <= takers] with the percentile derived from them, and counts
    that are [null] or positive.  The id and the date are present when
    the generated id and the current date are. *)
Theorem imported_entry_is_well_formed :
  forall (StringToNumber : string -> number) (fresh today : string)
         (d : Tracker.raw_record),
    let e := Tracker.normalize StringToNumber fresh today d in
    nonempty (Tracker.subject e) = true
    /\ nonempty (Tracker.category e) = true
    /\ nonempty (Tracker.provider e) = true
    /\ (Tracker.raw_subject d = None -> Tracker.subject e = "Unknown")
    /\ (Tracker.raw_category d = None -> Tracker.category e = "Topic Wise")
    /\ (Tracker.raw_provider d = None -> Tracker.provider e = "Ace Academy")
    /\ (nonempty fresh = true -> nonempty (Tracker.id e) = true)
    /\ (nonempty today = true -> nonempty (Tracker.date e) = true)
    /\ isNaN (Tracker.maxMarks e) = false
    /\ isNaN (Tracker.obtainedMarks e) = false
    /\ (truthy (Tracker.maxMarks e) = false ->
        Tracker.maxMarks e = zero /\ Tracker.percentage e = zero)
    /\ match Tracker.testRank e, Tracker.totalTestTakers e, Tracker.rankPercentile e with
       | None, None, None => True
       | Some r, Some n, Some p =>
           gt r zero = true /\ gt n zero = true /\ le r n = true
           /\ p = Tracker.rankPercentile_of r n
       | _, _, _ => False
       end
    /\ Forall (fun v : option number =>
                 match v with
                 | None => True
                 | Some x => gt x zero = true
                 end)
              [Tracker.correctCount e; Tracker.incorrectCount e;
               Tracker.notAttemptedCount e].
Proof.
  intros StringToNumber fresh today d e. subst e.
  assert (Htext : forall v dflt, nonempty dflt = true ->
                                 nonempty (Tracker.text_or v dflt) = true).
  { intros [s|] dflt Hd; simpl; [|exact Hd].
    unfold or_default. destruct (nonempty s) eqn:E; assumption. }
  assert (Hnum : forall x, isNaN (or_else x zero) = false).
  { intros x. unfold or_else. destruct x; reflexivity. }
  cbn [Tracker.normalize Tracker.subject Tracker.category Tracker.provider
       Tracker.id Tracker.date Tracker.maxMarks Tracker.obtainedMarks
       Tracker.percentage Tracker.testRank Tracker.totalTestTakers
       Tracker.rankPercentile Tracker.correctCount Tracker.incorrectCount
       Tracker.notAttemptedCount].
  split; [now apply Htext|]. split; [now apply Htext|]. split; [now apply Htext|].
  split; [now intros ->|]. split; [now intros ->|]. split; [now intros ->|].
  split; [apply Htext|]. split; [apply Htext|].
  split; [apply Hnum|]. split; [apply Hnum|].
  split; [|split].
  - intros Hfalsy. rewrite Hfalsy. split; [|reflexivity].
    unfold or_else in *.
    destruct (truthy (Tracker.Number StringToNumber (Tracker.raw_maxMarks d))) eqn:E;
      [congruence|reflexivity].
  - destruct (gt (Tracker.Number StringToNumber (Tracker.raw_testRank d)) zero) eqn:Er;
      [|exact I].
    destruct (gt (Tracker.Number StringToNumber (Tracker.raw_totalTestTakers d)) zero)
      eqn:En; [|exact I].
    destruct (le (Tracker.Number StringToNumber (Tracker.raw_testRank d))
                 (Tracker.Number StringToNumber (Tracker.raw_totalTestTakers d)))
      eqn:El; [|exact I].
    cbn. auto.
  - repeat constructor.
    + destruct (gt (Tracker.Number StringToNumber (Tracker.raw_correctCount d)) zero)
        eqn:E; [exact E|exact I].
    + destruct (gt (Tracker.Number StringToNumber (Tracker.raw_incorrectCount d)) zero)
        eqn:E; [exact E|exact I].
    + destruct (gt (Tracker.Number StringToNumber (Tracker.raw_notAttemptedCount d)) zero)
        eqn:E; [exact E|exact I].
Qed.

(* ------------------------------------------------------------------ *)
(** ** Editing *)

Section EditFacts.
Import Tracker.
Variable StringToNumber : string -> number.
Variable NumberToString : number -> string.
Variable trim : string -> string.
Variable DateTime : string -> number.
Variable toISOString : number -> string.

Lemma find_by_id (t : entry) (l : list entry) :
  In t l -> NoDup (map id l) ->
  find (fun x => String.eqb (id x) (id t)) l = Some t.
Proof.
  induction l as [|x l IH]; simpl; intros Hin Hnd; [contradiction|].
  inversion Hnd as [|? ? Hx Hl]; subst.
  destruct Hin as [->|Hin].
  - now rewrite String.eqb_refl.
  - destruct (String.eqb (id x) (id t)) eqn:E; [|now apply IH].
    apply String.eqb_eq in E. exfalso. apply Hx. rewrite E. now apply in_map.
Qed.

Lemma replace_by_itself (t : entry) (l : list entry) :
  In t l -> NoDup (map id l) ->
  map (fun p => if String.eqb (id p) (id t) then t else p) l = l.
Proof.
  induction l as [|x l IH]; simpl; intros Hin Hnd; [reflexivity|].
  inversion Hnd as [|? ? Hx Hl]; subst.
  destruct (String.eqb (id x) (id t)) eqn:E.
  - apply String.eqb_eq in E.
    destruct Hin as [->|Hin].
    + f_equal. clear IH Hnd Hl. induction l as [|y l IH]; simpl; [reflexivity|].
      destruct (String.eqb (id y) (id t)) eqn:Ey.
      * apply String.eqb_eq in Ey. exfalso. apply Hx. left. exact Ey.
      * f_equal. apply IH. intros H. apply Hx. now right.
    + exfalso. apply Hx. rewrite E. now apply in_map.
  - f_equal. destruct Hin as [->|Hin]; [now rewrite String.eqb_refl in E|].
    now apply IH.
Qed.

Lemma reads_back (v : option number) :
  StringToNumber EmptyString = zero ->
  Spec.loads_back StringToNumber NumberToString v ->
  StringToNumber (String_or_blank NumberToString v)
  = match v with Some x => x | None => zero end.
Proof.
  intros Hb Hl. destruct v as [x|]; simpl in *; [|exact Hb].
  destruct (truthy x); [apply Hl | now rewrite Hl].
Qed.

Lemma filled_back (v : option number) :
  Spec.loads_back StringToNumber NumberToString v ->
  nonempty (String_or_blank NumberToString v)
  = match v with Some x => truthy x | None => false end.
Proof.
  intros Hl. destruct v as [x|]; simpl in *; [|reflexivity].
  destruct (truthy x); [apply Hl | reflexivity].
Qed.

Ltac split_checks H :=
  repeat match type of H with
         | (if ?c then _ else _) = _ =>
             let E := fresh "E" in destruct c eqn:E; [discriminate H|]
         end.

Lemma edit_form_accepted (fresh0 today0 fresh today : string)
      (f0 : form_data) (t : entry) :
  entry_of_form StringToNumber trim fresh0 today0 f0 = inr t ->
  Spec.survives_edit StringToNumber NumberToString trim DateTime toISOString t ->
  entry_of_form StringToNumber trim fresh today
    (mkForm (Some (id t)) (subject t)
            (or_default (category t) first_category)
            (or_default (provider t) first_provider)
            (NumberToString (maxMarks t))
            (NumberToString (obtainedMarks t))
            (String_or_blank NumberToString (correctCount t))
            (String_or_blank NumberToString (incorrectCount t))
            (String_or_blank NumberToString (notAttemptedCount t))
            (String_or_blank NumberToString (testRank t))
            (String_or_blank NumberToString (totalTestTakers t))
            (date t) (notes t))
  = inr t.
Proof.
  intros H [Sid Ssub Scat Sprov Sdate _ Sblank [Smaxn Smax] [Sobtn Sobt]
              Sc Sw Sn Sr Sk Scounts].
  unfold entry_of_form in H. split_checks H. injection H as Ht.
  pose proof (reads_back _ Sblank Sc) as Rc. pose proof (filled_back _ Sc) as Fc.
  pose proof (reads_back _ Sblank Sw) as Rw. pose proof (filled_back _ Sw) as Fw.
  pose proof (reads_back _ Sblank Sn) as Rn. pose proof (filled_back _ Sn) as Fn.
  pose proof (reads_back _ Sblank Sr) as Rr. pose proof (filled_back _ Sr) as Fr.
  pose proof (reads_back _ Sblank Sk) as Rk. pose proof (filled_back _ Sk) as Fk.
  unfold entry_of_form.
  cbn [form_id form_subject form_category form_provider form_maxMarks
       form_obtainedMarks form_correctCount form_incorrectCount
       form_notAttemptedCount form_testRank form_totalTestTakers form_date
       form_notes].
  rewrite Rc, Rw, Rn, Rr, Rk, Fc, Fw, Fn, Fr, Fk, Smax, Sobt, Ssub.
  unfold or_default at 1 2 3 4. rewrite Sid, Scat, Sprov, Sdate.
  clear Rc Rw Rn Rr Rk Fc Fw Fn Fr Fk Sc Sw Sn Sr Sk Smax Sobt Smaxn Sobtn
        Sid Scat Sprov Sdate Ssub.
  subst t.
  cbn [id subject category provider maxMarks obtainedMarks percentage
       correctCount incorrectCount notAttemptedCount testRank totalTestTakers
       rankPercentile date notes] in *.
  rewrite E, E0, E1, E2.
  set (hasCounts := nonempty (form_correctCount f0) || nonempty (form_incorrectCount f0)
                    || nonempty (form_notAttemptedCount f0)) in *.
  set (hasRank := nonempty (form_testRank f0) && nonempty (form_totalTestTakers f0)) in *.
  assert (Hz : isNaN zero || lt zero zero = false) by reflexivity.
  assert (Hcounts :
            (if hasCounts
             then truthy (StringToNumber (form_correctCount f0))
                  || truthy (StringToNumber (form_incorrectCount f0))
                  || truthy (StringToNumber (form_notAttemptedCount f0))
             else false) = hasCounts).
  { destruct hasCounts; [|reflexivity].
    destruct Scounts as [Hnone|(x & Hin & Hx)]; [discriminate Hnone|].
    simpl in Hin.
    destruct Hin as [Hin|[Hin|[Hin|[]]]]; injection Hin as <-; rewrite Hx;
      rewrite ?orb_true_r; reflexivity. }
  assert (Hrank :
            (if hasRank
             then truthy (StringToNumber (form_testRank f0))
                  && truthy (StringToNumber (form_totalTestTakers f0))
             else false) = hasRank).
  { destruct hasRank; [|reflexivity]. simpl in E6, E7.
    apply orb_false_iff in E6 as [E6 _], E7 as [E7 _].
    apply negb_false_iff in E6, E7. now rewrite E6, E7. }
  destruct hasCounts, hasRank; cbn [andb orb] in *;
    rewrite ?E3, ?E4, ?E5, ?Hz, ?Hcounts, ?Hrank, ?E6, ?E7, ?E8; cbn [andb orb];
    reflexivity.
Qed.

End EditFacts.

(** X10.  Loading a stored entry into the form and saving it without a
    change leaves the collection as it was.  This holds for an entry the
    form has produced and that is stored under an id of its own, when the
    host prints its numbers as texts that read back, the date is one
    [formatDateInput] returns as it is, no text field would be replaced by
    a default, and the counts, when recorded, are not all [0]. *)
Theorem edit_then_save_restores :
  forall (StringToNumber : string -> number) (NumberToString : number -> string)
         (trim : string -> string) (DateTime : string -> number)
         (toISOString : number -> string)
         (fresh0 today0 : string) (f0 : Tracker.form_data)
         (fresh today : string) (st : Tracker.state) (t : Tracker.entry),
    Tracker.entry_of_form StringToNumber trim fresh0 today0 f0 = inr t ->
    In t (Tracker.tests st) ->
    NoDup (map Tracker.id (Tracker.tests st)) ->
    Spec.survives_edit StringToNumber NumberToString trim DateTime toISOString t ->
    exists st1 : Tracker.state,
      Tracker.handleEdit NumberToString DateTime toISOString (Tracker.id t) st
      = Some st1
      /\ Tracker.form_id (Tracker.form st1) = Some (Tracker.id t)
      /\ Tracker.entry_of_form StringToNumber trim fresh today (Tracker.form st1)
         = inr t
      /\ Tracker.tests
           (Tracker.handleAddOrUpdate StringToNumber trim DateTime fresh today st1)
         = Tracker.tests st.
Proof.
  intros StringToNumber NumberToString trim DateTime toISOString
         fresh0 today0 f0 fresh today st t Ht Hin Hnd Hse.
  pose proof (edit_form_accepted StringToNumber NumberToString trim DateTime
                toISOString fresh0 today0 fresh today f0 t Ht Hse) as Hform.
  unfold Tracker.handleEdit.
  rewrite (find_by_id t _ Hin Hnd), (Spec.se_date_format _ _ _ _ _ _ Hse).
  match goal with
  | |- exists st1, Some ?s = Some st1 /\ _ => set (loaded := s); exists loaded
  end.
  split; [reflexivity|]. split; [reflexivity|].
  assert (Hloaded : Tracker.entry_of_form StringToNumber trim fresh today
                      (Tracker.form loaded) = inr t) by exact Hform.
  split; [exact Hloaded|].
  rewrite (handleAddOrUpdate_accepted StringToNumber trim DateTime fresh today
             loaded t Hloaded).
  assert (Hid : In (Tracker.id t) (map Tracker.id (Tracker.tests loaded)))
    by (apply in_map; exact Hin).
  rewrite (replace_known DateTime t (Tracker.tests loaded) Hid).
  cbn [fst snd Tracker.tests Tracker.setForm Tracker.setToastAlert Tracker.setTests
       loaded].
  now apply replace_by_itself.
Qed.

Lemma edit_then_save_restores_witness :
  exists st1 : Tracker.state,
    Tracker.handleEdit Host.NumberToString Host.DateTime Host.toISOString
                       "t1" Samples.state_ranked
    = Some st1
    /\ Tracker.tests
         (Tracker.handleAddOrUpdate Host.StringToNumber Host.trim Host.DateTime
                                    "t2" "2024-06-01" st1)
       = Tracker.tests Samples.state_ranked.
Proof.
  destruct (Tracker.entry_of_form Host.StringToNumber Host.trim "t1" "2024-03-01"
                                  Samples.form_ranked) as [msg|t] eqn:H.
  - vm_compute in H. discriminate H.
  - pose proof H as Ht. vm_compute in Ht. injection Ht as Ht.
    assert (Hin : In t (Tracker.tests Samples.state_ranked))
      by (rewrite <- Ht; vm_compute; now left).
    assert (Hnd : NoDup (map Tracker.id (Tracker.tests Samples.state_ranked)))
      by (vm_compute; constructor; [intros []|constructor]).
    assert (Hse : Spec.survives_edit Host.StringToNumber Host.NumberToString
                    Host.trim Host.DateTime Host.toISOString t)
      by (rewrite <- Ht; split; vm_compute;
          first [reflexivity | exact I | split; reflexivity | left; reflexivity]).
    destruct (edit_then_save_restores Host.StringToNumber Host.NumberToString
                Host.trim Host.DateTime Host.toISOString
                "t1" "2024-03-01" Samples.form_ranked "t2" "2024-06-01"
                Samples.state_ranked t H Hin Hnd Hse)
      as (st1 & Hedit & _ & _ & Hsave).
    exists st1. rewrite <- Ht in Hedit. split; [exact Hedit | exact Hsave].
Defined.

(** X11.  An entry whose recorded counts are all [0] loads into the form
    with the three count fields empty, and saving that form stores the
    counts as not recorded: the edit turns the recorded zeros into
    [null]. *)
Theorem edit_then_save_drops_zero_counts :
  forall (StringToNumber : string -> number) (NumberToString : number -> string)
         (trim : string -> string) (DateTime : string -> number)
         (toISOString : number -> string) (fresh today i : string)
         (st st1 : Tracker.state) (t e : Tracker.entry),
    find (fun x => String.eqb (Tracker.id x) i) (Tracker.tests st) = Some t ->
    Forall (fun v : option number =>
              match v with
              | Some x => truthy x = false
              | None => True
              end)
           [Tracker.correctCount t; Tracker.incorrectCount t;
            Tracker.notAttemptedCount t] ->
    Tracker.handleEdit NumberToString DateTime toISOString i st = Some st1 ->
    Tracker.entry_of_form StringToNumber trim fresh today (Tracker.form st1) = inr e ->
    Tracker.form_correctCount (Tracker.form st1) = EmptyString
    /\ Tracker.form_incorrectCount (Tracker.form st1) = EmptyString
    /\ Tracker.form_notAttemptedCount (Tracker.form st1) = EmptyString
    /\ Tracker.correctCount e = None
    /\ Tracker.incorrectCount e = None
    /\ Tracker.notAttemptedCount e = None.
Proof.
  intros StringToNumber NumberToString trim DateTime toISOString fresh today i
         st st1 t e Hfind Hzero Hedit He.
  assert (Hblank : forall v : option number,
             match v with Some x => truthy x = false | None => True end ->
             Tracker.String_or_blank NumberToString v = EmptyString).
  { intros [x|] Hv; simpl; [now rewrite Hv|reflexivity]. }
  inversion Hzero as [|? ? Hc Hzero']; subst.
  inversion Hzero' as [|? ? Hw Hzero'']; subst.
  inversion Hzero'' as [|? ? Hn _]; subst.
  unfold Tracker.handleEdit in Hedit. rewrite Hfind in Hedit.
  destruct (Tracker.formatDateInput DateTime toISOString (Tracker.date t));
    [|discriminate Hedit].
  injection Hedit as <-.
  cbn [Tracker.form Tracker.setForm Tracker.form_correctCount
       Tracker.form_incorrectCount Tracker.form_notAttemptedCount] in *.
  rewrite (Hblank _ Hc), (Hblank _ Hw), (Hblank _ Hn) in *.
  split; [reflexivity|]. split; [reflexivity|]. split; [reflexivity|].
  unfold Tracker.entry_of_form in He.
  cbn [Tracker.form_correctCount Tracker.form_incorrectCount
       Tracker.form_notAttemptedCount] in He.
  repeat match type of He with
         | (if ?c then _ else _) = _ => destruct c; [discriminate He|]
         end.
  injection He as <-. repeat split.
Qed.

Lemma edit_then_save_drops_zero_counts_witness :
  map Tracker.correctCount (Tracker.tests Samples.state_zero_counts) = [Some zero]
  /\ exists st1 e,
       Tracker.handleEdit Host.NumberToString Host.DateTime Host.toISOString
                          "t1" Samples.state_zero_counts = Some st1
       /\ Tracker.entry_of_form Host.StringToNumber Host.trim "t2" "2024-06-01"
                                (Tracker.form st1) = inr e
       /\ Tracker.correctCount e = None.
Proof.
  split; [vm_compute; reflexivity|].
  destruct (find (fun x => String.eqb (Tracker.id x) "t1")
                 (Tracker.tests Samples.state_zero_counts)) as [t|] eqn:Hfind;
    [|vm_compute in Hfind; discriminate Hfind].
  destruct (Tracker.handleEdit Host.NumberToString Host.DateTime Host.toISOString
                               "t1" Samples.state_zero_counts) as [st1|] eqn:Hedit;
    [|vm_compute in Hedit; discriminate Hedit].
  destruct (Tracker.entry_of_form Host.StringToNumber Host.trim "t2" "2024-06-01"
                                  (Tracker.form st1)) as [msg|e] eqn:He.
  - exfalso. vm_compute in Hedit. injection Hedit as <-.
    vm_compute in He. discriminate He.
  - exists st1, e. split; [reflexivity|]. split; [exact He|].
    assert (Hzero : Forall (fun v : option number =>
                              match v with
                              | Some x => truthy x = false
                              | None => True
                              end)
                           [Tracker.correctCount t; Tracker.incorrectCount t;
                            Tracker.notAttemptedCount t]).
    { vm_compute in Hfind. injection Hfind as <-.
      repeat constructor. }
    exact (proj1 (proj2 (proj2 (proj2
             (edit_then_save_drops_zero_counts Host.StringToNumber
                Host.NumberToString Host.trim Host.DateTime Host.toISOString
                "t2" "2024-06-01" "t1" Samples.state_zero_counts st1 t e
                Hfind Hzero Hedit He))))).
Defined.

(** X12.  [handleEdit] never changes anything but the form.  An id that
    no stored entry has leaves the state as it is; otherwise the form is
    loaded from the first entry with that id: it carries the id, so that
    the next submission updates the entry, the subject and the notes of
    the entry, its category and provider (the first of the list in place
    of an empty one), the marks as printed numbers, each count and rank
    field as its printed number (empty for [null] and for [0]), and the
    date as [formatDateInput] returns it (empty for an empty date, the
    first ten characters of the ISO text for a valid one).  When the date
    of that entry is a text that is not a valid date, which the import
    stores as it finds it, [formatDateInput] raises and nothing is
    loaded. *)
Theorem edit_loads_the_form_only :
  forall (NumberToString : number -> string) (DateTime : string -> number)
         (toISOString : number -> string) (i : string) (st : Tracker.state),
    let edit := Tracker.handleEdit NumberToString DateTime toISOString in
    (~ In i (map Tracker.id (Tracker.tests st)) -> edit i st = Some st)
    /\ (forall st1 : Tracker.state,
           edit i st = Some st1 ->
           Tracker.tests st1 = Tracker.tests st
           /\ Tracker.toastAlert st1 = Tracker.toastAlert st
           /\ Tracker.filterProvider st1 = Tracker.filterProvider st
           /\ Tracker.filterSubject st1 = Tracker.filterSubject st
           /\ Tracker.dateFrom st1 = Tracker.dateFrom st
           /\ Tracker.dateTo st1 = Tracker.dateTo st
           /\ Tracker.search st1 = Tracker.search st
           /\ (In i (map Tracker.id (Tracker.tests st)) ->
               Tracker.form_id (Tracker.form st1) = Some i))
    /\ (forall t : Tracker.entry,
           find (fun x => String.eqb (Tracker.id x) i) (Tracker.tests st) = Some t ->
           nonempty (Tracker.date t) = true ->
           isNaN (DateTime (Tracker.date t)) = true ->
           edit i st = None)
    /\ (forall t : Tracker.entry,
           find (fun x => String.eqb (Tracker.id x) i) (Tracker.tests st) = Some t ->
           Tracker.date t = EmptyString
           \/ isNaN (DateTime (Tracker.date t)) = false ->
           exists st1 : Tracker.state,
             edit i st = Some st1
             /\ Tracker.form st1
                = Tracker.mkForm
                    (Some (Tracker.id t)) (Tracker.subject t)
                    (if nonempty (Tracker.category t)
                     then Tracker.category t else "Topic Wise")
                    (if nonempty (Tracker.provider t)
                     then Tracker.provider t else "Ace Academy")
                    (NumberToString (Tracker.maxMarks t))
                    (NumberToString (Tracker.obtainedMarks t))
                    (Spec.loaded_text NumberToString (Tracker.correctCount t))
                    (Spec.loaded_text NumberToString (Tracker.incorrectCount t))
                    (Spec.loaded_text NumberToString (Tracker.notAttemptedCount t))
                    (Spec.loaded_text NumberToString (Tracker.testRank t))
                    (Spec.loaded_text NumberToString (Tracker.totalTestTakers t))
                    (if nonempty (Tracker.date t)
                     then substring 0 10 (toISOString (DateTime (Tracker.date t)))
                     else EmptyString)
                    (Tracker.notes t))
    /\ (forall (StringToNumber : string -> number) (fresh today : string)
               (d : Tracker.raw_record) (s : string),
           Tracker.raw_date d = Some s -> nonempty s = true ->
           Tracker.date (Tracker.normalize StringToNumber fresh today d) = s).
Proof.
  intros NumberToString DateTime toISOString i st edit. subst edit.
  unfold Tracker.handleEdit.
  split; [|split; [|split; [|split]]].
  - intros Hnew.
    destruct (find _ (Tracker.tests st)) as [t|] eqn:Hfind; [|reflexivity].
    exfalso. apply Hnew. apply find_some in Hfind as [Hin Hid].
    apply String.eqb_eq in Hid. rewrite <- Hid. now apply in_map.
  - intros st1 Hedit.
    destruct (find _ (Tracker.tests st)) as [t|] eqn:Hfind.
    + destruct (Tracker.formatDateInput DateTime toISOString (Tracker.date t));
        [|discriminate Hedit].
      injection Hedit as <-. cbn. repeat split.
      intros _. apply find_some in Hfind as [_ Hid].
      apply String.eqb_eq in Hid. now rewrite Hid.
    + injection Hedit as <-. repeat split.
      intros Hin. exfalso. apply in_map_iff in Hin as (t & Ht & Hin).
      apply (find_none _ _ Hfind) in Hin. rewrite Ht, String.eqb_refl in Hin.
      discriminate Hin.
  - intros t Hfind Hdate Hnan. rewrite Hfind.
    unfold Tracker.formatDateInput. now rewrite Hdate, Hnan.
  - intros t Hfind Hdate. rewrite Hfind.
    assert (Hloaded : forall v, Tracker.String_or_blank NumberToString v
                                = Spec.loaded_text NumberToString v).
    { intros [x|]; [|reflexivity]. unfold Spec.loaded_text. simpl.
      destruct (truthy x); reflexivity. }
    assert (Hd : Tracker.formatDateInput DateTime toISOString (Tracker.date t)
                 = Some (if nonempty (Tracker.date t)
                         then substring 0 10 (toISOString (DateTime (Tracker.date t)))
                         else EmptyString)).
    { unfold Tracker.formatDateInput. destruct Hdate as [->|Hnum].
      - reflexivity.
      - rewrite Hnum. destruct (nonempty (Tracker.date t)); reflexivity. }
    rewrite Hd. eexists. split; [reflexivity|].
    cbn [Tracker.form Tracker.setForm]. rewrite !Hloaded. reflexivity.
  - intros StringToNumber fresh today d s Hd Hs.
    cbn [Tracker.normalize Tracker.date]. rewrite Hd. simpl.
    unfold or_default. now rewrite Hs.
Qed.

(** X13.  Choosing a category that does not require a subject sets the
    subject of the form to the multi-subject sentinel and keeps the other
    fields; the sentinel stays when the category is changed again, even
    to one that requires a subject.  An entry submitted with the sentinel
    as subject belongs to no subject group, so it never counts in a
    subject average. *)
Theorem full_test_category_sets_the_sentinel :
  forall (StringToNumber : string -> number) (trim : string -> string)
         (fresh today c : string) (f : Tracker.form_data) (e : Tracker.entry),
    existsb (String.eqb c) Tracker.SUBJECT_REQUIRED_CATEGORIES = false ->
    trim Tracker.DEFAULT_MULTI_SUBJECT = Tracker.DEFAULT_MULTI_SUBJECT ->
    Tracker.entry_of_form StringToNumber trim fresh today
                          (Tracker.category_onChange c f) = inr e ->
    Tracker.category_onChange c f
    = Tracker.mkForm (Tracker.form_id f) Tracker.DEFAULT_MULTI_SUBJECT c
        (Tracker.form_provider f) (Tracker.form_maxMarks f)
        (Tracker.form_obtainedMarks f) (Tracker.form_correctCount f)
        (Tracker.form_incorrectCount f) (Tracker.form_notAttemptedCount f)
        (Tracker.form_testRank f) (Tracker.form_totalTestTakers f)
        (Tracker.form_date f) (Tracker.form_notes f)
    /\ (forall c' : string,
           Tracker.form_subject
             (Tracker.category_onChange c' (Tracker.category_onChange c f))
           = Tracker.DEFAULT_MULTI_SUBJECT)
    /\ Tracker.subject e = Tracker.DEFAULT_MULTI_SUBJECT
    /\ Tracker.category e = c
    /\ (forall (filtered : list Tracker.entry) (a : Tracker.subject_average),
           In a (Tracker.subjectAverages (Tracker.summary filtered)) ->
           Tracker.sa_subject a <> Tracker.DEFAULT_MULTI_SUBJECT
           /\ ~ In e (Tracker.sa_items a)).
Proof.
  intros StringToNumber trim fresh today c f e Hc Htrim He.
  assert (Hform : Tracker.category_onChange c f
                  = Tracker.mkForm (Tracker.form_id f) Tracker.DEFAULT_MULTI_SUBJECT c
                      (Tracker.form_provider f) (Tracker.form_maxMarks f)
                      (Tracker.form_obtainedMarks f) (Tracker.form_correctCount f)
                      (Tracker.form_incorrectCount f)
                      (Tracker.form_notAttemptedCount f)
                      (Tracker.form_testRank f) (Tracker.form_totalTestTakers f)
                      (Tracker.form_date f) (Tracker.form_notes f))
    by (unfold Tracker.category_onChange; now rewrite Hc).
  assert (Hsubject : Tracker.subject e = Tracker.DEFAULT_MULTI_SUBJECT
                     /\ Tracker.category e = c).
  { rewrite Hform in He. unfold Tracker.entry_of_form in He.
    repeat match type of He with
           | (if ?b then _ else _) = _ => destruct b; [discriminate He|]
           end.
    injection He as <-. cbn. now rewrite Htrim. }
  split; [exact Hform|]. split; [|split; [apply Hsubject|split; [apply Hsubject|]]].
  - intros c'. rewrite Hform. unfold Tracker.category_onChange.
    destruct (existsb (String.eqb c') Tracker.SUBJECT_REQUIRED_CATEGORIES);
      reflexivity.
  - intros filtered a Hin.
    apply average_in_subjectAverages in Hin as (s & -> & Hs & _).
    apply String.eqb_neq in Hs. cbn. split; [exact Hs|].
    unfold Spec.members. intros Hmem. apply filter_In in Hmem as [_ Hmem].
    apply String.eqb_eq in Hmem. apply Hs. rewrite <- Hmem. apply Hsubject.
Qed.

Lemma full_test_category_sets_the_sentinel_witness :
  exists e : Tracker.entry,
    Tracker.entry_of_form Host.StringToNumber Host.trim "t1" "2024-03-01"
                          (Tracker.category_onChange "Mock" Samples.form_ranked)
    = inr e
    /\ Tracker.subject e = Tracker.DEFAULT_MULTI_SUBJECT
    /\ Tracker.category e = "Mock".
Proof.
  destruct (Tracker.entry_of_form Host.StringToNumber Host.trim "t1" "2024-03-01"
              (Tracker.category_onChange "Mock" Samples.form_ranked))
    as [msg|e] eqn:H.
  - vm_compute in H. discriminate H.
  - exists e. split; [reflexivity|].
    destruct (full_test_category_sets_the_sentinel Host.StringToNumber Host.trim
                "t1" "2024-03-01" "Mock" Samples.form_ranked e
                eq_refl eq_refl H) as (_ & _ & Hs & Hc & _).
    split; [exact Hs | exact Hc].
Defined.

(* ------------------------------------------------------------------ *)
(** ** The options of the subject filter *)

Section SubjectOptions.
Import Tracker.

Lemma Set_add_spec (acc : list string) (x : string) :
  NoDup acc ->
  NoDup (Set_add acc x) /\ forall y, In y (Set_add acc x) <-> In y acc \/ y = x.
Proof.
  intros Hnd. unfold Set_add.
  destruct (existsb (String.eqb x) acc) eqn:E.
  - split; [exact Hnd|]. intros y. split; [now left|].
    intros [H| ->]; [exact H|].
    apply existsb_exists in E as (z & Hz & Hx). apply String.eqb_eq in Hx.
    now subst.
  - split.
    + apply NoDup_app; [exact Hnd | constructor; [intros []|constructor] |].
      intros y Hy [<-|[]].
      assert (Hex : existsb (String.eqb x) acc = true)
        by (apply existsb_exists; exists x; split; [exact Hy|apply String.eqb_refl]).
      congruence.
    + intros y. rewrite in_app_iff. simpl. intuition.
Qed.

Lemma Set_of_from (l acc : list string) :
  NoDup acc ->
  NoDup (fold_left Set_add l acc)
  /\ forall y, In y (fold_left Set_add l acc) <-> In y acc \/ In y l.
Proof.
  revert acc. induction l as [|x l IH]; intros acc Hnd; simpl.
  - split; [exact Hnd|]. intuition.
  - destruct (Set_add_spec acc x Hnd) as [Hnd' Hin'].
    destruct (IH _ Hnd') as [Hnd'' Hin'']. split; [exact Hnd''|].
    intros y. rewrite Hin'', Hin'. intuition.
Qed.

Lemma Set_of_spec (l : list string) :
  NoDup (Set_of l) /\ forall y, In y (Set_of l) <-> In y l.
Proof.
  destruct (Set_of_from l [] (NoDup_nil _)) as [Hnd Hin].
  split; [exact Hnd|]. intros y. rewrite (Hin y). simpl. intuition.
Qed.

Lemma in_order_transitive (a b c : string) :
  Spec.in_order a b -> Spec.in_order b c -> Spec.in_order a c.
Proof.
  intros [Hab| ->] [Hbc| ->]; try (now left); try (now right).
  left. apply OrderedTypeEx.String_as_OT.cmp_lt.
  apply OrderedTypeEx.String_as_OT.cmp_lt in Hab, Hbc.
  eapply OrderedTypeEx.String_as_OT.lt_trans; eassumption.
Qed.

Lemma default_compare_decides (a b : string) :
  if gt (default_compare a b) zero then Spec.in_order b a else Spec.in_order a b.
Proof.
  unfold default_compare, Spec.in_order.
  destruct (String.compare a b) eqn:E.
  - simpl. right. now apply String.compare_eq_iff.
  - simpl. now left.
  - change (gt (of_Z 1) zero) with true. cbv iota.
    left. rewrite String.compare_antisym, E. reflexivity.
Qed.

End SubjectOptions.

(** X14.  The options of the subject filter are [All] followed by the
    subjects of the syllabus list and of the stored tests ([Unknown] for
    a test without subject), each once, in ascending order of their code
    units. *)
Theorem subject_options_sorted_without_duplicates :
  forall tests : list Tracker.entry,
    exists options : list string,
      Tracker.subjects tests = "All" :: options
      /\ NoDup options
      /\ (forall s : string,
             In s options <->
             In s Tracker.ECE_SUBJECTS
             \/ exists t, In t tests /\ or_default (Tracker.subject t) "Unknown" = s)
      /\ StronglySorted (fun a b => String.compare a b = Lt) options.
Proof.
  intros tests.
  set (named := map (fun t => or_default (Tracker.subject t) "Unknown") tests).
  set (all := Tracker.Set_of (Tracker.Set_of named ++ Tracker.ECE_SUBJECTS)).
  exists (sort Tracker.default_compare all).
  destruct (Set_of_spec named) as [_ Hnamed].
  destruct (Set_of_spec (Tracker.Set_of named ++ Tracker.ECE_SUBJECTS))
    as [Hnd Hall]. fold all in Hnd, Hall.
  pose proof (sort_perm Tracker.default_compare all) as Hperm.
  assert (Hnd' : NoDup (sort Tracker.default_compare all))
    by (apply (Permutation_NoDup (Permutation_sym Hperm)); exact Hnd).
  split; [reflexivity|]. split; [exact Hnd'|]. split.
  - intros s. rewrite sort_In, Hall, in_app_iff, Hnamed. unfold named.
    rewrite in_map_iff. split.
    + intros [(t & Ht & Hin)|H]; [right; eauto | now left].
    + intros [H|(t & Hin & Ht)]; [now right | left; eauto].
  - assert (Hs : StronglySorted Spec.in_order (sort Tracker.default_compare all)).
    { apply (sort_sorted Tracker.default_compare (fun _ => True) Spec.in_order).
      - intros a b _ _. apply default_compare_decides.
      - apply in_order_transitive.
      - apply Forall_forall. trivial. }
    clear - Hs Hnd'.
    induction Hs as [|a l Hs IH Ha]; [constructor|].
    inversion Hnd' as [|? ? Hnot Hl]; subst.
    constructor; [now apply IH|].
    rewrite Forall_forall in *. intros b Hb.
    destruct (Ha b Hb) as [Hlt| ->]; [exact Hlt | contradiction].
Qed.

(* ------------------------------------------------------------------ *)
(** ** The chart series *)

Lemma StronglySorted_map {A B : Type} (R : B -> B -> Prop) (f : A -> B) (l : list A) :
  StronglySorted (fun a b => R (f a) (f b)) l -> StronglySorted R (map f l).
Proof.
  induction 1 as [|a l Hs IH Ha]; simpl; constructor; [exact IH|].
  rewrite Forall_forall in *. intros b Hb.
  apply in_map_iff in Hb as (x & <- & Hx). now apply Ha.
Qed.

Section ChartFacts.
Import Tracker.
Variable DateTime : string -> number.

Lemma oldest_first_sorted (l : list entry) :
  Forall (Spec.dated DateTime) l ->
  StronglySorted (fun a b => Spec.not_older DateTime b a)
                 (sort (oldest_first DateTime) l).
Proof.
  intros Hd.
  apply (sort_sorted (oldest_first DateTime) (Spec.dated DateTime)
                     (fun a b => Spec.not_older DateTime b a)).
  - intros a b Da Db.
    pose proof (oldest_first_decides DateTime a b Da Db) as H.
    destruct (gt (oldest_first DateTime a b) zero); exact H.
  - intros a b c Hab Hbc. eapply not_older_transitive; eassumption.
  - exact Hd.
Qed.

End ChartFacts.

(** X15.  The overall trend shows one point for every filtered test, and
    the full-test trend one point for every filtered test of the
    categories [Multisubject Wise], [Full Length] and [Mock], and for no
    other.  With valid dates the points of both series run from the
    oldest date to the newest. *)
Theorem trend_series_run_oldest_first :
  forall (DateTime : string -> number) (filtered : list Tracker.entry),
    let point t :=
      Tracker.mkTrendPoint (Tracker.date t) (Tracker.percentage t)
        (Tracker.category t) (Tracker.subject t) (Tracker.provider t) in
    let full_point t :=
      Tracker.mkFullTestPoint (Tracker.date t) (Tracker.percentage t)
        (Tracker.category t) (Tracker.provider t) in
    let full t :=
      existsb (String.eqb (Tracker.category t)) Tracker.FULL_TEST_CATEGORIES in
    let trend := Tracker.overallTrendChartData DateTime filtered in
    let full_trend := Tracker.fullTestChartData DateTime filtered in
    Permutation trend (map point filtered)
    /\ List.length trend = Tracker.totalTests (Tracker.summary filtered)
    /\ Permutation full_trend (map full_point (filter full filtered))
    /\ (forall p, In p full_trend ->
                  In (Tracker.fp_category p) ["Multisubject Wise"; "Full Length"; "Mock"])
    /\ (Forall (Spec.dated DateTime) filtered ->
        StronglySorted
          (fun p q => at_most (DateTime (Tracker.tp_name p))
                              (DateTime (Tracker.tp_name q)))
          trend
        /\ StronglySorted
             (fun p q => at_most (DateTime (Tracker.fp_name p))
                                 (DateTime (Tracker.fp_name q)))
             full_trend).
Proof.
  intros DateTime filtered point full_point full trend full_trend.
  subst trend full_trend.
  unfold Tracker.overallTrendChartData, Tracker.fullTestChartData.
  fold point full_point full.
  split; [apply Permutation_map, sort_perm|].
  split.
  { rewrite length_map, (Permutation_length (sort_perm _ filtered)). reflexivity. }
  split; [apply Permutation_map, sort_perm|].
  split.
  { intros p Hp. apply in_map_iff in Hp as (t & <- & Ht).
    apply sort_In, filter_In in Ht as [_ Ht]. subst full. cbn [Tracker.fp_category full_point].
    apply existsb_exists in Ht as (c & Hc & Heq). apply String.eqb_eq in Heq.
    rewrite Heq. exact Hc. }
  intros Hd. split.
  - apply StronglySorted_map. exact (oldest_first_sorted DateTime filtered Hd).
  - apply StronglySorted_map.
    apply (oldest_first_sorted DateTime (filter full filtered)).
    apply Forall_forall. intros t Ht. apply filter_In in Ht as [Ht _].
    rewrite Forall_forall in Hd. now apply Hd.
Qed.

(** X16.  The rank chart shows exactly the filtered tests that carry a
    rank percentile, one point each, so that it has as many points as the
    summary counts ranked tests, and no point is without a percentile.
    With valid dates the points run from the oldest date to the newest. *)
Theorem rank_series_matches_ranked_count :
  forall (DateTime : string -> number) (filtered : list Tracker.entry),
    let ranked t := negb (Tracker.isNull (Tracker.rankPercentile t)) in
    let point t :=
      Tracker.mkRankPoint (Tracker.date t) (Tracker.rankPercentile t)
        (Tracker.category t) (Tracker.subject t) (Tracker.provider t) in
    let series := Tracker.rankChartData DateTime filtered in
    Permutation series (map point (filter ranked filtered))
    /\ List.length series = Tracker.rankedTestsCount (Tracker.summary filtered)
    /\ (forall p, In p series -> Tracker.rp_rankPercentile p <> None)
    /\ (series = [] <-> Tracker.avgRankPercentile (Tracker.summary filtered) = None)
    /\ (Forall (Spec.dated DateTime) filtered ->
        StronglySorted
          (fun p q => at_most (DateTime (Tracker.rp_name p))
                              (DateTime (Tracker.rp_name q)))
          series).
Proof.
  intros DateTime filtered ranked point series. subst series.
  unfold Tracker.rankChartData. fold ranked point.
  assert (Hlen : List.length (map point (sort (Tracker.oldest_first DateTime)
                                              (filter ranked filtered)))
                 = List.length (filter ranked filtered))
    by (rewrite length_map; apply Permutation_length, sort_perm).
  split; [apply Permutation_map, sort_perm|].
  split; [exact Hlen|].
  split.
  { intros p Hp. apply in_map_iff in Hp as (t & <- & Ht).
    apply sort_In, filter_In in Ht as [_ Ht]. subst ranked.
    cbn [Tracker.rp_rankPercentile point]. cbv beta in Ht.
    destruct (Tracker.rankPercentile t); [discriminate|discriminate Ht]. }
  split.
  { cbn [Tracker.summary Tracker.avgRankPercentile]. fold ranked.
    destruct (filter ranked filtered) as [|t l] eqn:E.
    - split; reflexivity.
    - split; [|discriminate]. intros H. rewrite H in Hlen. discriminate Hlen. }
  intros Hd. apply StronglySorted_map.
  apply (oldest_first_sorted DateTime (filter ranked filtered)).
  apply Forall_forall. intros t Ht. apply filter_In in Ht as [Ht _].
  rewrite Forall_forall in Hd. now apply Hd.
Qed.

(* ------------------------------------------------------------------ *)
(** ** Rows of the tabular export are unambiguous *)

Section RowFacts.
Import Tracker.

Local Open Scope string_scope.

Lemma append_assoc (a b c : string) : (a ++ b) ++ c = a ++ (b ++ c).
Proof. induction a as [|x a IH]; simpl; [reflexivity|now rewrite IH]. Qed.

Lemma append_empty (a : string) : a ++ EmptyString = a.
Proof. induction a as [|x a IH]; simpl; [reflexivity|now rewrite IH]. Qed.

Lemma read_plain (s acc rest : string) :
  Spec.needs_quoting s = false -> Spec.field_end rest ->
  Spec.read_row Spec.Unquoted acc (s ++ rest)
  = match rest with
    | EmptyString => [acc ++ s]
    | String _ r => (acc ++ s) :: Spec.read_row Spec.FieldStart EmptyString r
    end.
Proof.
  revert acc. induction s as [|c s IH]; intros acc Hs Hrest.
  - simpl. rewrite append_empty.
    destruct Hrest as [->|(r & ->)]; [reflexivity|].
    cbn [Spec.read_row]. now rewrite Ascii.eqb_refl.
  - unfold Spec.needs_quoting in Hs. cbn [list_ascii_of_string existsb] in Hs.
    apply orb_false_iff in Hs as [Hc Hs].
    apply orb_false_iff in Hc as [Hc _]. apply orb_false_iff in Hc as [Hc _].
    cbn [append Spec.read_row]. rewrite Hc.
    rewrite (IH (acc ++ str c) Hs Hrest).
    unfold str. rewrite append_assoc. reflexivity.
Qed.

Lemma read_quoted (s acc rest : string) :
  Spec.read_row Spec.Quoted acc (double_quotes s ++ String quote rest)
  = Spec.read_row Spec.QuoteSeen (acc ++ s) rest.
Proof.
  revert acc. induction s as [|c s IH]; intros acc.
  - cbn [double_quotes append Spec.read_row]. rewrite Ascii.eqb_refl, append_empty. reflexivity.
  - cbn [double_quotes]. destruct (Ascii.eqb c quote) eqn:Hc.
    + apply Ascii.eqb_eq in Hc. subst c.
      cbn [append Spec.read_row]. rewrite !Ascii.eqb_refl.
      rewrite IH. unfold str. rewrite append_assoc. reflexivity.
    + cbn [append Spec.read_row]. rewrite Hc.
      rewrite IH. unfold str. rewrite append_assoc. reflexivity.
Qed.

Lemma read_escaped (s rest : string) :
  Spec.field_end rest ->
  Spec.read_row Spec.FieldStart EmptyString (Spec.escaped s ++ rest)
  = match rest with
    | EmptyString => [s]
    | String _ r => s :: Spec.read_row Spec.FieldStart EmptyString r
    end.
Proof.
  intros Hrest. unfold Spec.escaped. destruct (Spec.needs_quoting s) eqn:Hs.
  - unfold str. cbn [append Spec.read_row]. rewrite Ascii.eqb_refl.
    rewrite append_assoc. cbn [append]. rewrite read_quoted. cbn [append].
    destruct Hrest as [->|(r & ->)]; [reflexivity|].
    cbn [Spec.read_row]. now rewrite Ascii.eqb_refl.
  - destruct s as [|c s].
    + destruct Hrest as [->|(r & ->)]; [reflexivity|].
      cbn. reflexivity.
    + pose proof Hs as Hs'.
      unfold Spec.needs_quoting in Hs. cbn [list_ascii_of_string existsb] in Hs.
      apply orb_false_iff in Hs as [Hc Hs].
      apply orb_false_iff in Hc as [Hc Hq]. apply orb_false_iff in Hc as [Hc _].
      cbn [append Spec.read_row]. rewrite Hq, Hc.
      exact (read_plain s (str c) rest Hs Hrest).
Qed.

Lemma read_joined (x : string) (l : list string) :
  Spec.read_row Spec.FieldStart EmptyString
                (join (str comma) (map Spec.escaped (x :: l)))
  = x :: l.
Proof.
  revert x. induction l as [|y l IH]; intros x.
  - cbn [map join concat].
    rewrite <- (append_empty (Spec.escaped x)).
    apply (read_escaped x EmptyString). now left.
  - change (join (str comma) (map Spec.escaped (x :: y :: l)))
      with (Spec.escaped x ++ String comma (join (str comma) (map Spec.escaped (y :: l)))).
    rewrite (read_escaped x (String comma _)) by (right; eauto).
    now rewrite IH.
Qed.

Section WithPrinter.
Variable NumberToString : number -> string.

Lemma csvEscape_escaped (v : csv_value) :
  csvEscape NumberToString v = Spec.escaped (Spec.cell_text NumberToString v).
Proof.
  unfold Spec.escaped. destruct v as [|x|s]; cbn [csvEscape Spec.cell_text].
  - reflexivity.
  - now rewrite needs_quoting_includes.
  - now rewrite needs_quoting_includes.
Qed.

Lemma read_csv_row (t : entry) :
  Spec.read_row Spec.FieldStart EmptyString (csv_row NumberToString t)
  = map (Spec.cell_text NumberToString) (csv_cells t).
Proof.
  unfold csv_row.
  rewrite (map_ext _ _ csvEscape_escaped), <- map_map.
  assert (E : exists x l, map (Spec.cell_text NumberToString) (csv_cells t) = x :: l)
    by (eexists; eexists; reflexivity).
  destruct E as (x & l & ->). apply read_joined.
Qed.

End WithPrinter.
End RowFacts.


(** X17.  The tabular export loses nothing of a text by escaping it: two
    texts with the same escaped cell are the same text, and two entries
    with the same row agree in the text of every cell, so in subject,
    category, provider, date and notes and in the numerals of their
    marks and percentage. *)
Theorem csv_row_determines_cells :
  forall (NumberToString : number -> string) (t t' : Tracker.entry),
    Tracker.csv_row NumberToString t = Tracker.csv_row NumberToString t' ->
    map (Spec.cell_text NumberToString) (Tracker.csv_cells t)
    = map (Spec.cell_text NumberToString) (Tracker.csv_cells t')
    /\ Tracker.subject t = Tracker.subject t'
    /\ Tracker.category t = Tracker.category t'
    /\ Tracker.provider t = Tracker.provider t'
    /\ NumberToString (Tracker.maxMarks t) = NumberToString (Tracker.maxMarks t')
    /\ NumberToString (Tracker.obtainedMarks t)
       = NumberToString (Tracker.obtainedMarks t')
    /\ NumberToString (Tracker.percentage t) = NumberToString (Tracker.percentage t')
    /\ Tracker.date t = Tracker.date t'
    /\ Tracker.notes t = Tracker.notes t'
    /\ (forall s s' : string,
           Tracker.csvEscape NumberToString (Tracker.CsvText s)
           = Tracker.csvEscape NumberToString (Tracker.CsvText s') ->
           s = s').
Proof.
  intros NumberToString t t' Hrow.
  assert (Hcells : map (Spec.cell_text NumberToString) (Tracker.csv_cells t)
                   = map (Spec.cell_text NumberToString) (Tracker.csv_cells t'))
    by (rewrite <- !read_csv_row; now rewrite Hrow).
  split; [exact Hcells|].
  cbn [Tracker.csv_cells map Spec.cell_text] in Hcells.
  injection Hcells as Hs Hc Hp Hm Ho _ _ _ Hpc _ _ _ Hd Hn.
  repeat (split; [assumption|]).
  intros s s' Hesc. rewrite !csvEscape_escaped in Hesc.
  cbn [Spec.cell_text] in Hesc.
  pose proof (read_joined s []) as Hr. pose proof (read_joined s' []) as Hr'.
  cbn [map join concat] in Hr, Hr'. rewrite Hesc in Hr. rewrite Hr' in Hr.
  now injection Hr.
Qed.

Lemma csv_row_determines_cells_witness :
  exists t : Tracker.entry,
    In t (Tracker.tests Samples.state_counted)
    /\ t <> Spec.without_zeros t
    /\ Tracker.csv_row Host.NumberToString t
       = Tracker.csv_row Host.NumberToString (Spec.without_zeros t)
    /\ Tracker.notes t = Tracker.notes (Spec.without_zeros t)
    /\ Tracker.date t = Tracker.date (Spec.without_zeros t).
Proof.
  destruct (Tracker.tests Samples.state_counted) as [|t l] eqn:E;
    [vm_compute in E; discriminate E|].
  exists t. split; [now left|].
  vm_compute in E. injection E as <- _.
  assert (Hrow : Tracker.csv_row Host.NumberToString
                   (Tracker.mkEntry "t1" "Control Systems" "Topic Wise" "Ace Academy"
                      (of_Z 30) Samples.n22_5 (of_Z 75)
                      (Some (of_Z 20)) (Some zero) (Some (of_Z 10))
                      None None None "2024-03-01" EmptyString)
                 = Tracker.csv_row Host.NumberToString
                     (Spec.without_zeros
                        (Tracker.mkEntry "t1" "Control Systems" "Topic Wise"
                           "Ace Academy" (of_Z 30) Samples.n22_5 (of_Z 75)
                           (Some (of_Z 20)) (Some zero) (Some (of_Z 10))
                           None None None "2024-03-01" EmptyString)))
    by (vm_compute; reflexivity).
  split; [vm_compute; discriminate|]. split; [exact Hrow|].
  destruct (csv_row_determines_cells Host.NumberToString _ _ Hrow)
    as (_ & _ & _ & _ & _ & _ & _ & Hd & Hn & _).
  split; [exact Hn | exact Hd].
Defined.

(* ------------------------------------------------------------------ *)
(** ** Requests with retries *)

Section RetryFacts.
Import Tracker.
Variable network : nat -> settled.
Variable maxRetries : nat.

Lemma fails_attempt (s : settled) :
  Spec.fails s -> exists e, attempt s = inl e.
Proof.
  destruct s as [reason|r]; simpl; intros H; [eauto|]. rewrite H. eauto.
Qed.

Lemma calls_app (a b : list step) : Spec.calls (a ++ b) = (Spec.calls a + Spec.calls b)%nat.
Proof. unfold Spec.calls. now rewrite filter_app, length_app. Qed.

Lemma waited_app (a b : list step) :
  Spec.waited (a ++ b) = (Spec.waited a + Spec.waited b)%Z.
Proof.
  induction a as [|[|d] a IH]; simpl; [reflexivity|exact IH|]. rewrite IH. lia.
Qed.

Lemma two_power_succ (i : nat) : (2 ^ Z.of_nat (S i) = 2 * 2 ^ Z.of_nat i)%Z.
Proof. rewrite Nat2Z.inj_succ, Z.pow_succ_r by lia. reflexivity. Qed.

(** Every remaining attempt fails. *)
Lemma retry_exhausted (remaining i : nat) (error : option caught) :
  (i + remaining = maxRetries)%nat ->
  (forall j, (i <= j < maxRetries)%nat -> Spec.fails (network j)) ->
  let (steps, outcome) := retry network maxRetries remaining i error in
  outcome = inl (match remaining with
                 | O => error
                 | S _ => match attempt (network (maxRetries - 1)) with
                          | inl e => Some e
                          | inr _ => None
                          end
                 end)
  /\ Spec.calls steps = remaining
  /\ Spec.waited steps
     = match remaining with
       | O => 0%Z
       | S _ => (1000 * (2 ^ Z.of_nat (maxRetries - 1) - 2 ^ Z.of_nat i))%Z
       end.
Proof.
  revert i error. induction remaining as [|remaining IH]; intros i error Hi Hfail.
  - simpl. auto.
  - cbn [retry].
    destruct (fails_attempt _ (Hfail i ltac:(lia))) as (e & He). rewrite He.
    specialize (IH (S i) (Some e) ltac:(lia) ltac:(intros j Hj; apply Hfail; lia)).
    destruct (retry network maxRetries remaining (S i) (Some e)) as [steps outcome].
    destruct IH as (Hout & Hcalls & Hwait).
    destruct remaining as [|remaining].
    + assert (Hlast : (i = maxRetries - 1)%nat) by lia.
      assert (Hnot : (i <? maxRetries - 1)%nat = false) by (apply Nat.ltb_ge; lia).
      rewrite Hnot, Hout. cbn [app]. rewrite <- Hlast, He.
      split; [reflexivity|]. split.
      * unfold Spec.calls in *. simpl. now rewrite Hcalls.
      * cbn [Spec.waited fold_right]. fold (Spec.waited steps). rewrite Hwait. lia.
    + assert (Hlt : (i <? maxRetries - 1)%nat = true) by (apply Nat.ltb_lt; lia).
      rewrite Hlt, Hout. split; [reflexivity|]. split.
      * unfold Spec.calls in *. simpl. now rewrite Hcalls.
      * cbn [Spec.waited fold_right app]. fold (Spec.waited steps).
        rewrite Hwait, two_power_succ. lia.
Qed.

(** The attempt [k] is the first that succeeds. *)
Lemma retry_succeeds (k : nat) (r : response) (remaining i : nat)
      (error : option caught) :
  (i + remaining = maxRetries)%nat -> (i <= k < maxRetries)%nat ->
  (forall j, (i <= j < k)%nat -> Spec.fails (network j)) ->
  attempt (network k) = inr r ->
  let (steps, outcome) := retry network maxRetries remaining i error in
  outcome = inr r
  /\ Spec.calls steps = (k - i + 1)%nat
  /\ Spec.waited steps = (1000 * (2 ^ Z.of_nat k - 2 ^ Z.of_nat i))%Z.
Proof.
  revert i error. induction remaining as [|remaining IH];
    intros i error Hi Hk Hfail Hok; [lia|].
  cbn [retry].
  destruct (Nat.eq_dec i k) as [->|Hne].
  - rewrite Hok. split; [reflexivity|]. split.
    + unfold Spec.calls. simpl. lia.
    + cbn [Spec.waited fold_right]. lia.
  - destruct (fails_attempt _ (Hfail i ltac:(lia))) as (e & He). rewrite He.
    specialize (IH (S i) (Some e) ltac:(lia) ltac:(lia)
                   ltac:(intros j Hj; apply Hfail; lia) Hok).
    destruct (retry network maxRetries remaining (S i) (Some e)) as [steps outcome].
    destruct IH as (Hout & Hcalls & Hwait).
    assert (Hlt : (i <? maxRetries - 1)%nat = true) by (apply Nat.ltb_lt; lia).
    rewrite Hlt, Hout. split; [reflexivity|]. split.
    + unfold Spec.calls in *. simpl. rewrite Hcalls. lia.
    + cbn [Spec.waited fold_right app]. fold (Spec.waited steps).
      rewrite Hwait, two_power_succ. lia.
Qed.

End RetryFacts.

(** X18.  [fetchWithRetry] returns the first response that is [ok]: when
    the call number [k] (counted from 0, below [maxRetries]) is the first
    that is answered by such a response, that response is returned after
    [k + 1] calls of [fetch], and the function has waited
    [1000 * (2^k - 1)] milliseconds in all, the delays doubling from one
    second on. *)
Theorem fetchWithRetry_returns_first_ok_response :
  forall (network : nat -> Tracker.settled) (maxRetries k : nat)
         (r : Tracker.response),
    (k < maxRetries)%nat ->
    (forall j, (j < k)%nat -> Spec.fails (network j)) ->
    network k = Tracker.Resolves r -> Tracker.ok r = true ->
    let (steps, outcome) := Tracker.fetchWithRetry network maxRetries in
    outcome = inr r
    /\ Spec.calls steps = S k
    /\ Spec.waited steps = (1000 * (2 ^ Z.of_nat k - 1))%Z.
Proof.
  intros network maxRetries k r Hk Hfail Hnet Hok.
  assert (Hat : Tracker.attempt (network k) = inr r)
    by (rewrite Hnet; simpl; now rewrite Hok).
  pose proof (retry_succeeds network maxRetries k r maxRetries 0 None
                eq_refl ltac:(lia) ltac:(intros j Hj; apply Hfail; lia) Hat) as H.
  unfold Tracker.fetchWithRetry.
  destruct (Tracker.retry network maxRetries maxRetries 0 None) as [steps outcome].
  destruct H as (Hout & Hcalls & Hwait).
  split; [exact Hout|]. split; [rewrite Hcalls; lia|].
  rewrite Hwait. simpl. lia.
Qed.

Lemma fetchWithRetry_returns_first_ok_response_witness :
  let network (i : nat) :=
    match i with
    | 0%nat => Tracker.Rejects "Failed to fetch"
    | 1%nat => Tracker.Resolves (Tracker.mkResponse false 503 None)
    | _ => Tracker.Resolves (Tracker.mkResponse true 200 None)
    end in
  Tracker.fetchWithRetry network 3
  = ([Tracker.Fetch; Tracker.Wait 1000; Tracker.Fetch; Tracker.Wait 2000;
      Tracker.Fetch],
     inr (Tracker.mkResponse true 200 None))
  /\ Spec.waited (fst (Tracker.fetchWithRetry network 3)) = 3000%Z.
Proof.
  intros network. split; [reflexivity|].
  assert (Hfail : forall j, (j < 2)%nat -> Spec.fails (network j)).
  { intros [|[|j]] Hj; simpl; [exact I | reflexivity | lia]. }
  pose proof (fetchWithRetry_returns_first_ok_response network 3 2
                (Tracker.mkResponse true 200 None) ltac:(lia) Hfail
                eq_refl eq_refl) as H.
  destruct (Tracker.fetchWithRetry network 3) as [steps outcome].
  destruct H as (_ & _ & Hwait). exact Hwait.
Defined.

(** X19.  When every one of the [maxRetries] calls of [fetch] is rejected
    or answered by a response that is not [ok], [fetchWithRetry] throws
    what the last attempt raised, after exactly [maxRetries] calls and
    with no delay after the last of them: it has waited
    [1000 * (2^(maxRetries - 1) - 1)] milliseconds.  With [maxRetries]
    being [0] it throws [null] without a call. *)
Theorem fetchWithRetry_gives_up_after_maxRetries :
  forall (network : nat -> Tracker.settled) (maxRetries : nat),
    (forall j, (j < maxRetries)%nat -> Spec.fails (network j)) ->
    let (steps, outcome) := Tracker.fetchWithRetry network maxRetries in
    outcome
    = inl (match maxRetries with
           | O => None
           | S last =>
               match network last with
               | Tracker.Rejects reason => Some (Tracker.Rejection reason)
               | Tracker.Resolves r =>
                   Some (Tracker.HttpError (Tracker.errorMessage_of r))
               end
           end)
    /\ Spec.calls steps = maxRetries
    /\ Spec.waited steps
       = match maxRetries with
         | O => 0%Z
         | S last => (1000 * (2 ^ Z.of_nat last - 1))%Z
         end.
Proof.
  intros network maxRetries Hfail.
  pose proof (retry_exhausted network maxRetries maxRetries 0 None eq_refl
                ltac:(intros j Hj; apply Hfail; lia)) as H.
  unfold Tracker.fetchWithRetry.
  destruct (Tracker.retry network maxRetries maxRetries 0 None) as [steps outcome].
  destruct H as (Hout & Hcalls & Hwait).
  split; [|split; [exact Hcalls|]].
  - rewrite Hout. destruct maxRetries as [|last]; [reflexivity|].
    replace (S last - 1)%nat with last by lia.
    pose proof (Hfail last ltac:(lia)) as Hlast.
    destruct (network last) as [reason|r]; simpl in *; [reflexivity|].
    now rewrite Hlast.
  - rewrite Hwait. destruct maxRetries as [|last]; [reflexivity|].
    replace (S last - 1)%nat with last by lia. simpl. lia.
Qed.

Lemma fetchWithRetry_gives_up_after_maxRetries_witness :
  let network (i : nat) := Tracker.Resolves (Tracker.mkResponse false 429 None) in
  Tracker.fetchWithRetry network 3
  = ([Tracker.Fetch; Tracker.Wait 1000; Tracker.Fetch; Tracker.Wait 2000;
      Tracker.Fetch],
     inl (Some (Tracker.HttpError "HTTP error! status: 429")))
  /\ Spec.calls (fst (Tracker.fetchWithRetry network 3)) = 3%nat.
Proof.
  intros network. split; [reflexivity|].
  pose proof (fetchWithRetry_gives_up_after_maxRetries network 3
                ltac:(intros j _; reflexivity)) as H.
  destruct (Tracker.fetchWithRetry network 3) as [steps outcome].
  destruct H as (_ & Hcalls & _). exact Hcalls.
Defined.

(* ------------------------------------------------------------------ *)
(** ** The study planner of the cloud tracker *)

(** X20.  Toggling a goal twice gives back the plan as it was.  A toggle
    changes nothing but the completion of the goals with the given id:
    ids, texts, subjects and the order stay.  Every goal is listed as
    pending or as completed and never as both, and a pending goal with
    the toggled id is completed afterwards. *)
Theorem toggleGoal_twice_restores :
  forall (i : number) (p : CloudTracker.study_plan),
    let p' := CloudTracker.toggleGoal i p in
    CloudTracker.toggleGoal i p' = p
    /\ map CloudTracker.goal_id (CloudTracker.goals p')
       = map CloudTracker.goal_id (CloudTracker.goals p)
    /\ map CloudTracker.goal_text (CloudTracker.goals p')
       = map CloudTracker.goal_text (CloudTracker.goals p)
    /\ map CloudTracker.goal_subject (CloudTracker.goals p')
       = map CloudTracker.goal_subject (CloudTracker.goals p)
    /\ Permutation (CloudTracker.pendingGoals p ++ CloudTracker.completedGoals p)
                   (CloudTracker.goals p)
    /\ (forall g, In g (CloudTracker.pendingGoals p) ->
                  ~ In g (CloudTracker.completedGoals p))
    /\ (forall g, In g (CloudTracker.pendingGoals p) ->
                  SFeqb (CloudTracker.goal_id g) i = true ->
                  In (CloudTracker.mkGoal (CloudTracker.goal_id g)
                        (CloudTracker.goal_text g) (CloudTracker.goal_subject g) true)
                     (CloudTracker.completedGoals p'))
    /\ (forall g, In g (CloudTracker.goals p) ->
                  SFeqb (CloudTracker.goal_id g) i = false ->
                  In g (CloudTracker.goals p')).
Proof.
  intros i [gs text subject] p'. subst p'.
  unfold CloudTracker.toggleGoal, CloudTracker.pendingGoals,
    CloudTracker.completedGoals.
  cbn [CloudTracker.goals CloudTracker.newGoal CloudTracker.newSubject].
  split; [|split; [|split; [|split; [|split; [|split; [|split]]]]]].
  - f_equal. rewrite map_map. rewrite <- (map_id gs) at 2.
    apply map_ext. intros [gi gt gsub gc]. cbn.
    destruct (SFeqb gi i) eqn:E; cbn; [|now rewrite E].
    now rewrite E, negb_involutive.
  - rewrite map_map. apply map_ext. intros g. now destruct (SFeqb _ i).
  - rewrite map_map. apply map_ext. intros g. now destruct (SFeqb _ i).
  - rewrite map_map. apply map_ext. intros g. now destruct (SFeqb _ i).
  - induction gs as [|g gs IH]; simpl; [constructor|].
    destruct (CloudTracker.completed g); simpl.
    + apply Permutation_sym, Permutation_cons_app, Permutation_sym, IH.
    + now constructor.
  - intros g Hp Hc. apply filter_In in Hp as [_ Hp], Hc as [_ Hc].
    rewrite Hc in Hp. discriminate Hp.
  - intros g Hp Hid. apply filter_In in Hp as [Hin Hp].
    apply negb_true_iff in Hp. apply filter_In. split; [|reflexivity].
    apply in_map_iff. exists g. split; [|exact Hin]. now rewrite Hid, Hp.
  - intros g Hin Hid. apply in_map_iff. exists g. split; [|exact Hin].
    now rewrite Hid.
Qed.

(** X21.  [addGoal] ignores a text that is empty once trimmed: the plan
    stays as it is.  Any other text adds one goal, behind the goals
    there are: it carries the trimmed text and the chosen subject, it is
    pending, the completed goals are untouched, and the input is
    cleared. *)
Theorem addGoal_appends_a_pending_goal :
  forall (trim : string -> string) (now : number) (p : CloudTracker.study_plan),
    let p' := CloudTracker.addGoal trim now p in
    let added :=
      CloudTracker.mkGoal now (trim (CloudTracker.newGoal p))
                          (CloudTracker.newSubject p) false in
    (trim (CloudTracker.newGoal p) = EmptyString -> p' = p)
    /\ (trim (CloudTracker.newGoal p) <> EmptyString ->
        CloudTracker.goals p' = CloudTracker.goals p ++ [added]
        /\ CloudTracker.pendingGoals p' = CloudTracker.pendingGoals p ++ [added]
        /\ CloudTracker.completedGoals p' = CloudTracker.completedGoals p
        /\ CloudTracker.newGoal p' = EmptyString
        /\ CloudTracker.newSubject p' = CloudTracker.newSubject p).
Proof.
  intros trim now p p' added. subst p' added. unfold CloudTracker.addGoal.
  split.
  - intros ->. reflexivity.
  - intros Hne. apply String.eqb_neq in Hne. rewrite Hne. cbn [negb].
    unfold CloudTracker.pendingGoals, CloudTracker.completedGoals.
    cbn [CloudTracker.goals CloudTracker.newGoal CloudTracker.newSubject].
    rewrite !filter_app. cbn. rewrite app_nil_r. repeat split.
Qed.

(* ------------------------------------------------------------------ *)
(** ** The entry form and the history of the cloud tracker *)

Section CloudFacts.
Import CloudTracker.

Lemma parseFloat_entered (x : number) :
  parseFloat (Entered x) = x \/ parseFloat (Entered x) = zero.
Proof. destruct x; simpl; auto. Qed.

Lemma ge_zero_zero : ge zero zero = true.
Proof. reflexivity. Qed.

Lemma unattempted_not_negative (NumberToString : number -> string)
      (formData : form_data) :
  ge (unattempted (stats NumberToString formData)) zero = true.
Proof.
  unfold stats. cbn [unattempted].
  match goal with
  | |- ge (if ?c then _ else _) _ = _ => destruct c eqn:E
  end; [exact E | reflexivity].
Qed.

Lemma gt_zero_sign (s : bool) (y : number) : gt (S754_zero s) y = gt zero y.
Proof. destruct y as [sy|sy| |sy my ey], s; reflexivity. Qed.

Lemma parseFloat_gt (x y : number) : gt (parseFloat (Entered x)) y = gt x y.
Proof.
  destruct x as [s|s| |s m e]; reflexivity.
Qed.

Lemma parseFloat_or_zero_number (v : field) :
  isNaN (parseFloat v) = false -> parseFloat_or_zero v = parseFloat v.
Proof.
  destruct v as [|x]; [discriminate|].
  destruct x as [s|s| |s m e]; try reflexivity. discriminate.
Qed.

Lemma StronglySorted_filter {A : Type} (R : A -> A -> Prop) (f : A -> bool)
      (l : list A) :
  StronglySorted R l -> StronglySorted R (filter f l).
Proof.
  induction 1 as [|a l Hs IH Ha]; simpl; [constructor|].
  destruct (f a); [|exact IH]. constructor; [exact IH|].
  rewrite Forall_forall in *. intros b Hb. apply filter_In in Hb as [Hb _].
  now apply Ha.
Qed.

Lemma StronglySorted_rev {A : Type} (R : A -> A -> Prop) (l : list A) :
  StronglySorted R l -> StronglySorted (fun a b => R b a) (rev l).
Proof.
  induction 1 as [|a l Hs IH Ha]; simpl; [constructor|].
  assert (Happ : forall l', StronglySorted (fun a b => R b a) l' ->
                            Forall (fun b => R a b) l' ->
                            StronglySorted (fun a b => R b a) (l' ++ [a])).
  { induction l' as [|b l' IH']; simpl; intros Hs' Hall.
    - constructor; constructor.
    - inversion Hs' as [|? ? Hs'' Hb]; subst.
      inversion Hall as [|? ? Hab Hall']; subst.
      constructor; [now apply IH'|].
      apply Forall_app. split; [exact Hb|]. constructor; [exact Hab|constructor]. }
  apply Happ; [exact IH|].
  rewrite Forall_forall in *. intros b Hb. apply Ha. now apply in_rev.
Qed.

End CloudFacts.

(** X22.  The number of unattempted questions the entry form shows is
    never negative and never [NaN]: a negative or undefined difference is
    shown as [0].  While the attempted count is not positive, as for the
    empty form, the accuracy shown is [0.0]. *)
Theorem shown_stats_stay_in_range :
  forall (NumberToString : number -> string) (formData : CloudTracker.form_data),
    let shown := CloudTracker.stats NumberToString formData in
    let attempted :=
      add (Spec.reading (CloudTracker.correct formData) zero)
          (Spec.reading (CloudTracker.wrong formData) zero) in
    ge (CloudTracker.unattempted shown) zero = true
    /\ isNaN (CloudTracker.unattempted shown) = false
    /\ (gt attempted zero = false -> CloudTracker.accuracy shown = "0.0")
    /\ (CloudTracker.correct formData = CloudTracker.Blank ->
        CloudTracker.wrong formData = CloudTracker.Blank ->
        let questions :=
          Spec.reading (CloudTracker.totalQuestions formData) (of_Z 65) in
        CloudTracker.accuracy shown = "0.0"
        /\ (ge questions zero = true -> CloudTracker.unattempted shown = questions)).
Proof.
  intros NumberToString formData shown attempted. subst shown attempted.
  pose proof (unattempted_not_negative NumberToString formData) as Hge.
  split; [exact Hge|]. split.
  { destruct (CloudTracker.unattempted (CloudTracker.stats NumberToString formData));
      [reflexivity | reflexivity | discriminate Hge | reflexivity]. }
  assert (Hread : forall v d, or_else (CloudTracker.parseFloat v) d = Spec.reading v d).
  { intros [|x] d; [reflexivity|]. destruct x; reflexivity. }
  split.
  - intros Hnone. unfold CloudTracker.stats. cbn [CloudTracker.accuracy].
    rewrite !Hread, Hnone. reflexivity.
  - intros Hc Hw. unfold CloudTracker.stats.
    cbn [CloudTracker.accuracy CloudTracker.unattempted].
    rewrite !Hread, Hc, Hw. cbn [Spec.reading].
    change (add zero zero) with zero. change (gt zero zero) with false.
    cbv iota. split; [reflexivity|].
    destruct (Spec.reading (CloudTracker.totalQuestions formData) (of_Z 65))
      as [s|s| |s m e]; try destruct s; try reflexivity; discriminate.
Qed.

(** X23.  The entry form hands a test to the database only when the
    database is ready, the provider, the date and the six essential
    numeric fields are filled in, the attempted questions do not exceed
    the total and the marks obtained do not exceed the total marks.  The
    test carries the provider, the test type and the date of the form,
    its name or, when that is empty, the test type followed by [ Test],
    the number of questions and the total marks as the form holds them,
    the six essential numbers as they were entered ([-0] read as [0]),
    the time taken ([0] for a blank, zero or invalid field), the accuracy
    read from the text the form shows, and the unattempted count the
    form shows, which is neither negative nor [NaN]; a form that is
    turned down yields one of the four messages. *)
Theorem cloud_submission_is_checked :
  forall (NumberToString : number -> string) (parseFloat_text : string -> number)
         (db_ready : bool) (formData : CloudTracker.entry_form),
    match CloudTracker.test_of_form NumberToString parseFloat_text db_ready formData with
    | inr t =>
        db_ready = true
        /\ nonempty (CloudTracker.nt_platform t) = true
        /\ nonempty (CloudTracker.nt_date t) = true
        /\ nonempty (CloudTracker.nt_testName t) = true
        /\ Forall (fun v => v <> CloudTracker.Blank)
                  [CloudTracker.ef_marksObtained formData;
                   CloudTracker.ef_rank formData;
                   CloudTracker.ef_totalStudents formData;
                   CloudTracker.ef_correct formData;
                   CloudTracker.ef_wrong formData;
                   CloudTracker.ef_negativeMarks formData]
        /\ (isNaN (CloudTracker.nt_correct t) = false ->
            isNaN (CloudTracker.nt_incorrect t) = false ->
            gt (add (CloudTracker.nt_correct t) (CloudTracker.nt_incorrect t))
               (CloudTracker.ToNumber (CloudTracker.nt_totalQuestions t)) = false)
        /\ gt (CloudTracker.nt_marks t)
              (CloudTracker.ToNumber (CloudTracker.nt_totalMarks t)) = false
        /\ ge (CloudTracker.nt_unattempted t) zero = true
        /\ CloudTracker.nt_correct t
           = CloudTracker.parseFloat (CloudTracker.ef_correct formData)
        /\ CloudTracker.nt_incorrect t
           = CloudTracker.parseFloat (CloudTracker.ef_wrong formData)
        /\ CloudTracker.nt_marks t
           = CloudTracker.parseFloat (CloudTracker.ef_marksObtained formData)
        /\ (exists marks rank students correct wrong negative : number,
               CloudTracker.ef_marksObtained formData = CloudTracker.Entered marks
               /\ CloudTracker.ef_rank formData = CloudTracker.Entered rank
               /\ CloudTracker.ef_totalStudents formData
                  = CloudTracker.Entered students
               /\ CloudTracker.ef_correct formData = CloudTracker.Entered correct
               /\ CloudTracker.ef_wrong formData = CloudTracker.Entered wrong
               /\ CloudTracker.ef_negativeMarks formData
                  = CloudTracker.Entered negative
               /\ CloudTracker.nt_marks t = Spec.unsigned_zero marks
               /\ CloudTracker.nt_rank t = Spec.unsigned_zero rank
               /\ CloudTracker.nt_totalStudents t = Spec.unsigned_zero students
               /\ CloudTracker.nt_correct t = Spec.unsigned_zero correct
               /\ CloudTracker.nt_incorrect t = Spec.unsigned_zero wrong
               /\ CloudTracker.nt_negativeMarks t = Spec.unsigned_zero negative)
        /\ CloudTracker.nt_timeTaken t
           = Spec.reading (CloudTracker.ef_timeTaken formData) zero
        /\ CloudTracker.nt_platform t = CloudTracker.ef_provider formData
        /\ CloudTracker.nt_testType t = CloudTracker.ef_testType formData
        /\ CloudTracker.nt_date t = CloudTracker.ef_date formData
        /\ CloudTracker.nt_testName t
           = (if nonempty (CloudTracker.ef_testName formData)
              then CloudTracker.ef_testName formData
              else CloudTracker.ef_testType formData ++ " Test")%string
        /\ CloudTracker.nt_totalQuestions t = CloudTracker.ef_totalQuestions formData
        /\ CloudTracker.nt_totalMarks t = CloudTracker.ef_totalMarks formData
        /\ (let shown :=
              CloudTracker.stats NumberToString
                (CloudTracker.mkForm (CloudTracker.ef_correct formData)
                                     (CloudTracker.ef_wrong formData)
                                     (CloudTracker.ef_totalQuestions formData)) in
            CloudTracker.nt_unattempted t
            = Spec.unsigned_zero (CloudTracker.unattempted shown)
            /\ CloudTracker.nt_accuracy t
               = parseFloat_text (CloudTracker.accuracy shown))
    | inl msg =>
        In msg
           ["Database connection not ready.";
            "Please fill in all essential fields: Provider, Date, Marks, Rank, Total Takers, Correct, Wrong, and Negative Marks.";
            "Data mismatch: Total Attempted questions exceed Total Questions.";
            "Data mismatch: Obtained Marks cannot exceed Total Marks."]
    end.
Proof.
  intros NumberToString parseFloat_text db_ready formData.
  unfold CloudTracker.test_of_form.
  destruct db_ready; cbn [negb]; [|simpl; tauto].
  match goal with
  | |- match (if ?c then _ else _) with _ => _ end => destruct c eqn:Efill
  end; [simpl; tauto|].
  match goal with
  | |- match (if ?c then _ else _) with _ => _ end => destruct c eqn:Eatt
  end; [simpl; tauto|].
  match goal with
  | |- match (if ?c then _ else _) with _ => _ end => destruct c eqn:Emarks
  end; [simpl; tauto|].
  repeat (apply orb_false_iff in Efill as [Efill ?]).
  apply negb_false_iff in Efill.
  cbn [CloudTracker.nt_platform CloudTracker.nt_date CloudTracker.nt_testName
       CloudTracker.nt_correct CloudTracker.nt_incorrect CloudTracker.nt_marks
       CloudTracker.nt_totalQuestions CloudTracker.nt_totalMarks
       CloudTracker.nt_unattempted CloudTracker.nt_rank
       CloudTracker.nt_totalStudents CloudTracker.nt_negativeMarks
       CloudTracker.nt_timeTaken CloudTracker.nt_testType
       CloudTracker.nt_accuracy].
  split; [reflexivity|]. split; [exact Efill|].
  split; [now apply negb_false_iff|].
  split.
  { unfold or_default.
    destruct (nonempty (CloudTracker.ef_testName formData)) eqn:E; [exact E|].
    destruct (CloudTracker.ef_testType formData); reflexivity. }
  split.
  { repeat constructor; intros Hb;
      match goal with
      | H : CloudTracker.is_blank ?v = false, Hb : ?v = CloudTracker.Blank |- _ =>
          rewrite Hb in H; discriminate H
      end. }
  split.
  { intros Hc Hw.
    now rewrite <- (parseFloat_or_zero_number _ Hc), <- (parseFloat_or_zero_number _ Hw). }
  split.
  { destruct (CloudTracker.ef_marksObtained formData) as [|x]; [discriminate|].
    rewrite parseFloat_gt. exact Emarks. }
  pose proof (unattempted_not_negative NumberToString
                (CloudTracker.mkForm (CloudTracker.ef_correct formData)
                                     (CloudTracker.ef_wrong formData)
                                     (CloudTracker.ef_totalQuestions formData)))
    as Hge.
  split.
  { destruct (CloudTracker.unattempted _) as [s|s| |s m e];
      try destruct s; try reflexivity; try discriminate Hge; exact Hge. }
  split; [reflexivity|]. split; [reflexivity|]. split; [reflexivity|].
  assert (Hread : forall v, CloudTracker.is_blank v = false ->
                            exists x, v = CloudTracker.Entered x
                                      /\ CloudTracker.parseFloat v
                                         = Spec.unsigned_zero x).
  { intros [|x] Hv; [discriminate Hv|]. exists x. split; [reflexivity|].
    destruct x; reflexivity. }
  split.
  { repeat match goal with
           | H : CloudTracker.is_blank _ = false |- _ =>
               apply Hread in H; destruct H as (? & ? & ?)
           end.
    do 6 eexists. repeat split; eassumption. }
  split; [apply or_else_parseFloat|].
  split; [reflexivity|]. split; [reflexivity|]. split; [reflexivity|].
  split; [reflexivity|]. split; [reflexivity|]. split; [reflexivity|].
  cbv zeta. split; [|reflexivity].
  destruct (CloudTracker.unattempted _) as [s|s| |s m e];
    try reflexivity; discriminate Hge.
Qed.

(** X24.  The history of the cloud tracker lists exactly the loaded
    tests that match both filters, [All] standing for no filter; with both
    filters at [All] every loaded test is listed.  The snapshot handler
    loads one test for each document, and with valid dates it keeps them
    from the oldest to the newest, as the charts read them, while the
    history table lists them from the newest to the oldest. *)
Theorem history_lists_matching_tests_newest_first :
  forall (StringToNumber : string -> number) (DateTime : string -> number)
         (docs : list CloudTracker.mock_doc) (selectedPlatform selectedType : string),
    let sortedTests := CloudTracker.snapshot_tests StringToNumber DateTime docs in
    let shown := CloudTracker.filteredTests sortedTests selectedPlatform selectedType in
    let rows := CloudTracker.history_rows shown in
    List.length sortedTests = List.length docs
    /\ (forall t : CloudTracker.mock_test,
           In t rows <->
           In t sortedTests
           /\ (selectedPlatform = "All" \/ CloudTracker.platform t = selectedPlatform)
           /\ (selectedType = "All" \/ CloudTracker.testType t = selectedType))
    /\ (selectedPlatform = "All" -> selectedType = "All" -> shown = sortedTests)
    /\ (Forall (fun d => exists n : Z, DateTime (CloudTracker.doc_date d) = of_Z n)
               docs ->
        StronglySorted
          (fun a b => at_most (DateTime (CloudTracker.test_date a))
                              (DateTime (CloudTracker.test_date b)))
          shown
        /\ StronglySorted
             (fun a b => at_most (DateTime (CloudTracker.test_date b))
                                 (DateTime (CloudTracker.test_date a)))
             rows).
Proof.
  intros StringToNumber DateTime docs selectedPlatform selectedType
         sortedTests shown rows.
  subst rows shown sortedTests.
  unfold CloudTracker.history_rows, CloudTracker.filteredTests,
    CloudTracker.snapshot_tests.
  set (loaded := map _ docs).
  split.
  { rewrite (Permutation_length (sort_perm _ loaded)). apply length_map. }
  split.
  { intros t. rewrite <- in_rev, filter_In, andb_true_iff, !orb_true_iff,
      !String.eqb_eq.
    split; intros (Hin & Hp & Ht); repeat split; try assumption;
      intuition congruence. }
  split.
  { intros -> ->. cbn.
    induction (sort _ loaded) as [|t l IH]; simpl; [reflexivity|]. now rewrite IH. }
  intros Hd.
  assert (Hs : StronglySorted
                 (fun a b => at_most (DateTime (CloudTracker.test_date a))
                                     (DateTime (CloudTracker.test_date b)))
                 (sort (CloudTracker.by_date DateTime) loaded)).
  { apply (sort_sorted (CloudTracker.by_date DateTime)
             (fun t => exists n : Z, DateTime (CloudTracker.test_date t) = of_Z n)).
    - intros a b [na Ha] [nb Hb]. unfold CloudTracker.by_date.
      rewrite Ha, Hb.
      destruct (of_Z_number na) as [Na Ba], (of_Z_number nb) as [Nb Bb].
      exact (difference_sign (of_Z na) (of_Z nb) Na Nb Ba Bb).
    - intros a b c. apply at_most_transitive.
    - subst loaded. apply Forall_forall. intros t Ht.
      apply in_map_iff in Ht as (d & <- & Hin).
      rewrite Forall_forall in Hd. exact (Hd d Hin). }
  split.
  - now apply StronglySorted_filter.
  - apply (StronglySorted_rev
             (fun a b => at_most (DateTime (CloudTracker.test_date a))
                                 (DateTime (CloudTracker.test_date b)))).
    now apply StronglySorted_filter.
Qed.

(** X25.  [getPercentile] answers [0] when there are no students, when the
    rank is [0] or beyond the number of students, and when either number
    is [NaN]; the last of the ranks beats nobody, so its percentile is [0]
    as well. *)
Theorem getPercentile_of_the_edge_ranks :
  forall rank totalStudents : number,
    (SFeqb totalStudents zero = true \/ SFeqb rank zero = true
     \/ gt rank totalStudents = true
     \/ isNaN rank = true \/ isNaN totalStudents = true ->
     CloudTracker.getPercentile rank totalStudents = zero)
    /\ (Spec.finite_nonzero totalStudents = true -> gt totalStudents zero = true ->
        CloudTracker.getPercentile totalStudents totalStudents = zero).
Proof.
  intros rank totalStudents. unfold CloudTracker.getPercentile. split.
  - intros [H|[H|[H|[H|H]]]]; rewrite H; rewrite ?orb_true_r; reflexivity.
  - destruct totalStudents as [s|s| |s m e]; try discriminate.
    intros _ Hpos. destruct s; [discriminate Hpos|].
    assert (Hsub : sub (S754_finite false m e) (S754_finite false m e) = zero).
    { unfold sub, SFsub. now rewrite Z.sub_diag. }
    assert (Hgt : gt (S754_finite false m e) (S754_finite false m e) = false).
    { unfold gt, SFltb, SFcompare. rewrite Z.compare_refl, Pos.compare_refl.
      reflexivity. }
    rewrite Hgt, Hsub. reflexivity.
Qed.

(* ------------------------------------------------------------------ *)
(** ** Durations *)

Lemma same_number_eq (x y : number) : Spec.same_number x y = true -> x = y.
Proof.
  destruct x as [s|s| |s m e], y as [s'|s'| |s' m' e']; simpl; try discriminate.
  - intros H. apply Bool.eqb_prop in H. now subst.
  - intros H. apply Bool.eqb_prop in H. now subst.
  - reflexivity.
  - intros H. apply andb_true_iff in H as [H He]. apply andb_true_iff in H as [Hs Hm].
    apply Bool.eqb_prop in Hs. apply Pos.eqb_eq in Hm. apply Z.eqb_eq in He.
    now subst.
Qed.

(** Checked for each of the 6000 whole numbers of minutes below 100
    hours. *)
Lemma hours_and_minutes (n : Z) :
  (0 <= n < 6000)%Z ->
  CloudTracker.Math_floor (div (of_Z n) (of_Z 60)) = of_Z (n / 60)
  /\ CloudTracker.remainder (of_Z n) (of_Z 60) = of_Z (n mod 60).
Proof.
  intros Hn.
  assert (Hall : forallb Spec.splits_into_hours_and_minutes (seq 0 (60 * 100)) = true)
    by (vm_compute; reflexivity).
  rewrite forallb_forall in Hall.
  specialize (Hall (Z.to_nat n) ltac:(apply in_seq; lia)).
  unfold Spec.splits_into_hours_and_minutes in Hall.
  rewrite Z2Nat.id in Hall by lia.
  apply andb_true_iff in Hall as [Hh Hm].
  split; now apply same_number_eq.
Qed.

(** X26.  [formatTime] shows [--] for a duration that is missing or
    [NaN].  A duration that rounds to a whole number of minutes below 100
    hours is shown as hours and minutes, each with at least two digits:
    the hours are the quotient and the minutes the remainder of the
    division of the rounded minutes by 60, so the minutes shown are below
    60. *)
Theorem formatTime_shows_hours_and_minutes :
  forall (NumberToString : number -> string) (x : number) (n : Z),
    (forall k : Z, (0 <= k < 100)%Z ->
                   NumberToString (of_Z k) = CloudTracker.decimal k) ->
    isNaN x = false ->
    Math_round x = of_Z n ->
    (0 <= n < 6000)%Z ->
    CloudTracker.formatTime NumberToString (Some x)
    = (CloudTracker.padStart2 (CloudTracker.decimal (n / 60)) ++ ":"
       ++ CloudTracker.padStart2 (CloudTracker.decimal (n mod 60)))%string
    /\ (0 <= n mod 60 < 60)%Z
    /\ CloudTracker.formatTime NumberToString None = "--"
    /\ CloudTracker.formatTime NumberToString (Some NaN) = "--".
Proof.
  intros NumberToString x n Hprint Hnum Hround Hn.
  destruct (hours_and_minutes n Hn) as [Hh Hm].
  assert (Hq : (0 <= n / 60 < 100)%Z).
  { split; [apply Z.div_pos; lia|]. apply Z.div_lt_upper_bound; lia. }
  assert (Hr : (0 <= n mod 60 < 60)%Z) by (apply Z.mod_pos_bound; lia).
  split; [|split; [exact Hr|split; reflexivity]].
  unfold CloudTracker.formatTime. rewrite Hnum, Hround, Hh, Hm.
  rewrite !Hprint by lia. reflexivity.
Qed.

Lemma formatTime_shows_hours_and_minutes_witness :
  CloudTracker.formatTime Host.NumberToString (Some (div (of_Z 181) (of_Z 2)))
  = "01:31".
Proof.
  assert (Hprint : forall k : Z, (0 <= k < 100)%Z ->
                     Host.NumberToString (of_Z k) = CloudTracker.decimal k).
  { intros k Hk.
    assert (Hall : forallb (fun i => String.eqb
                                       (Host.NumberToString (of_Z (Z.of_nat i)))
                                       (CloudTracker.decimal (Z.of_nat i)))
                           (seq 0 100) = true) by (vm_compute; reflexivity).
    rewrite forallb_forall in Hall.
    specialize (Hall (Z.to_nat k) ltac:(apply in_seq; lia)).
    rewrite Z2Nat.id in Hall by lia. now apply String.eqb_eq. }
  exact (proj1 (formatTime_shows_hours_and_minutes Host.NumberToString
                  (div (of_Z 181) (of_Z 2)) 91 Hprint eq_refl eq_refl
                  ltac:(lia))).
Defined.

(* ------------------------------------------------------------------ *)
(** ** Clearing, the export file and dates that are no dates *)

(** X27.  Clearing all tests needs the confirmation: the request and
    Cancel leave the collection as it is, Confirm empties it and reports
    [All test data cleared.].  Of the empty collection every filter
    setting shows nothing, the summary counts 0 tests with the average 0,
    no subject average and no average rank percentile, and no chart has a
    point. *)
Theorem clear_all_empties_every_view :
  forall (toLowerCase : string -> string) (DateTime : string -> number)
         (p : Tracker.page),
    let asked := Tracker.handleClearAll p in
    let cleared := Tracker.current (Tracker.Confirm asked) in
    let shown := Tracker.filtered toLowerCase DateTime cleared in
    Tracker.current asked = Tracker.current p
    /\ Tracker.current (Tracker.Cancel asked) = Tracker.current p
    /\ Tracker.tests cleared = []
    /\ Tracker.toastAlert cleared
       = Some (Tracker.mkToast "All test data cleared." Tracker.success)
    /\ Tracker.form cleared = Tracker.form (Tracker.current p)
    /\ shown = []
    /\ Tracker.summary shown = Tracker.mkSummary 0 zero [] None 0
    /\ Tracker.topWeakestSubjects (Tracker.subjectAverages (Tracker.summary shown)) = []
    /\ Tracker.overallTrendChartData DateTime shown = []
    /\ Tracker.fullTestChartData DateTime shown = []
    /\ Tracker.rankChartData DateTime shown = [].
Proof.
  intros toLowerCase DateTime p asked cleared shown.
  assert (Hshown : shown = []).
  { subst shown cleared asked.
    unfold Tracker.filtered, Tracker.providerFilteredTests. cbn.
    now destruct (String.eqb (Tracker.filterProvider (Tracker.current p)) "All"). }
  rewrite Hshown. repeat split.
Qed.

Lemma concat_empty_cons (a : string) (l : list string) :
  concat EmptyString (a :: l) = (a ++ concat EmptyString l)%string.
Proof.
  destruct l as [|b l]; simpl; [now rewrite append_empty|reflexivity].
Qed.

Lemma join_cons (sep x : string) (l : list string) :
  join sep (x :: l) = (x ++ concat EmptyString (map (fun y => sep ++ y) l))%string.
Proof.
  unfold join. revert x. induction l as [|y l IH]; intros x.
  - simpl. now rewrite append_empty.
  - change (concat sep (x :: y :: l)) with (x ++ sep ++ concat sep (y :: l))%string.
    rewrite (IH y). cbn [map]. rewrite concat_empty_cons.
    now rewrite append_assoc.
Qed.

(** X28.  The tabular export is the header line followed by one row for
    each stored test, in the order of the collection, each preceded by a
    line break; of an empty collection it is the header line alone.  The
    header names fourteen columns, and every row reads back as fourteen
    cells. *)
Theorem csv_export_has_a_header_and_a_row_per_test :
  forall (NumberToString : number -> string) (st : Tracker.state),
    let header := "subject,category,provider,maxMarks,obtainedMarks,correctCount,incorrectCount,notAttemptedCount,percentage,testRank,totalTestTakers,rankPercentile,date,notes" in
    Tracker.handleExportCSV NumberToString st
    = (header
       ++ concat EmptyString
            (map (fun t => str newline ++ Tracker.csv_row NumberToString t)
                 (Tracker.tests st)))%string
    /\ (Tracker.tests st = [] -> Tracker.handleExportCSV NumberToString st = header)
    /\ Spec.read_row Spec.FieldStart EmptyString header = Tracker.csv_headers
    /\ List.length Tracker.csv_headers = 14%nat
    /\ (forall t : Tracker.entry,
           List.length (Spec.read_row Spec.FieldStart EmptyString
                                      (Tracker.csv_row NumberToString t))
           = List.length Tracker.csv_headers).
Proof.
  intros NumberToString st header.
  assert (Hfile : Tracker.handleExportCSV NumberToString st
                  = (header
                     ++ concat EmptyString
                          (map (fun t => str newline ++ Tracker.csv_row NumberToString t)
                               (Tracker.tests st)))%string).
  { unfold Tracker.handleExportCSV. rewrite join_cons, map_map. reflexivity. }
  split; [exact Hfile|]. split.
  { intros Hnone. rewrite Hfile, Hnone. reflexivity. }
  split; [reflexivity|]. split; [reflexivity|].
  intros t. rewrite read_csv_row, length_map. reflexivity.
Qed.

(** X29.  The date bounds of the filter never drop a test whose date is
    not a valid date, and a bound that is not a valid date drops
    nothing: such a test is shown whenever the provider, the subject and
    the search text match, and the filter with such a bound shows what it
    shows with the bound left empty. *)
Theorem date_filter_passes_what_is_no_date :
  forall (toLowerCase : string -> string) (DateTime : string -> number)
         (st : Tracker.state),
    (forall t : Tracker.entry,
        In t (Tracker.tests st) ->
        isNaN (DateTime (Tracker.date t)) = true ->
        Spec.provider_matches st t = true ->
        Spec.subject_matches st t = true ->
        Spec.search_matches toLowerCase st t = true ->
        In t (Tracker.filtered toLowerCase DateTime st))
    /\ (isNaN (DateTime (Tracker.dateFrom st)) = true ->
        Tracker.filtered toLowerCase DateTime st
        = Tracker.filtered toLowerCase DateTime
            (Tracker.mkState (Tracker.tests st) (Tracker.form st)
               (Tracker.filterProvider st) (Tracker.filterSubject st)
               EmptyString (Tracker.dateTo st) (Tracker.search st)
               (Tracker.toastAlert st)))
    /\ (isNaN (DateTime (Tracker.dateTo st)) = true ->
        Tracker.filtered toLowerCase DateTime st
        = Tracker.filtered toLowerCase DateTime
            (Tracker.mkState (Tracker.tests st) (Tracker.form st)
               (Tracker.filterProvider st) (Tracker.filterSubject st)
               (Tracker.dateFrom st) EmptyString (Tracker.search st)
               (Tracker.toastAlert st))).
Proof.
  intros toLowerCase DateTime st.
  assert (Hnan_l : forall x y, isNaN x = true -> lt x y = false /\ gt x y = false).
  { intros x y Hx. destruct x; try discriminate Hx. split; [reflexivity|].
    destruct y; reflexivity. }
  assert (Hnan_r : forall x y, isNaN y = true -> lt x y = false /\ gt x y = false).
  { intros x y Hy. destruct y; try discriminate Hy. split; [|reflexivity].
    destruct x; reflexivity. }
  split; [|split].
  - intros t Hin Hnan Hp Hs Hq.
    rewrite filtered_is_filter. apply filter_In. split; [exact Hin|].
    unfold Spec.matches, Spec.not_before_from, Spec.not_after_to.
    destruct (Hnan_l (DateTime (Tracker.date t)) (DateTime (Tracker.dateFrom st)) Hnan)
      as [-> _].
    destruct (Hnan_l (DateTime (Tracker.date t)) (DateTime (Tracker.dateTo st)) Hnan)
      as [_ ->].
    rewrite Hp, Hs, Hq. cbn [negb]. now rewrite !orb_true_r.
  - intros Hnan. rewrite !filtered_is_filter. cbn [Tracker.tests].
    apply filter_ext. intros t.
    unfold Spec.matches, Spec.not_before_from, Spec.provider_matches,
      Spec.subject_matches, Spec.not_after_to, Spec.search_matches.
    cbn [Tracker.dateFrom Tracker.dateTo Tracker.filterProvider
         Tracker.filterSubject Tracker.search].
    destruct (Hnan_r (DateTime (Tracker.date t)) (DateTime (Tracker.dateFrom st)) Hnan)
      as [-> _].
    cbn [negb nonempty]. now rewrite orb_true_r.
  - intros Hnan. rewrite !filtered_is_filter. cbn [Tracker.tests].
    apply filter_ext. intros t.
    unfold Spec.matches, Spec.not_before_from, Spec.provider_matches,
      Spec.subject_matches, Spec.not_after_to, Spec.search_matches.
    cbn [Tracker.dateFrom Tracker.dateTo Tracker.filterProvider
         Tracker.filterSubject Tracker.search].
    destruct (Hnan_r (DateTime (Tracker.date t)) (DateTime (Tracker.dateTo st)) Hnan)
      as [_ ->].
    cbn [negb nonempty]. now rewrite orb_true_r.
Qed.

(* ------------------------------------------------------------------ *)
(** ** Whole numbers are added and subtracted exactly *)

Section WholeNumbers.

Local Open Scope Z_scope.

Lemma iter_pos_iter {A : Type} (f : A -> A) (p : positive) (x : A) :
  iter_pos f p x = Pos.iter f x p.
Proof.
  revert x. induction p as [p IH|p IH|]; intros x; simpl.
  - rewrite !IH, !Pos.iter_swap. reflexivity.
  - now rewrite !IH.
  - reflexivity.
Qed.

(** Shifting out zero bits leaves nothing to round. *)
Lemma shr_zero_bits (q j : positive) :
  iter_pos shr_1 j (Build_shr_record (Z.pos (Pos.iter xO q j)) false false)
  = Build_shr_record (Z.pos q) false false.
Proof.
  rewrite iter_pos_iter.
  induction j as [|j IH] using Pos.peano_ind.
  - reflexivity.
  - rewrite !Pos.iter_succ. rewrite <- Pos.iter_swap. cbn [shr_1 orb]. exact IH.
Qed.

Lemma binary_round_aux_shifted (s : bool) (q j : positive) (e : Z) :
  Z.pos (digits2_pos q) = prec ->
  emin prec emax <= e + Z.pos j <= emax - prec ->
  binary_round_aux prec emax s (Z.pos (Pos.iter xO q j)) e loc_Exact
  = S754_finite s q (e + Z.pos j).
Proof.
  intros Hd He.
  assert (H1 : shr_fexp prec emax (Z.pos (Pos.iter xO q j)) e loc_Exact
               = (Build_shr_record (Z.pos q) false false, e + Z.pos j)).
  { unfold shr_fexp, fexp. cbn [Zdigits2]. rewrite digits2_iter_xO, Hd.
    replace (Z.max (prec + Z.pos j + e - prec) (emin prec emax) - e) with (Z.pos j)
      by lia.
    cbn [shr_record_of_loc shr]. now rewrite shr_zero_bits. }
  assert (H2 : shr_fexp prec emax (Z.pos q) (e + Z.pos j) loc_Exact
               = (Build_shr_record (Z.pos q) false false, e + Z.pos j)).
  { unfold shr_fexp, fexp. cbn [Zdigits2]. rewrite Hd.
    replace (Z.max (prec + (e + Z.pos j) - prec) (emin prec emax) - (e + Z.pos j))
      with 0 by lia.
    reflexivity. }
  unfold binary_round_aux. rewrite H1.
  cbn [shr_m loc_of_shr_record round_nearest_even]. rewrite H2. cbn [shr_m].
  destruct He as [_ He]. apply Z.leb_le in He. now rewrite He.
Qed.

(** The number [of_pos] makes of a positive integer of at most 53 bits. *)
Lemma of_pos_small (s : bool) (p : positive) :
  Z.pos (digits2_pos p) <= prec ->
  exists m : positive,
    of_pos s p = S754_finite s m (Z.pos (digits2_pos p) - prec)
    /\ Z.pos m = Z.pos p * 2 ^ (prec - Z.pos (digits2_pos p))
    /\ Z.pos (digits2_pos m) = prec.
Proof.
  intros Hd. unfold of_pos. rewrite (proj2 (Z.leb_le _ _) Hd).
  destruct (prec - Z.pos (digits2_pos p)) as [|c|c] eqn:Ec; try lia.
  - exists p. cbn [Z.to_N Pos.shiftl]. repeat split; lia.
  - exists (Pos.iter xO p c). cbn [Z.to_N Pos.shiftl].
    split; [reflexivity|]. split; [apply iter_xO_mul|].
    rewrite digits2_iter_xO. lia.
Qed.

(** Rounding an integer of at most 53 bits that has been scaled by a
    power of two gives the number of the integer. *)
Lemma binary_round_scaled (s : bool) (p M : positive) (k : Z) :
  Z.pos (digits2_pos p) <= prec -> 0 <= k <= 1000 ->
  Z.pos M = Z.pos p * 2 ^ k ->
  binary_round prec emax s M (- k) = of_pos s p.
Proof.
  intros Hd Hk HM.
  destruct (of_pos_small s p Hd) as (q & -> & Hq & Hdq).
  set (d := Z.pos (digits2_pos p)) in *.
  assert (Hd1 : 1 <= d) by (unfold d; lia).
  assert (HdM : Z.pos (digits2_pos M) = d + k).
  { destruct k as [|j|j]; try lia.
    - rewrite Z.pow_0_r, Z.mul_1_r in HM. injection HM as ->. unfold d. lia.
    - rewrite <- iter_xO_mul in HM. injection HM as ->.
      rewrite digits2_iter_xO. reflexivity. }
  unfold binary_round, shl_align, fexp. rewrite HdM.
  replace (Z.max (d + k + - k - prec) (emin prec emax)) with (d - prec)
    by (unfold prec, emax, emin in *; lia).
  destruct (d - prec - - k) as [|t|t] eqn:Et.
  - (* the integer is aligned already *)
    assert (M = q).
    { apply Pos2Z.inj. rewrite HM, Hq. f_equal. f_equal. lia. }
    subst M. replace (- k) with (d - prec) by lia.
    apply binary_round_aux_canonical; [exact Hdq|].
    unfold prec, emax, emin in *. lia.
  - (* zero bits are shifted out *)
    assert (M = Pos.iter xO q t).
    { apply Pos2Z.inj. rewrite iter_xO_mul, HM, Hq, <- Z.mul_assoc.
      rewrite <- Z.pow_add_r by lia. f_equal. f_equal. lia. }
    subst M. rewrite binary_round_aux_shifted.
    + f_equal. lia.
    + exact Hdq.
    + unfold prec, emax, emin in *. lia.
  - (* the integer is shifted to the left *)
    assert (Pos.iter xO M t = q).
    { apply Pos2Z.inj. rewrite iter_xO_mul, HM, Hq, <- Z.mul_assoc.
      rewrite <- Z.pow_add_r by lia. f_equal. f_equal. lia. }
    rewrite H.
    apply binary_round_aux_canonical; [exact Hdq|].
    unfold prec, emax, emin in *. lia.
Qed.

Lemma small_digits (p : positive) :
  Z.pos p < 2 ^ prec -> Z.pos (digits2_pos p) <= prec.
Proof.
  intros Hp. pose proof (digits2_bounds p) as [Hlo _].
  destruct (Z.le_gt_cases (Z.pos (digits2_pos p)) prec) as [H|H]; [exact H|].
  exfalso.
  assert (2 ^ prec <= 2 ^ (Z.pos (digits2_pos p) - 1))
    by (apply Z.pow_le_mono_r; unfold prec in *; lia).
  lia.
Qed.

Lemma normalize_scaled (n k : Z) :
  Z.abs n < 2 ^ prec -> 0 <= k <= 1000 ->
  binary_normalize prec emax (n * 2 ^ k) (- k) false = of_Z n.
Proof.
  intros Hn Hk.
  assert (Hpow : 0 < 2 ^ k) by (apply Z.pow_pos_nonneg; lia).
  destruct n as [|p|p].
  - reflexivity.
  - destruct (Z.pos p * 2 ^ k) as [|M|M] eqn:EM; try lia.
    cbn [binary_normalize of_Z].
    apply binary_round_scaled; [apply small_digits; lia | exact Hk | now symmetry].
  - destruct (Z.neg p * 2 ^ k) as [|M|M] eqn:EM; try lia.
    cbn [binary_normalize of_Z].
    apply binary_round_scaled; [apply small_digits; lia | exact Hk | lia].
Qed.

(** The whole number a finite number made by [of_Z] stands for, at any
    exponent below its own. *)
Lemma of_Z_aligned (n : Z) (s : bool) (m : positive) (e : Z) :
  Z.abs n < 2 ^ prec -> of_Z n = S754_finite s m e ->
  - 52 <= e <= 0 /\ forall ez, ez <= e -> signed s m * 2 ^ (e - ez) = n * 2 ^ (- ez).
Proof.
  intros Hn E.
  assert (Hpos : forall s' p, Z.pos p < 2 ^ prec ->
                   of_pos s' p = S754_finite s m e ->
                   s' = s /\ - 52 <= e <= 0
                   /\ forall ez, ez <= e ->
                                 Z.pos m * 2 ^ (e - ez) = Z.pos p * 2 ^ (- ez)).
  { intros s' p Hp Ep.
    destruct (of_pos_small s' p (small_digits p Hp)) as (q & Eq & Hq & _).
    pose proof (small_digits p Hp) as Hd.
    remember (Z.pos (digits2_pos p) - prec) as e' eqn:He'.
    rewrite Eq in Ep. injection Ep as -> -> <-.
    split; [reflexivity|]. split; [unfold prec in *; lia|].
    intros ez Hez. rewrite Hq, <- Z.mul_assoc, <- Z.pow_add_r by (unfold prec in *; lia).
    f_equal. f_equal. lia. }
  destruct n as [|p|p]; cbn [of_Z] in E.
  - discriminate E.
  - destruct (Hpos false p ltac:(lia) E) as (<- & He & Hv). split; [exact He|].
    exact Hv.
  - destruct (Hpos true p ltac:(lia) E) as (<- & He & Hv). split; [exact He|].
    intros ez Hez. cbn [signed]. rewrite <- !Pos2Z.opp_pos, !Z.mul_opp_l.
    now rewrite (Hv ez Hez).
Qed.

Lemma of_Z_zero (n : Z) (s : bool) :
  Z.abs n < 2 ^ prec -> of_Z n = S754_zero s -> n = 0 /\ s = false.
Proof.
  intros Hn E. destruct n as [|p|p]; cbn [of_Z] in E.
  - now injection E as <-.
  - destruct (of_pos_small false p (small_digits p ltac:(lia))) as (q & Eq & _).
    rewrite Eq in E. discriminate E.
  - destruct (of_pos_small true p (small_digits p ltac:(lia))) as (q & Eq & _).
    rewrite Eq in E. discriminate E.
Qed.

Lemma of_Z_finite_or_zero (n : Z) :
  Z.abs n < 2 ^ prec ->
  of_Z n = zero \/ exists s m e, of_Z n = S754_finite s m e.
Proof.
  intros Hn. destruct n as [|p|p]; [now left| |]; right; cbn [of_Z].
  - destruct (of_pos_small false p (small_digits p ltac:(lia))) as (q & Eq & _). eauto.
  - destruct (of_pos_small true p (small_digits p ltac:(lia))) as (q & Eq & _). eauto.
Qed.

(** Two whole numbers whose sum has at most 53 bits are added exactly. *)
Lemma add_whole (a b : Z) :
  Z.abs a < 2 ^ prec -> Z.abs b < 2 ^ prec -> Z.abs (a + b) < 2 ^ prec ->
  add (of_Z a) (of_Z b) = of_Z (a + b).
Proof.
  intros Ha Hb Hab.
  destruct (of_Z_finite_or_zero a Ha) as [Ea|(sa & ma & ea & Ea)];
    destruct (of_Z_finite_or_zero b Hb) as [Eb|(sb & mb & eb & Eb)].
  - destruct (of_Z_zero a false Ha Ea) as [-> _].
    destruct (of_Z_zero b false Hb Eb) as [-> _]. reflexivity.
  - destruct (of_Z_zero a false Ha Ea) as [-> _]. rewrite Z.add_0_l, Eb. reflexivity.
  - destruct (of_Z_zero b false Hb Eb) as [-> _]. rewrite Z.add_0_r, Ea. reflexivity.
  - destruct (of_Z_aligned a sa ma ea Ha Ea) as [Hea Hva].
    destruct (of_Z_aligned b sb mb eb Hb Eb) as [Heb Hvb].
    rewrite Ea, Eb. unfold add, SFadd.
    set (ez := Z.min ea eb).
    rewrite !cond_Zopp_aligned by (unfold ez; lia).
    rewrite (Hva ez), (Hvb ez) by (unfold ez; lia).
    rewrite <- Z.mul_add_distr_r.
    replace ez with (- - ez) at 2 by lia.
    apply normalize_scaled; [exact Hab | unfold ez; lia].
Qed.

(** And so is their difference. *)
Lemma sub_whole (a b : Z) :
  Z.abs a < 2 ^ prec -> Z.abs b < 2 ^ prec -> Z.abs (a - b) < 2 ^ prec ->
  sub (of_Z a) (of_Z b) = of_Z (a - b).
Proof.
  intros Ha Hb Hab.
  destruct (of_Z_finite_or_zero a Ha) as [Ea|(sa & ma & ea & Ea)];
    destruct (of_Z_finite_or_zero b Hb) as [Eb|(sb & mb & eb & Eb)].
  - destruct (of_Z_zero a false Ha Ea) as [-> _].
    destruct (of_Z_zero b false Hb Eb) as [-> _]. reflexivity.
  - destruct (of_Z_zero a false Ha Ea) as [-> _]. rewrite Z.sub_0_l.
    destruct b as [|p|p]; [discriminate Eb| |];
      pose proof (small_digits p ltac:(lia)) as Hd;
      apply Z.leb_le in Hd;
      cbn [Z.opp of_Z]; unfold sub, of_pos; rewrite Hd; reflexivity.
  - destruct (of_Z_zero b false Hb Eb) as [-> _]. rewrite Z.sub_0_r, Ea. reflexivity.
  - destruct (of_Z_aligned a sa ma ea Ha Ea) as [Hea Hva].
    destruct (of_Z_aligned b sb mb eb Hb Eb) as [Heb Hvb].
    rewrite Ea, Eb. unfold sub, SFsub.
    set (ez := Z.min ea eb).
    rewrite !cond_Zopp_aligned by (unfold ez; lia).
    rewrite (Hva ez), (Hvb ez) by (unfold ez; lia).
    rewrite <- Z.mul_sub_distr_r.
    replace ez with (- - ez) at 2 by lia.
    apply normalize_scaled; [exact Hab | unfold ez; lia].
Qed.


(** Whole numbers below [2^53] compare as the integers they stand for. *)
Lemma compare_whole (a b : Z) :
  0 <= a < 2 ^ prec -> 0 <= b < 2 ^ prec ->
  SFcompare (of_Z a) (of_Z b) = Some (a ?= b).
Proof.
  intros Ha Hb.
  destruct a as [|p|p], b as [|r|r]; try lia; cbn [of_Z].
  - reflexivity.
  - destruct (of_pos_small false r (small_digits r ltac:(lia))) as (m & -> & _).
    reflexivity.
  - destruct (of_pos_small false p (small_digits p ltac:(lia))) as (m & -> & _).
    reflexivity.
  - pose proof (small_digits p ltac:(lia)) as Hdp.
    pose proof (small_digits r ltac:(lia)) as Hdr.
    destruct (of_pos_small false p Hdp) as (mp & -> & Hmp & _).
    destruct (of_pos_small false r Hdr) as (mr & -> & Hmr & _).
    pose proof (digits2_bounds p) as Bp. pose proof (digits2_bounds r) as Br.
    set (dp := Z.pos (digits2_pos p)) in *. set (dr := Z.pos (digits2_pos r)) in *.
    cbn [SFcompare]. f_equal.
    destruct (Z.compare_spec (dp - prec) (dr - prec)) as [E|E|E].
    + assert (Ed : dp = dr) by lia. rewrite Ed in Hmp.
      change (Pos.compare_cont Eq mp mr) with (Z.pos mp ?= Z.pos mr).
      rewrite Hmp, Hmr.
      assert (Hpow : 0 < 2 ^ (prec - dr)) by (apply Z.pow_pos_nonneg; lia).
      destruct (Z.compare_spec (Z.pos p) (Z.pos r)) as [C|C|C].
      * rewrite C. apply Z.compare_refl.
      * apply Z.compare_lt_iff. nia.
      * apply Z.compare_gt_iff. nia.
    + symmetry. apply Z.compare_lt_iff.
      assert (2 ^ dp <= 2 ^ (dr - 1)) by (apply Z.pow_le_mono_r; lia).
      lia.
    + symmetry. apply Z.compare_gt_iff.
      assert (2 ^ dr <= 2 ^ (dp - 1)) by (apply Z.pow_le_mono_r; lia).
      lia.
Qed.

Lemma gt_whole (a b : Z) :
  0 <= a < 2 ^ prec -> 0 <= b < 2 ^ prec ->
  gt (of_Z a) (of_Z b) = (b <? a).
Proof.
  intros Ha Hb. unfold gt, SFltb. rewrite (compare_whole b a Hb Ha).
  unfold Z.ltb. reflexivity.
Qed.

Lemma ge_zero_whole (n : Z) :
  Z.abs n < 2 ^ prec -> ge (of_Z n) zero = (0 <=? n).
Proof.
  intros Hn. destruct n as [|p|p]; cbn [of_Z]; [reflexivity| |].
  - destruct (of_pos_small false p (small_digits p ltac:(lia))) as (m & -> & _).
    reflexivity.
  - destruct (of_pos_small true p (small_digits p ltac:(lia))) as (m & -> & _).
    reflexivity.
Qed.

(** A whole number of at most 53 bits is read from a numeric input as it
    was entered. *)
Lemma parseFloat_whole (n : Z) :
  Z.abs n < 2 ^ prec ->
  CloudTracker.parseFloat (CloudTracker.Entered (of_Z n)) = of_Z n.
Proof.
  intros Hn. destruct (of_Z_finite_or_zero n Hn) as [E|(s & m & e & E)];
    rewrite E; reflexivity.
Qed.

Lemma or_else_zero_whole (n : Z) :
  Z.abs n < 2 ^ prec -> or_else (of_Z n) zero = of_Z n.
Proof.
  intros Hn. destruct (of_Z_finite_or_zero n Hn) as [E|(s & m & e & E)];
    rewrite E; reflexivity.
Qed.

Lemma or_else_positive_whole (n : Z) (d : number) :
  0 < n < 2 ^ prec -> or_else (of_Z n) d = of_Z n.
Proof.
  intros Hn. destruct n as [|p|p]; try lia. cbn [of_Z].
  destruct (of_pos_small false p (small_digits p ltac:(lia))) as (m & -> & _).
  reflexivity.
Qed.

Lemma parseFloat_or_zero_whole (n : Z) :
  Z.abs n < 2 ^ prec ->
  CloudTracker.parseFloat_or_zero (CloudTracker.Entered (of_Z n)) = of_Z n.
Proof.
  intros Hn. destruct (of_Z_finite_or_zero n Hn) as [E|(s & m & e & E)];
    rewrite E; reflexivity.
Qed.

End WholeNumbers.

(** X30.  With whole numbers of correct and wrong answers and a positive
    whole number of questions in the form, the unattempted count shown is
    the exact difference [totalQuestions - (correct + wrong)], or [0] when
    more questions are attempted than there are.  A submission with more
    attempted questions than there are is never stored, and in a test
    that is stored the correct, the wrong and the unattempted answers add
    up to the number of questions. *)
Theorem stored_counts_add_up :
  forall (NumberToString : number -> string) (parseFloat_text : string -> number)
         (formData : CloudTracker.entry_form) (c w q : Z),
    CloudTracker.ef_correct formData = CloudTracker.Entered (of_Z c) ->
    CloudTracker.ef_wrong formData = CloudTracker.Entered (of_Z w) ->
    CloudTracker.ef_totalQuestions formData = CloudTracker.Entered (of_Z q) ->
    (0 <= c)%Z -> (0 <= w)%Z -> (c + w < 2 ^ 53)%Z -> (0 < q < 2 ^ 53)%Z ->
    let shown :=
      CloudTracker.stats NumberToString
        (CloudTracker.mkForm (CloudTracker.ef_correct formData)
                             (CloudTracker.ef_wrong formData)
                             (CloudTracker.ef_totalQuestions formData)) in
    CloudTracker.unattempted shown = of_Z (Z.max 0 (q - (c + w)))
    /\ (forall (db_ready : bool) (t : CloudTracker.new_test),
           CloudTracker.test_of_form NumberToString parseFloat_text db_ready formData
           = inr t ->
           (c + w <= q)%Z
           /\ CloudTracker.nt_correct t = of_Z c
           /\ CloudTracker.nt_incorrect t = of_Z w
           /\ CloudTracker.nt_unattempted t = of_Z (q - (c + w))
           /\ add (add (CloudTracker.nt_correct t) (CloudTracker.nt_incorrect t))
                  (CloudTracker.nt_unattempted t)
              = of_Z q)
    /\ ((q < c + w)%Z ->
        forall db_ready : bool,
          exists msg : string,
            CloudTracker.test_of_form NumberToString parseFloat_text db_ready formData
            = inl msg).
Proof.
  intros NumberToString parseFloat_text formData c w q Hc Hw Hq Hc0 Hw0 Hcw Hq0 shown.
  change (2 ^ 53)%Z with (2 ^ prec)%Z in *.
  assert (Hshown : CloudTracker.unattempted shown = of_Z (Z.max 0 (q - (c + w)))).
  { unfold shown, CloudTracker.stats. cbn [CloudTracker.unattempted].
    cbn [CloudTracker.correct CloudTracker.wrong CloudTracker.totalQuestions].
    rewrite Hc, Hw, Hq, !parseFloat_whole by lia.
    rewrite !or_else_zero_whole, or_else_positive_whole by lia.
    rewrite add_whole, sub_whole, ge_zero_whole by lia.
    destruct (Z.leb_spec 0 (q - (c + w))) as [H|H].
    - now rewrite Z.max_r by lia.
    - now rewrite Z.max_l by lia. }
  assert (Hguard : gt (add (CloudTracker.parseFloat_or_zero (CloudTracker.ef_correct formData))
                           (CloudTracker.parseFloat_or_zero (CloudTracker.ef_wrong formData)))
                      (CloudTracker.ToNumber (CloudTracker.ef_totalQuestions formData))
                   = (q <? c + w)%Z).
  { rewrite Hc, Hw, Hq, !parseFloat_or_zero_whole by lia.
    cbn [CloudTracker.ToNumber]. rewrite add_whole by lia.
    apply gt_whole; lia. }
  split; [exact Hshown|]. split.
  - intros db_ready t Ht. unfold CloudTracker.test_of_form in Ht.
    cbv zeta in Ht. fold shown in Ht. rewrite Hguard in Ht.
    destruct (negb db_ready); [discriminate Ht|].
    match type of Ht with
    | (if ?b then _ else _) = _ => destruct b; [discriminate Ht|]
    end.
    destruct (Z.ltb_spec q (c + w)) as [Hlt|Hle]; [discriminate Ht|].
    match type of Ht with
    | (if ?b then _ else _) = _ => destruct b; [discriminate Ht|]
    end.
    rewrite Hshown, Hc, Hw, Z.max_r in Ht by lia.
    rewrite !parseFloat_whole, or_else_zero_whole in Ht by lia.
    injection Ht as <-.
    cbn [CloudTracker.nt_correct CloudTracker.nt_incorrect CloudTracker.nt_unattempted].
    repeat split; try reflexivity; try lia.
    rewrite !add_whole by lia. f_equal. lia.
  - intros Hlt db_ready. unfold CloudTracker.test_of_form. cbv zeta.
    rewrite Hguard. apply Z.ltb_lt in Hlt. rewrite Hlt.
    destruct (negb db_ready); [eexists; reflexivity|].
    match goal with
    | |- exists msg, (if ?b then _ else _) = _ => destruct b; eexists; reflexivity
    end.
Qed.

Lemma stored_counts_add_up_witness :
  exists t : CloudTracker.new_test,
    CloudTracker.test_of_form Host.NumberToString Host.StringToNumber true
                              Samples.entry_whole = inr t
    /\ CloudTracker.nt_unattempted t = of_Z 5
    /\ add (add (CloudTracker.nt_correct t) (CloudTracker.nt_incorrect t))
           (CloudTracker.nt_unattempted t)
       = of_Z 65.
Proof.
  destruct (CloudTracker.test_of_form Host.NumberToString Host.StringToNumber true
                                      Samples.entry_whole) as [msg|t] eqn:E;
    [vm_compute in E; discriminate E|].
  exists t. split; [reflexivity|].
  assert (H0 : (0 <= 50)%Z) by lia.
  assert (H1 : (0 <= 10)%Z) by lia.
  assert (H2 : (50 + 10 < 2 ^ 53)%Z) by reflexivity.
  assert (H3 : (0 < 65 < 2 ^ 53)%Z) by (split; reflexivity).
  destruct (stored_counts_add_up Host.NumberToString Host.StringToNumber
              Samples.entry_whole 50 10 65 eq_refl eq_refl eq_refl H0 H1 H2 H3)
    as (_ & Hstored & _).
  destruct (Hstored true t E) as (_ & _ & _ & Hu & Hsum).
  split; [exact Hu | exact Hsum].
Defined.

(* ------------------------------------------------------------------ *)
(** ** Subject groups *)





